(** * Conversor de moedas: verification of the quote resolver and of the
      conversion pipeline of [main.py].

    The development embeds the methods of [ConversorApp]:
    [carregar_config], [_obter_cotacao] and [converter_moeda], and, for
    the selection kept from one session to the next, [__init__] with
    [_setup_ui] and [closeEvent].  Python
    floats are IEEE-754 binary64 values, modelled by [spec_float] of the
    standard library at precision 53; the network, the configuration file,
    the message boxes and the log are fields of an explicit state that the
    methods thread through a small state-and-exception monad.  The last
    lemma section bounds the error of one rounding of [spec_float], for
    the round trip of an amount through a rate and its reciprocal.  After
    the claims come further properties of the same methods.

    Texts are ASCII strings: a text with a character outside ASCII is
    outside the model, and statements that depend on what [float] does to
    the text typed ask for an ASCII text.  The builtins [float],
    [str.replace] and the
    format specification [,.2f] are modelled from the language reference;
    [requests] and [json] are modelled by their outcomes (a response or an
    exception). *)

From Stdlib Require Import ZArith NArith List String Ascii Bool Lia.
From Stdlib Require Import QArith Qpower Qabs Lqa.
From Stdlib Require Import Floats.SpecFloat DecimalString.
From Stdlib Require DecimalPos DecimalN.
Import ListNotations.

Local Open Scope Z_scope.

(* ================================================================= *)
(** ** Binary64 arithmetic *)

Module F64.

Definition prec : Z := 53.
Definition emax : Z := 1024.

Definition float := spec_float.

Definition zero : float := S754_zero false.

Definition mul (x y : float) : float := SFmul prec emax x y.
Definition div (x y : float) : float := SFdiv prec emax x y.

(** [x <= y]; false as soon as one side is a NaN. *)
Definition leb (x y : float) : bool := SFleb x y.

(** The integer [z] rounded to the nearest float, ties to even. *)
Definition of_Z (z : Z) : float := binary_normalize prec emax z 0 false.

Definition one : float := of_Z 1.

Definition is_zero (x : float) : bool :=
  match x with S754_zero _ => true | _ => false end.

Definition is_finite (x : float) : bool :=
  match x with S754_zero _ | S754_finite _ _ _ => true | _ => false end.

Definition is_nan (x : float) : bool :=
  match x with S754_nan => true | _ => false end.

Definition is_pos_finite (x : float) : bool :=
  match x with S754_finite false _ _ => true | _ => false end.

(** A positive normal number: the mantissa has all its [prec] bits. *)
Definition is_normal (x : float) : bool :=
  match x with
  | S754_finite false m _ => Z.pos (digits2_pos m) =? prec
  | _ => false
  end.

(** The decimal number [(-1)^neg * m * 10^e] rounded to the nearest
    float, ties to even; an overflow gives an infinity. *)
Definition of_decimal (neg : bool) (m : N) (e : Z) : float :=
  match m with
  | N0 => S754_zero neg
  | Npos p =>
      if 0 <=? e
      then binary_normalize prec emax
             (cond_Zopp neg (Zpos p * 10 ^ e)) 0 neg
      else div (S754_finite neg p 0)
               (S754_finite false (Pos.pow 10 (Z.to_pos (- e))) 0)
  end.

End F64.

(* ================================================================= *)
(** ** Python builtins on text *)

Module Py.

Local Open Scope string_scope.

Definition is_digit (c : ascii) : bool :=
  let n := N_of_ascii c in (48 <=? n)%N && (n <=? 57)%N.

Definition digit_value (c : ascii) : N := (N_of_ascii c - 48)%N.

(** ASCII white space, as [float] strips it: tab, line feed, vertical
    tab, form feed, carriage return and space. *)
Definition is_space (c : ascii) : bool :=
  let n := N_of_ascii c in ((9 <=? n)%N && (n <=? 13)%N) || (n =? 32)%N.

Definition lower (c : ascii) : ascii :=
  let n := N_of_ascii c in
  if (65 <=? n)%N && (n <=? 90)%N then ascii_of_N (n + 32) else c.

Fixpoint lower_str (s : string) : string :=
  match s with
  | EmptyString => EmptyString
  | String c r => String (lower c) (lower_str r)
  end.

(** [s.replace(a, b)] for one-character [a] and [b]: every occurrence is
    replaced. *)
Fixpoint replace (a b : ascii) (s : string) : string :=
  match s with
  | EmptyString => EmptyString
  | String c r => String (if Ascii.eqb c a then b else c) (replace a b r)
  end.

Fixpoint lstrip (s : string) : string :=
  match s with
  | EmptyString => EmptyString
  | String c r => if is_space c then lstrip r else s
  end.

Fixpoint rstrip (s : string) : string :=
  match s with
  | EmptyString => EmptyString
  | String c r =>
      match rstrip r with
      | EmptyString => if is_space c then EmptyString else String c EmptyString
      | r' => String c r'
      end
  end.

Definition strip (s : string) : string := rstrip (lstrip s).

(** Underscores of a numeric literal: allowed only between two digits,
    and dropped.  [prev] is the character before [s]. *)
Fixpoint drop_underscores (prev : ascii) (s : string) : option string :=
  match s with
  | EmptyString => if Ascii.eqb prev "_" then None else Some EmptyString
  | String c r =>
      if Ascii.eqb c "_"
      then if is_digit prev then drop_underscores c r else None
      else if Ascii.eqb prev "_" && negb (is_digit c) then None
      else option_map (String c) (drop_underscores c r)
  end.

Fixpoint span_digits (s : string) : string * string :=
  match s with
  | EmptyString => (EmptyString, EmptyString)
  | String c r =>
      if is_digit c
      then let (d, t) := span_digits r in (String c d, t)
      else (EmptyString, s)
  end.

Fixpoint digits_value (acc : N) (s : string) : N :=
  match s with
  | EmptyString => acc
  | String c r => digits_value (10 * acc + digit_value c)%N r
  end.

Definition split_sign (s : string) : bool * string :=
  match s with
  | String "-" r => (true, r)
  | String "+" r => (false, r)
  | _ => (false, s)
  end.

(** The exponent part, which must reach the end of the text: nothing, or
    [e] or [E], an optional sign and at least one digit. *)
Definition parse_exponent (s : string) : option Z :=
  match s with
  | EmptyString => Some 0
  | String c r =>
      if Ascii.eqb (lower c) "e" then
        let (neg, r1) := split_sign r in
        let (d, r2) := span_digits r1 in
        match d, r2 with
        | String _ _, EmptyString =>
            Some (cond_Zopp neg (Z.of_N (digits_value 0 d)))
        | _, _ => None
        end
      else None
  end.

(** A decimal literal: sign, integer digits, optional point and fraction
    digits (one digit at least in all), optional exponent. *)
Definition parse_decimal (s : string) : option F64.float :=
  let (neg, r) := split_sign s in
  let (di, r1) := span_digits r in
  let (df, r2) :=
    match r1 with
    | String "." t => span_digits t
    | _ => (EmptyString, r1)
    end in
  match di ++ df with
  | EmptyString => None
  | ds =>
      match parse_exponent r2 with
      | Some e =>
          Some (F64.of_decimal neg (digits_value 0 ds)
                  (e - Z.of_nat (String.length df)))
      | None => None
      end
  end.

Definition parse_inf_nan (s : string) : option F64.float :=
  let (neg, r) := split_sign s in
  let l := lower_str r in
  if String.eqb l "inf" || String.eqb l "infinity"
  then Some (S754_infinity neg)
  else if String.eqb l "nan" then Some S754_nan
  else None.

(** [float(s)] for an ASCII text [s]; [None] stands for the [ValueError]
    "could not convert string to float".  On a text with other characters
    Python first turns Unicode decimal digits into ASCII digits and Unicode
    white space into spaces; that step is not modelled. *)
Definition float_of_str (s : string) : option F64.float :=
  match drop_underscores "000" s with
  | None => None
  | Some t =>
      let u := strip t in
      match parse_decimal u with
      | Some x => Some x
      | None => parse_inf_nan u
      end
  end.

(** *** The format specification [,.2f] *)

(** [m * 2^e] in hundredths, rounded to the nearest integer, ties to
    even. *)
Definition centavos (m : positive) (e : Z) : Z :=
  match e with
  | Zneg p =>
      let d := 2 ^ Zpos p in
      let q := (100 * Zpos m) / d in
      let r := (100 * Zpos m) mod d in
      match 2 * r ?= d with
      | Lt => q
      | Eq => if Z.even q then q else q + 1
      | Gt => q + 1
      end
  | _ => 100 * Zpos m * 2 ^ e
  end.

Definition digits_of_Z (z : Z) : string :=
  NilZero.string_of_uint (N.to_uint (Z.to_N z)).

Definition digit_char (z : Z) : ascii := ascii_of_N (48 + Z.to_N z).

Definition two_digits (z : Z) : string :=
  String (digit_char (z / 10)) (String (digit_char (z mod 10)) EmptyString).

Fixpoint rev_str (acc s : string) : string :=
  match s with
  | EmptyString => acc
  | String c r => rev_str (String c acc) r
  end.

(** On the digits from the least significant one: [sep] before every
    digit that opens a new group of three; [k] digits are still to come
    in the current group. *)
Fixpoint insert_sep (sep : ascii) (k : nat) (s : string) : string :=
  match s with
  | EmptyString => EmptyString
  | String c r =>
      match k with
      | O => String sep (String c (insert_sep sep 2 r))
      | S k' => String c (insert_sep sep k' r)
      end
  end.

Definition group3 (sep : ascii) (digits : string) : string :=
  rev_str EmptyString (insert_sep sep 3 (rev_str EmptyString digits)).

Definition sign_str (neg : bool) : string := if neg then "-" else "".

(** A number of [c] hundredths with [mil] between groups of three
    integer digits and [dec] before the two fraction digits. *)
Definition fixed2 (mil dec : ascii) (neg : bool) (c : Z) : string :=
  sign_str neg ++ group3 mil (digits_of_Z (c / 100))
               ++ String dec (two_digits (c mod 100)).

Definition format_2f (mil dec : ascii) (x : F64.float) : string :=
  match x with
  | S754_nan => "nan"
  | S754_infinity neg => sign_str neg ++ "inf"
  | S754_zero neg => fixed2 mil dec neg 0
  | S754_finite neg m e => fixed2 mil dec neg (centavos m e)
  end.

(** [f"{x:,.2f}"] *)
Definition format_comma_2f (x : F64.float) : string := format_2f "," "." x.

End Py.

(* ================================================================= *)
(** ** Values, exceptions and the program state *)

Local Open Scope string_scope.

(** A decoded JSON document.  The fields of an object are kept as an
    association list; a key is looked up from the head. *)
#[warnings="-register-all"]
Inductive json :=
| JNull
| JBool (b : bool)
| JInt (z : Z)
| JFloat (x : F64.float)
| JStr (s : string)
| JArr (l : list json)
| JObj (campos : list (string * json)).

Fixpoint campo (chave : string) (campos : list (string * json)) : option json :=
  match campos with
  | [] => None
  | (k, v) :: r => if String.eqb k chave then Some v else campo chave r
  end.

(** The exceptions the three methods can meet.  [FloatValueError] is the
    [ValueError] of [float] on a text it cannot convert; [ConnectionError]
    stands for what [requests.get] raises (connection failure, timeout);
    [JSONDecodeError] is the one of [requests], which derives from both
    [RequestException] and [ValueError]. *)
Inductive excecao :=
| ValueError (msg : string)
| FloatValueError (texto : string)
| TypeError
| KeyError (chave : string)
| AttributeError
| ZeroDivisionError
| OverflowError
| ConnectionError (detalhe : string)
| HTTPError (status : Z)
| JSONDecodeError.

Definition eh_ValueError (e : excecao) : bool :=
  match e with
  | ValueError _ | FloatValueError _ | JSONDecodeError => true
  | _ => false
  end.

Definition eh_RequestException (e : excecao) : bool :=
  match e with
  | ConnectionError _ | HTTPError _ | JSONDecodeError => true
  | _ => false
  end.

(** What one [requests.get] meets: an exception of the transport, or a
    response with its status and its body ([None]: not a JSON document). *)
Inductive resultado_http :=
| FalhaRede (detalhe : string)
| Resposta (status : Z) (corpo : option json).

(** [config.json] as [carregar_config] finds it: absent; present, but
    [open] or [json.load] raises (recorded as a [JSONDecodeError]); or
    decoded. *)
Inductive arquivo :=
| Ausente
| Invalido
| Conteudo (config : json).

Record combo := { itens : list string; indice : Z }.

(** The text of the footer label, kept as the values it interpolates:
    ["Fonte: AwesomeAPI | Última Cotação: -"] at start, then
    [f"Fonte: AwesomeAPI | Par Usado: {par_usado} | Última Cotação: {data}"]. *)
Inductive rodape :=
| RodapeInicial
| RodapeCotacao (par_usado : string) (data_cotacao : json).

Inductive icone := Warning | Critical.

(** The text of a message box: a fixed text, or a fixed text followed by
    [str] of an exception. *)
Inductive mensagem :=
| Texto (t : string)
| Detalhe (t : string) (e : excecao).

Record dialogo := { caixa : icone; titulo : string; texto : mensagem }.

Inductive nivel := INFO | WARNING | ERROR | CRITICAL.

(** One constructor per [logging] call, with the values of its f-string. *)
Inductive evento :=
| LogConfigAusente
| LogConfigCarregada
| LogConfigFalha (e : excecao)
| LogIniciando (valor_texto origem destino : string)
| LogFalhaDireta (par_direto par_inverso : string) (e : excecao)
| LogConcluida (resultado : F64.float) (destino : string) (cotacao : F64.float)
| LogErroValor (e : excecao)
| LogErroConexao (e : excecao)
| LogErroDesconhecido (e : excecao).

(** The window and its surroundings.  [rede n url] is what the request
    number [n] meets at [url]; [pedidos] lists the URLs requested so far;
    [dialogos] and [registro] grow at the end. *)
Record estado := {
  combo_origem : combo;
  combo_destino : combo;
  input_valor : string;
  lbl_resultado : string;
  lbl_data_cotacao : rodape;
  rede : nat -> string -> resultado_http;
  pedidos : list string;
  arquivo_config : arquivo;
  dialogos : list dialogo;
  registro : list (nivel * evento)
}.

Definition com_combo_origem (c : combo) (s : estado) : estado :=
  {| combo_origem := c; combo_destino := combo_destino s;
     input_valor := input_valor s; lbl_resultado := lbl_resultado s;
     lbl_data_cotacao := lbl_data_cotacao s; rede := rede s;
     pedidos := pedidos s; arquivo_config := arquivo_config s;
     dialogos := dialogos s; registro := registro s |}.

Definition com_combo_destino (c : combo) (s : estado) : estado :=
  {| combo_origem := combo_origem s; combo_destino := c;
     input_valor := input_valor s; lbl_resultado := lbl_resultado s;
     lbl_data_cotacao := lbl_data_cotacao s; rede := rede s;
     pedidos := pedidos s; arquivo_config := arquivo_config s;
     dialogos := dialogos s; registro := registro s |}.

Definition com_lbl_resultado (t : string) (s : estado) : estado :=
  {| combo_origem := combo_origem s; combo_destino := combo_destino s;
     input_valor := input_valor s; lbl_resultado := t;
     lbl_data_cotacao := lbl_data_cotacao s; rede := rede s;
     pedidos := pedidos s; arquivo_config := arquivo_config s;
     dialogos := dialogos s; registro := registro s |}.

Definition com_lbl_data_cotacao (r : rodape) (s : estado) : estado :=
  {| combo_origem := combo_origem s; combo_destino := combo_destino s;
     input_valor := input_valor s; lbl_resultado := lbl_resultado s;
     lbl_data_cotacao := r; rede := rede s;
     pedidos := pedidos s; arquivo_config := arquivo_config s;
     dialogos := dialogos s; registro := registro s |}.

Definition com_pedidos (p : list string) (s : estado) : estado :=
  {| combo_origem := combo_origem s; combo_destino := combo_destino s;
     input_valor := input_valor s; lbl_resultado := lbl_resultado s;
     lbl_data_cotacao := lbl_data_cotacao s; rede := rede s;
     pedidos := p; arquivo_config := arquivo_config s;
     dialogos := dialogos s; registro := registro s |}.

Definition com_dialogos (d : list dialogo) (s : estado) : estado :=
  {| combo_origem := combo_origem s; combo_destino := combo_destino s;
     input_valor := input_valor s; lbl_resultado := lbl_resultado s;
     lbl_data_cotacao := lbl_data_cotacao s; rede := rede s;
     pedidos := pedidos s; arquivo_config := arquivo_config s;
     dialogos := d; registro := registro s |}.

Definition com_registro (r : list (nivel * evento)) (s : estado) : estado :=
  {| combo_origem := combo_origem s; combo_destino := combo_destino s;
     input_valor := input_valor s; lbl_resultado := lbl_resultado s;
     lbl_data_cotacao := lbl_data_cotacao s; rede := rede s;
     pedidos := pedidos s; arquivo_config := arquivo_config s;
     dialogos := dialogos s; registro := r |}.

(* ================================================================= *)
(** ** Programs: state passing with exceptions *)

Inductive resultado (A : Type) :=
| Retorno (a : A)
| Excecao (e : excecao).

Arguments Retorno {A} a.
Arguments Excecao {A} e.

Definition Prog (A : Type) : Type := estado -> resultado A * estado.

Definition ret {A} (a : A) : Prog A := fun s => (Retorno a, s).

Definition raise {A} (e : excecao) : Prog A := fun s => (Excecao e, s).

Definition bind {A B} (c : Prog A) (k : A -> Prog B) : Prog B :=
  fun s =>
    match c s with
    | (Retorno a, s') => k a s'
    | (Excecao e, s') => (Excecao e, s')
    end.

(** [try: c except Exception as e: h e] *)
Definition try_except {A} (c : Prog A) (h : excecao -> Prog A) : Prog A :=
  fun s =>
    match c s with
    | (Retorno a, s') => (Retorno a, s')
    | (Excecao e, s') => h e s'
    end.

Definition lift {A} (r : resultado A) : Prog A := fun s => (r, s).

Definition ler {A} (f : estado -> A) : Prog A := fun s => (Retorno (f s), s).

Definition alterar (f : estado -> estado) : Prog unit :=
  fun s => (Retorno tt, f s).

Declare Scope prog_scope.
Delimit Scope prog_scope with prog.
Notation "x <- c ;; k" := (bind c (fun x => k))
  (at level 61, c at next level, right associativity) : prog_scope.
Notation "' p <- c ;; k" := (bind c (fun x => match x with p => k end))
  (at level 61, p pattern, c at next level, right associativity) : prog_scope.
Notation "c ;;; k" := (bind c (fun _ => k))
  (at level 61, right associativity) : prog_scope.

Local Open Scope prog_scope.

(* ================================================================= *)
(** ** The collaborators: [logging], [QMessageBox], [QComboBox],
       [requests], and the operators applied to decoded JSON *)

Definition logging (n : nivel) (ev : evento) : Prog unit :=
  alterar (fun s => com_registro (registro s ++ [(n, ev)])%list s).

Definition QMessageBox_warning (t msg : string) : Prog unit :=
  alterar (fun s =>
    com_dialogos (dialogos s ++ [{| caixa := Warning; titulo := t;
                                   texto := Texto msg |}])%list s).

Definition QMessageBox_critical (t : string) (msg : mensagem) : Prog unit :=
  alterar (fun s =>
    com_dialogos (dialogos s ++ [{| caixa := Critical; titulo := t;
                                   texto := msg |}])%list s).

Definition currentText (c : combo) : string :=
  if (indice c <? 0)%Z then "" else nth (Z.to_nat (indice c)) (itens c) "".

Fixpoint findText_de (i : Z) (l : list string) (t : string) : Z :=
  match l with
  | [] => (-1)%Z
  | x :: r => if String.eqb x t then i else findText_de (i + 1)%Z r t
  end.

(** [combo.findText(v)]: the index of the first item equal to the text,
    or -1; a value that is not a text is refused with [TypeError]. *)
Definition findText (c : combo) (v : json) : resultado Z :=
  match v with
  | JStr t => Retorno (findText_de 0 (itens c) t)
  | _ => Excecao TypeError
  end.

Definition setCurrentIndex (i : Z) (c : combo) : combo :=
  {| itens := itens c; indice := i |}.

Definition API_URL (origem destino : string) : string :=
  "https://economia.awesomeapi.com.br/json/last/" ++ origem ++ "-" ++ destino.

(** [requests.get(url, timeout=10)] *)
Definition requests_get (url : string) : Prog (Z * option json) :=
  fun s =>
    let s' := com_pedidos (pedidos s ++ [url])%list s in
    match rede s (List.length (pedidos s)) url with
    | FalhaRede d => (Excecao (ConnectionError d), s')
    | Resposta st corpo => (Retorno (st, corpo), s')
    end.

(** [resposta.raise_for_status()]: [HTTPError] for a status from 400 to
    599. *)
Definition raise_for_status (resposta : Z * option json) : resultado unit :=
  let st := fst resposta in
  if ((400 <=? st) && (st <? 600))%Z then Excecao (HTTPError st) else Retorno tt.

(** [resposta.json()] *)
Definition resposta_json (resposta : Z * option json) : resultado json :=
  match snd resposta with
  | Some j => Retorno j
  | None => Excecao JSONDecodeError
  end.

Definition contem_texto (chave s : string) : bool :=
  match String.index 0 chave s with Some _ => true | None => false end.

(** [chave in dados] *)
Definition py_in (chave : string) (dados : json) : resultado bool :=
  match dados with
  | JObj campos =>
      Retorno (match campo chave campos with Some _ => true | None => false end)
  | JArr l =>
      Retorno (existsb (fun v => match v with
                                 | JStr t => String.eqb t chave
                                 | _ => false
                                 end) l)
  | JStr t => Retorno (contem_texto chave t)
  | _ => Excecao TypeError
  end.

(** [dados[chave]] for a text [chave] *)
Definition getitem (dados : json) (chave : string) : resultado json :=
  match dados with
  | JObj campos =>
      match campo chave campos with
      | Some v => Retorno v
      | None => Excecao (KeyError chave)
      end
  | _ => Excecao TypeError
  end.

(** [config.get(chave)] *)
Definition dict_get (config : json) (chave : string) : resultado json :=
  match config with
  | JObj campos =>
      Retorno (match campo chave campos with Some v => v | None => JNull end)
  | _ => Excecao AttributeError
  end.

(** The truth value of [v] in [if v:] *)
Definition verdadeiro (v : json) : bool :=
  match v with
  | JNull => false
  | JBool b => b
  | JInt z => negb (z =? 0)%Z
  | JFloat x => negb (F64.is_zero x)
  | JStr t => negb (String.eqb t "")
  | JArr l => match l with [] => false | _ => true end
  | JObj c => match c with [] => false | _ => true end
  end.

(** [float(s)] for a text *)
Definition float_str (s : string) : resultado F64.float :=
  match Py.float_of_str s with
  | Some x => Retorno x
  | None => Excecao (FloatValueError s)
  end.

(** [float(v)] for a decoded JSON value *)
Definition float_json (v : json) : resultado F64.float :=
  match v with
  | JStr t => float_str t
  | JFloat x => Retorno x
  | JInt z =>
      match F64.of_Z z with
      | S754_infinity _ => Excecao OverflowError
      | x => Retorno x
      end
  | JBool b => Retorno (if b then F64.one else F64.zero)
  | _ => Excecao TypeError
  end.

(** [x / y] on floats *)
Definition truediv (x y : F64.float) : resultado F64.float :=
  if F64.is_zero y then Excecao ZeroDivisionError else Retorno (F64.div x y).

(* ================================================================= *)
(** ** The methods of [ConversorApp] *)

Definition cotacao : Type := F64.float * json * string.

(** The text of the [ValueError] raised at the end of [_obter_cotacao]. *)
Definition mensagem_indisponivel (origem destino : string) : string :=
  "O par de moedas " ++ origem ++ "-" ++ destino
  ++ " e o par inverso não foram encontrados ou a API está indisponível.".

(** [_obter_cotacao(origem, destino)].  Each [try] body gives [Some q]
    where the source returns [q] and [None] where it falls off its end. *)
Definition _obter_cotacao (origem destino : string) : Prog cotacao :=
  let par_direto_chave := origem ++ destino in
  let url_direta := API_URL origem destino in
  let par_inverso_chave := destino ++ origem in
  let url_inversa := API_URL destino origem in
  achado <-
    try_except
      (resposta <- requests_get url_direta ;;
       lift (raise_for_status resposta) ;;;
       dados <- lift (resposta_json resposta) ;;
       presente <- lift (py_in par_direto_chave dados) ;;
       if presente : bool then
         dados_moeda <- lift (getitem dados par_direto_chave) ;;
         bid <- lift (getitem dados_moeda "bid") ;;
         cotacao_bid <- lift (float_json bid) ;;
         data_api <- lift (getitem dados_moeda "create_date") ;;
         ret (Some (cotacao_bid, data_api, par_direto_chave))
       else ret None)
      (fun e =>
         logging WARNING (LogFalhaDireta par_direto_chave par_inverso_chave e) ;;;
         try_except
           (resposta <- requests_get url_inversa ;;
            lift (raise_for_status resposta) ;;;
            dados <- lift (resposta_json resposta) ;;
            presente <- lift (py_in par_inverso_chave dados) ;;
            if presente : bool then
              dados_moeda <- lift (getitem dados par_inverso_chave) ;;
              bid <- lift (getitem dados_moeda "bid") ;;
              denominador <- lift (float_json bid) ;;
              cotacao_bid <- lift (truediv F64.one denominador) ;;
              data_api <- lift (getitem dados_moeda "create_date") ;;
              ret (Some (cotacao_bid, data_api, par_inverso_chave))
            else ret None)
           (fun _ => ret None)) ;;
  match achado with
  | Some q => ret q
  | None => raise (ValueError (mensagem_indisponivel origem destino))
  end.

(** The three [replace] calls that swap the separators of [,.2f]. *)
Definition inverter_separadores (t : string) : string :=
  Py.replace "_" "." (Py.replace "." "," (Py.replace "," "_" t)).

(** [converter_moeda()], the slot of the button. *)
Definition converter_moeda : Prog unit :=
  moeda_origem <- ler (fun s => currentText (combo_origem s)) ;;
  moeda_destino <- ler (fun s => currentText (combo_destino s)) ;;
  valor_texto <- ler (fun s => Py.replace "," "." (input_valor s)) ;;
  logging INFO (LogIniciando valor_texto moeda_origem moeda_destino) ;;;
  if String.eqb moeda_origem moeda_destino then
    QMessageBox_warning "Aviso"
      "As moedas de origem e destino não podem ser as mesmas."
  else
    try_except
      (if String.eqb valor_texto "" then
         QMessageBox_warning "Aviso" "Por favor, insira um valor."
       else
         valor <- lift (float_str valor_texto) ;;
         if F64.leb valor F64.zero then
           QMessageBox_warning "Aviso" "O valor deve ser maior que zero."
         else
           '(cotacao, data_cotacao_str, par_usado) <-
              _obter_cotacao moeda_origem moeda_destino ;;
           let resultado := F64.mul valor cotacao in
           let texto_resultado :=
             inverter_separadores (Py.format_comma_2f resultado) in
           alterar (com_lbl_resultado texto_resultado) ;;;
           alterar (com_lbl_data_cotacao
                      (RodapeCotacao par_usado data_cotacao_str)) ;;;
           logging INFO (LogConcluida resultado moeda_destino cotacao))
      (fun e =>
         if eh_ValueError e then
           logging ERROR (LogErroValor e) ;;;
           QMessageBox_critical "Erro de API"
             (Detalhe "Valor inválido ou erro de cotação. Detalhe: " e)
         else if eh_RequestException e then
           logging ERROR (LogErroConexao e) ;;;
           QMessageBox_critical "Erro de Conexão"
             (Detalhe "Falha ao conectar na API. Verifique sua internet. Detalhe: " e)
         else
           logging CRITICAL (LogErroDesconhecido e) ;;;
           QMessageBox_critical "Erro Desconhecido"
             (Detalhe "Ocorreu um erro inesperado: " e)).

(** One [if v: i = combo.findText(v); if i >= 0: combo.setCurrentIndex(i)]
    of [carregar_config], on the combo read by [obter] and written by
    [gravar]. *)
Definition selecionar (v : json) (obter : estado -> combo)
    (gravar : combo -> estado -> estado) : Prog unit :=
  if verdadeiro v then
    c <- ler obter ;;
    index <- lift (findText c v) ;;
    if (0 <=? index)%Z then alterar (gravar (setCurrentIndex index c))
    else ret tt
  else ret tt.

(** [carregar_config()] *)
Definition carregar_config : Prog unit :=
  arq <- ler arquivo_config ;;
  match arq with
  | Ausente => logging WARNING LogConfigAusente
  | _ =>
      try_except
        (config <- match arq with
                   | Conteudo j => ret j
                   | _ => raise JSONDecodeError
                   end ;;
         origem <- lift (dict_get config "origem") ;;
         destino <- lift (dict_get config "destino") ;;
         selecionar origem combo_origem com_combo_origem ;;;
         selecionar destino combo_destino com_combo_destino ;;;
         logging INFO LogConfigCarregada)
        (fun e => logging ERROR (LogConfigFalha e))
  end.

(** The window as [_setup_ui] leaves it. *)
Definition moedas : list string :=
  ["USD"; "BRL"; "EUR"; "JPY"; "ARS"; "CAD"; "AUD"; "GBP"; "CHF"].

Definition janela_inicial (r : nat -> string -> resultado_http)
    (arq : arquivo) : estado :=
  {| combo_origem := {| itens := moedas; indice := 0 |};
     combo_destino := {| itens := moedas; indice := 0 |};
     input_valor := "";
     lbl_resultado := "0,00";
     lbl_data_cotacao := RodapeInicial;
     rede := r; pedidos := []; arquivo_config := arq;
     dialogos := []; registro := [] |}.

(* ================================================================= *)
(** ** Vocabulary of the statements *)

(** The response carries a usable entry for [chave]: an object with a
    ["bid"] that [float] converts to [x] and a ["create_date"] [data]. *)
Definition entrada_valida (corpo : list (string * json)) (chave : string)
    (x : F64.float) (data : json) : Prop :=
  exists entrada bid,
    campo chave corpo = Some (JObj entrada) /\
    campo "bid" entrada = Some bid /\
    float_json bid = Retorno x /\
    campo "create_date" entrada = Some data.

(** The request meets a failure that raises: a transport error, a status
    from 400 to 599, or a body that is not JSON. *)
Definition falha_http (r : resultado_http) : Prop :=
  match r with
  | FalhaRede _ => True
  | Resposta st corpo => (400 <= st < 600)%Z \/ corpo = None
  end.

(** The text that [converter_moeda] validates and hands to [float]
    (line 221). *)
Definition valor_texto (s : estado) : string :=
  Py.replace "," "." (input_valor s).

(** The state in which [converter_moeda] reaches its tests: the start of
    the conversion is logged. *)
Definition iniciada (s : estado) : estado :=
  com_registro
    (registro s ++ [(INFO, LogIniciando (valor_texto s)
                             (currentText (combo_origem s))
                             (currentText (combo_destino s)))])%list s.

(** A window ready to convert [valor] from [moedas[i]] to [moedas[j]]. *)
Definition janela (r : nat -> string -> resultado_http) (i j : Z)
    (valor : string) : estado :=
  {| combo_origem := {| itens := moedas; indice := i |};
     combo_destino := {| itens := moedas; indice := j |};
     input_valor := valor;
     lbl_resultado := "0,00";
     lbl_data_cotacao := RodapeInicial;
     rede := r; pedidos := []; arquivo_config := Ausente;
     dialogos := []; registro := [] |}.

(** Every character of [t] satisfies [P]. *)
Fixpoint todos (P : ascii -> bool) (t : string) : bool :=
  match t with
  | EmptyString => true
  | String c r => P c && todos P r
  end.

Fixpoint map_str (f : ascii -> ascii) (t : string) : string :=
  match t with
  | EmptyString => EmptyString
  | String c r => String (f c) (map_str f r)
  end.

(** What the three [replace] calls do to one character. *)
Definition troca (c : ascii) : ascii :=
  let c1 := if Ascii.eqb c "," then "_"%char else c in
  let c2 := if Ascii.eqb c1 "." then ","%char else c1 in
  if Ascii.eqb c2 "_" then "."%char else c2.

(** The characters of a number in the Brazilian convention, its decimal
    comma apart. *)
Definition de_inteiro (c : ascii) : bool :=
  Py.is_digit c || Ascii.eqb c "." || Ascii.eqb c "-".

(** The states [converter_moeda] ends in. *)
Definition avisado (msg : string) (s : estado) : estado :=
  com_dialogos
    (dialogos s ++ [{| caixa := Warning; titulo := "Aviso";
                       texto := Texto msg |}])%list s.

Definition recuperado (s : estado) (e : excecao) : estado :=
  if eh_ValueError e then
    com_dialogos
      (dialogos s ++ [{| caixa := Critical; titulo := "Erro de API";
                         texto := Detalhe "Valor inválido ou erro de cotação. Detalhe: " e |}])%list
      (com_registro (registro s ++ [(ERROR, LogErroValor e)])%list s)
  else if eh_RequestException e then
    com_dialogos
      (dialogos s ++ [{| caixa := Critical; titulo := "Erro de Conexão";
                         texto := Detalhe "Falha ao conectar na API. Verifique sua internet. Detalhe: " e |}])%list
      (com_registro (registro s ++ [(ERROR, LogErroConexao e)])%list s)
  else
    com_dialogos
      (dialogos s ++ [{| caixa := Critical; titulo := "Erro Desconhecido";
                         texto := Detalhe "Ocorreu um erro inesperado: " e |}])%list
      (com_registro (registro s ++ [(CRITICAL, LogErroDesconhecido e)])%list s).

Definition exibido (valor : F64.float) (destino : string) (q : cotacao)
    (s : estado) : estado :=
  let '(cotacao, data, par) := q in
  let resultado := F64.mul valor cotacao in
  com_registro
    (registro s ++ [(INFO, LogConcluida resultado destino cotacao)])%list
    (com_lbl_data_cotacao (RodapeCotacao par data)
       (com_lbl_resultado
          (inverter_separadores (Py.format_comma_2f resultado)) s)).

(** The state in which the handler of the direct [try] issues the inverse
    request, after the exception [e]. *)
Definition apos_falha_direta (origem destino : string) (s : estado)
    (e : excecao) : estado :=
  com_registro
    (registro s ++ [(WARNING, LogFalhaDireta (origem ++ destino)
                                (destino ++ origem) e)])%list
    (com_pedidos (pedidos s ++ [API_URL origem destino])%list s).




(* ================================================================= *)
(** ** Vocabulary of the rounding analysis *)

(** The rational number a finite float stands for. *)
Definition SF2Q (x : spec_float) : Q :=
  match x with
  | S754_finite s m e =>
      (if s then -1 else 1) * inject_Z (Z.pos m) * 2 ^ e
  | _ => 0
  end%Q.

(** The unit roundoff at precision [prec]. *)
Definition unidade (prec : Z) : Q := (2 ^ (- prec))%Q.

(** The record [rec] describes the fraction [N / D]: its integer part,
    and where its remainder stands against the half of [D]. *)
Definition descreve (N D : Z) (rec : shr_record) : Prop :=
  shr_m rec = (N / D)%Z /\
  shr_r rec = (D <=? 2 * (N mod D))%Z /\
  shr_s rec = negb (N mod D =? 0)%Z && negb (2 * (N mod D) =? D)%Z.

(** An amount converted at the rate [r] (the product of line 245), then
    converted back at the reciprocal rate [1 / r] that the inverse path
    computes (line 203). *)
Definition ida_e_volta (a r : F64.float) : F64.float :=
  F64.mul (F64.mul a r) (F64.div F64.one r).

(* ================================================================= *)
(** ** Networks of the examples *)

Definition resposta_cotacao (par bid : string) : resultado_http :=
  Resposta 200
    (Some (JObj [(par, JObj [("bid", JStr bid);
                             ("create_date", JStr "2024-01-01 12:00:00")])])).

(** The service quotes USD-BRL at 5.00. *)
Definition rede_direta (_ : nat) (_ : string) : resultado_http :=
  resposta_cotacao "USDBRL" "5.00".

(** The service quotes USD-BRL at 10. *)
Definition rede_direta_10 (_ : nat) (_ : string) : resultado_http :=
  resposta_cotacao "USDBRL" "10".

(** The service knows BRL-USD only: it answers the direct request with
    an empty object and the inverse one with a quotation at 0.20. *)
Definition rede_so_inversa (_ : nat) (url : string) : resultado_http :=
  if String.eqb url (API_URL "BRL" "USD")
  then resposta_cotacao "BRLUSD" "0.20"
  else Resposta 200 (Some (JObj [])).

(** The direct request meets a connection error and the inverse one is
    answered with a quotation at 0.20. *)
Definition rede_inversa_apos_erro (_ : nat) (url : string) : resultado_http :=
  if String.eqb url (API_URL "BRL" "USD")
  then resposta_cotacao "BRLUSD" "0.20"
  else FalhaRede "connection error".

(** No request gets through. *)
Definition rede_fora (_ : nat) (_ : string) : resultado_http :=
  FalhaRede "timeout".

(* ================================================================= *)
(** ** The two attempts of [_obter_cotacao], seen apart *)

(** The body of one [try] of [_obter_cotacao]: the request at [url], the
    entry read under [chave] and, in the inverse attempt, the reciprocal
    of its bid (lines 180 to 188 and 197 to 205). *)
Definition tentativa (url chave : string) (inversa : bool)
    : Prog (option cotacao) :=
  resposta <- requests_get url ;;
  lift (raise_for_status resposta) ;;;
  dados <- lift (resposta_json resposta) ;;
  presente <- lift (py_in chave dados) ;;
  if presente : bool then
    dados_moeda <- lift (getitem dados chave) ;;
    bid <- lift (getitem dados_moeda "bid") ;;
    x <- lift (float_json bid) ;;
    cotacao_bid <- (if inversa then lift (truediv F64.one x) else ret x) ;;
    data_api <- lift (getitem dados_moeda "create_date") ;;
    ret (Some (cotacao_bid, data_api, chave))
  else ret None.

(** What follows an attempt: its quotation is returned, and without one
    the [ValueError] of line 212 is raised. *)
Definition conclui (origem destino : string)
    (r : resultado (option cotacao) * estado) : resultado cotacao * estado :=
  match r with
  | (Retorno (Some q), s) => (Retorno q, s)
  | (_, s) => (Excecao (ValueError (mensagem_indisponivel origem destino)), s)
  end.


(** The requests of one run of [converter_moeda]: none, the direct one,
    or the direct one and then the inverse one. *)
Definition pedidos_de (origem destino : string) (l : list string) : Prop :=
  l = [] \/ l = [API_URL origem destino] \/
  l = [API_URL origem destino; API_URL destino origem].

(* ================================================================= *)
(** ** The saved selection *)

(** The value [config.get] gives for a field has no effect on the combo:
    it is false in an [if], or a text that is not among the items. *)
Definition sem_efeito (c : combo) (v : json) : Prop :=
  verdadeiro v = false \/ exists t, v = JStr t /\ ~ In t (itens c).

(** The file gives [carregar_config] nothing to select: it is absent,
    cannot be decoded, holds no object, or holds an object without the
    two fields. *)
Definition sem_selecao (arq : arquivo) : Prop :=
  match arq with
  | Conteudo (JObj campos) =>
      campo "origem" campos = None /\ campo "destino" campos = None
  | _ => True
  end.

(* ================================================================= *)
(** ** Start and end of the window: [__init__] and [closeEvent] *)

(** The user types [t] into the amount field. *)
Definition com_input_valor (t : string) (s : estado) : estado :=
  {| combo_origem := combo_origem s; combo_destino := combo_destino s;
     input_valor := t; lbl_resultado := lbl_resultado s;
     lbl_data_cotacao := lbl_data_cotacao s; rede := rede s;
     pedidos := pedidos s; arquivo_config := arquivo_config s;
     dialogos := dialogos s; registro := registro s |}.

Definition com_arquivo_config (a : arquivo) (s : estado) : estado :=
  {| combo_origem := combo_origem s; combo_destino := combo_destino s;
     input_valor := input_valor s; lbl_resultado := lbl_resultado s;
     lbl_data_cotacao := lbl_data_cotacao s; rede := rede s;
     pedidos := pedidos s; arquivo_config := a;
     dialogos := dialogos s; registro := registro s |}.

(** The [logging] calls of [__init__] and [closeEvent], one constructor
    each. *)
Inductive evento_janela :=
| LogAplicacaoIniciada
| LogConfigSalva
| LogErroSalvar (e : excecao).

(** What [__init__] leaves: how it ended, the window, and the record it
    adds to the log after those of [carregar_config]. *)
Record partida := {
  desfecho : resultado unit;
  janela_aberta : estado;
  registro_partida : list (nivel * evento_janela)
}.

(** [ConversorApp()], in a process whose network is [r] and whose
    [config.json] is [arq]: [_setup_ui], [carregar_config], the connection
    of the button to [converter_moeda], and the record of the start. *)
Definition __init__ (r : nat -> string -> resultado_http) (arq : arquivo)
    : partida :=
  match carregar_config (janela_inicial r arq) with
  | (Retorno _, s) =>
      {| desfecho := Retorno tt; janela_aberta := s;
         registro_partida := [(INFO, LogAplicacaoIniciada)] |}
  | (Excecao e, s) =>
      {| desfecho := Excecao e; janela_aberta := s; registro_partida := [] |}
  end.

(** What [open(CONFIG_FILE, 'w')] and [json.dump] meet: the file is
    written; it cannot be opened; or it is opened, and so emptied, and the
    writing fails. *)
Inductive gravacao :=
| Gravada
| NaoAberta (e : excecao)
| Interrompida (e : excecao).

(** What [closeEvent] leaves: the window and its file, whether the close
    event was accepted, and the record added to the log. *)
Record fecho := {
  apos_fecho : estado;
  aceito : bool;
  registro_fecho : list (nivel * evento_janela)
}.

(** [closeEvent(event)] *)
Definition closeEvent (g : gravacao) (s : estado) : fecho :=
  let config_atual :=
    JObj [("origem", JStr (currentText (combo_origem s)));
          ("destino", JStr (currentText (combo_destino s)))] in
  match g with
  | Gravada =>
      {| apos_fecho := com_arquivo_config (Conteudo config_atual) s;
         aceito := true;
         registro_fecho := [(INFO, LogConfigSalva)] |}
  | NaoAberta e =>
      {| apos_fecho := s;
         aceito := true;
         registro_fecho := [(ERROR, LogErroSalvar e)] |}
  | Interrompida e =>
      {| apos_fecho := com_arquivo_config Invalido s;
         aceito := true;
         registro_fecho := [(ERROR, LogErroSalvar e)] |}
  end.

(* ================================================================= *)
(** ** The result as a text *)

(** The hundredths that [,.2f] shows for a finite number, and the sign it
    shows. *)
Definition centesimos (x : F64.float) : Z :=
  match x with
  | S754_finite _ m e => Py.centavos m e
  | _ => 0
  end.

Definition negativo (x : F64.float) : bool :=
  match x with
  | S754_zero neg | S754_infinity neg | S754_finite neg _ _ => neg
  | S754_nan => false
  end.

(** A character of a number written with points only. *)
Definition digito_ponto (c : ascii) : bool :=
  Py.is_digit c || Ascii.eqb c ".".

(* ================================================================= *)
(** ** Networks and files of further examples *)


(** The direct request meets a connection error and the inverse pair is
    quoted at zero. *)
Definition rede_inversa_zero (_ : nat) (url : string) : resultado_http :=
  if String.eqb url (API_URL "BRL" "USD")
  then resposta_cotacao "BRLUSD" "0"
  else FalhaRede "connection error".

(** A window as [_setup_ui] builds it, with the two selections made. *)
Definition janela_com (r : nat -> string -> resultado_http) (arq : arquivo)
    (i j : Z) : estado :=
  com_combo_destino {| itens := moedas; indice := j |}
    (com_combo_origem {| itens := moedas; indice := i |}
       (janela_inicial r arq)).

(** Case analysis on an innermost scrutinee of the goal. *)
Ltac caso :=
  match goal with
  | |- context [match ?x with _ => _ end] =>
      lazymatch x with
      | context [match _ with _ => _ end] => fail
      | _ => destruct x eqn:?
      end
  end.

(** The handler of the direct [try] of [_obter_cotacao], once the inverse
    request is known to be answered ([Hr]) with a status that is no error
    ([Hok]) and a usable entry. *)
Ltac segue_inversa Hr Hok Hk Hb Hf Hz Hdt :=
  unfold logging, alterar, bind, try_except, requests_get;
  simpl; rewrite length_app; simpl; rewrite Nat.add_1_r, Hr;
  unfold lift; rewrite Hok;
  unfold resposta_json, py_in, getitem, truediv; simpl;
  rewrite Hk, Hb, Hf, Hz, Hdt;
  unfold apos_falha_direta, com_pedidos, com_registro; simpl;
  rewrite <- app_assoc; reflexivity.

(* ================================================================= *)
(** ** Texts: separators and digits *)

Section Textos.

Lemma inverter_separadores_map t :
  inverter_separadores t = map_str troca t.
Proof.
  unfold inverter_separadores.
  induction t as [| c r IH]; simpl; [reflexivity |].
  rewrite IH. reflexivity.
Qed.

Lemma str_app_assoc (a b c : string) : (a ++ b) ++ c = a ++ (b ++ c).
Proof.
  induction a as [| x r IH]; simpl; [reflexivity |]. rewrite IH. reflexivity.
Qed.

Lemma map_str_app f a b :
  map_str f (a ++ b) = map_str f a ++ map_str f b.
Proof.
  induction a as [| c r IH]; simpl; [reflexivity |]. rewrite IH. reflexivity.
Qed.

Lemma map_str_rev f acc t :
  map_str f (Py.rev_str acc t) = Py.rev_str (map_str f acc) (map_str f t).
Proof.
  revert acc. induction t as [| c r IH]; intros acc; simpl; [reflexivity |].
  rewrite IH. reflexivity.
Qed.

Lemma map_str_insert_sep f sep k t :
  map_str f (Py.insert_sep sep k t)
  = Py.insert_sep (f sep) k (map_str f t).
Proof.
  revert k. induction t as [| c r IH]; intros k; simpl; [reflexivity |].
  destruct k; simpl; rewrite IH; reflexivity.
Qed.

Lemma troca_digito c : Py.is_digit c = true -> troca c = c.
Proof.
  destruct c as [[] [] [] [] [] [] [] []]; intros H;
    try discriminate H; reflexivity.
Qed.

Lemma map_troca_digitos t :
  todos Py.is_digit t = true -> map_str troca t = t.
Proof.
  induction t as [| c r IH]; simpl; [reflexivity |].
  intros H. apply andb_prop in H. destruct H as [Hc Hr].
  rewrite (troca_digito c Hc), (IH Hr). reflexivity.
Qed.

Lemma todos_app P a b :
  todos P (a ++ b) = todos P a && todos P b.
Proof.
  induction a as [| c r IH]; simpl; [reflexivity |].
  rewrite IH. apply andb_assoc.
Qed.

Lemma todos_rev P acc t :
  todos P (Py.rev_str acc t) = todos P acc && todos P t.
Proof.
  revert acc. induction t as [| c r IH]; intros acc; simpl.
  - rewrite andb_true_r. reflexivity.
  - rewrite IH. simpl. destruct (P c), (todos P acc), (todos P r); reflexivity.
Qed.

Lemma todos_insert_sep P sep k t :
  P sep = true -> todos P t = true ->
  todos P (Py.insert_sep sep k t) = true.
Proof.
  intros Hs. revert k. induction t as [| c r IH]; intros k H; simpl.
  - reflexivity.
  - simpl in H. apply andb_prop in H. destruct H as [Hc Hr].
    destruct k; simpl; rewrite ?Hs, Hc; simpl; apply IH; assumption.
Qed.

Lemma todos_impl (P Q : ascii -> bool) t :
  (forall c, P c = true -> Q c = true) ->
  todos P t = true -> todos Q t = true.
Proof.
  intros HPQ. induction t as [| c r IH]; simpl; [reflexivity |].
  intros H. apply andb_prop in H. destruct H as [Hc Hr].
  rewrite (HPQ c Hc), (IH Hr). reflexivity.
Qed.

Lemma digitos_uint d : todos Py.is_digit (NilEmpty.string_of_uint d) = true.
Proof.
  induction d; simpl; try rewrite IHd; reflexivity.
Qed.

Lemma digitos_de_Z z : todos Py.is_digit (Py.digits_of_Z z) = true.
Proof.
  unfold Py.digits_of_Z, NilZero.string_of_uint.
  destruct (N.to_uint (Z.to_N z)); try reflexivity; apply digitos_uint.
Qed.

Lemma digit_char_digito z :
  (0 <= z < 10)%Z -> Py.is_digit (Py.digit_char z) = true.
Proof.
  intros H. unfold Py.digit_char.
  assert (Hz : (z = 0 \/ z = 1 \/ z = 2 \/ z = 3 \/ z = 4 \/ z = 5 \/ z = 6
                \/ z = 7 \/ z = 8 \/ z = 9)%Z) by lia.
  repeat destruct Hz as [-> | Hz]; try subst z; reflexivity.
Qed.

(** The three [replace] calls turn the [,.2f] text of a number of
    hundredths into the same number with ["."] between the groups and
    [","] before the fraction. *)
Lemma inverter_fixed2 neg c :
  inverter_separadores (Py.fixed2 "," "." neg c) = Py.fixed2 "." "," neg c.
Proof.
  rewrite inverter_separadores_map. unfold Py.fixed2, Py.group3.
  rewrite !map_str_app. simpl map_str at 3.
  rewrite map_str_rev, map_str_insert_sep, map_str_rev. simpl (map_str troca "").
  rewrite (map_troca_digitos (Py.digits_of_Z _) (digitos_de_Z _)).
  assert (Hd : (0 <= c mod 100 < 100)%Z) by (apply Z.mod_pos_bound; lia).
  unfold Py.two_digits. simpl map_str.
  change (troca ",") with "."%char. change (troca ".") with ","%char.
  rewrite !troca_digito.
  - destruct neg; reflexivity.
  - apply digit_char_digito. apply Z.mod_pos_bound. lia.
  - apply digit_char_digito. split.
    + apply Z.div_pos; lia.
    + apply Z.div_lt_upper_bound; lia.
Qed.

Lemma inverter_format_2f x :
  F64.is_finite x = true ->
  inverter_separadores (Py.format_comma_2f x) = Py.format_2f "." "," x.
Proof.
  unfold Py.format_comma_2f.
  destruct x; simpl; intros H; try discriminate H; apply inverter_fixed2.
Qed.

(** The Brazilian text of a finite number: an integer part of digits,
    group periods and a sign, a comma, and two digits. *)
Lemma format_2f_forma x :
  F64.is_finite x = true ->
  exists inteiro d1 d2,
    Py.format_2f "." "," x
    = inteiro ++ String "," (String d1 (String d2 EmptyString)) /\
    todos de_inteiro inteiro = true /\
    Py.is_digit d1 = true /\ Py.is_digit d2 = true.
Proof.
  assert (H2 : forall neg c, exists inteiro d1 d2,
             Py.fixed2 "." "," neg c
             = inteiro ++ String "," (String d1 (String d2 EmptyString)) /\
             todos de_inteiro inteiro = true /\
             Py.is_digit d1 = true /\ Py.is_digit d2 = true).
  { intros neg c.
    exists (Py.sign_str neg ++ Py.group3 "." (Py.digits_of_Z (c / 100))).
    exists (Py.digit_char (c mod 100 / 10)), (Py.digit_char ((c mod 100) mod 10)).
    assert (Hd : (0 <= c mod 100 < 100)%Z) by (apply Z.mod_pos_bound; lia).
    repeat split.
    - unfold Py.fixed2, Py.two_digits.
      rewrite str_app_assoc. reflexivity.
    - rewrite todos_app. apply andb_true_intro. split.
      + destruct neg; reflexivity.
      + unfold Py.group3. rewrite todos_rev. simpl.
        apply todos_insert_sep; [reflexivity |].
        rewrite todos_rev. simpl.
        apply todos_impl with (P := Py.is_digit).
        * intros ch Hc. unfold de_inteiro. rewrite Hc. reflexivity.
        * apply digitos_de_Z.
    - apply digit_char_digito. split.
      + apply Z.div_pos; lia.
      + apply Z.div_lt_upper_bound; lia.
    - apply digit_char_digito. apply Z.mod_pos_bound. lia. }
  destruct x; simpl; intros H; try discriminate H; apply H2.
Qed.

(** *** [float] on a decimal literal without sign or exponent *)

Lemma drop_underscores_sem prev t :
  Ascii.eqb prev "_" = false ->
  todos (fun c => negb (Ascii.eqb c "_")) t = true ->
  Py.drop_underscores prev t = Some t.
Proof.
  revert prev. induction t as [| c r IH]; intros prev Hp H; simpl.
  - rewrite Hp. reflexivity.
  - simpl in H. apply andb_prop in H. destruct H as [Hc Hr].
    apply negb_true_iff in Hc. rewrite Hc, Hp. simpl.
    rewrite (IH c Hc Hr). reflexivity.
Qed.

Lemma lstrip_sem t :
  todos (fun c => negb (Py.is_space c)) t = true -> Py.lstrip t = t.
Proof.
  destruct t as [| c r]; simpl; [reflexivity |].
  intros H. apply andb_prop in H. destruct H as [Hc _].
  apply negb_true_iff in Hc. rewrite Hc. reflexivity.
Qed.

Lemma rstrip_sem t :
  todos (fun c => negb (Py.is_space c)) t = true -> Py.rstrip t = t.
Proof.
  induction t as [| c r IH]; simpl; [reflexivity |].
  intros H. apply andb_prop in H. destruct H as [Hc Hr].
  apply negb_true_iff in Hc. rewrite (IH Hr), Hc.
  destruct r; reflexivity.
Qed.

Lemma split_sign_sem c r :
  Py.is_digit c || Ascii.eqb c "." = true ->
  Py.split_sign (String c r) = (false, String c r).
Proof.
  destruct c as [[] [] [] [] [] [] [] []]; intros H;
    try discriminate H; reflexivity.
Qed.

Lemma span_digits_ponto d t :
  todos Py.is_digit d = true ->
  Py.span_digits (d ++ String "." t) = (d, String "." t).
Proof.
  induction d as [| c r IH]; simpl; [reflexivity |].
  intros H. apply andb_prop in H. destruct H as [Hc Hr].
  rewrite Hc, (IH Hr). reflexivity.
Qed.

Lemma span_digits_todos d :
  todos Py.is_digit d = true -> Py.span_digits d = (d, EmptyString).
Proof.
  induction d as [| c r IH]; simpl; [reflexivity |].
  intros H. apply andb_prop in H. destruct H as [Hc Hr].
  rewrite Hc, (IH Hr). reflexivity.
Qed.


Lemma digito_ou_ponto c :
  Py.is_digit c || Ascii.eqb c "." = true ->
  negb (Ascii.eqb c "_") = true /\ negb (Py.is_space c) = true.
Proof.
  destruct c as [[] [] [] [] [] [] [] []]; intros H;
    try discriminate H; split; reflexivity.
Qed.




End Textos.

(* ================================================================= *)
(** ** The quote resolver *)

Section Resolver.

Variables origem destino : string.
Variable s : estado.

Lemma status_ok (st : Z) (corpo : option json) :
  ~ (400 <= st < 600)%Z ->
  raise_for_status (st, corpo) = Retorno tt.
Proof.
  intros H. unfold raise_for_status. simpl.
  destruct (400 <=? st)%Z eqn:E1; destruct (st <? 600)%Z eqn:E2; simpl;
    try reflexivity.
  exfalso. apply H. split; [apply Z.leb_le | apply Z.ltb_lt]; assumption.
Qed.

Lemma status_erro (st : Z) (corpo : option json) :
  (400 <= st < 600)%Z ->
  raise_for_status (st, corpo) = Excecao (HTTPError st).
Proof.
  intros [H1 H2]. unfold raise_for_status. simpl.
  apply Z.leb_le in H1. apply Z.ltb_lt in H2. rewrite H1, H2. reflexivity.
Qed.

(** A usable direct entry is returned as it is, after one request. *)
Lemma direta_retorna st corpo x data :
  rede s (List.length (pedidos s)) (API_URL origem destino)
  = Resposta st (Some (JObj corpo)) ->
  ~ (400 <= st < 600)%Z ->
  entrada_valida corpo (origem ++ destino) x data ->
  _obter_cotacao origem destino s
  = (Retorno (x, data, origem ++ destino),
     com_pedidos (pedidos s ++ [API_URL origem destino])%list s).
Proof.
  intros Hr Hst (entrada & bid & Hk & Hb & Hf & Hd).
  unfold _obter_cotacao, bind, try_except, requests_get.
  rewrite Hr. unfold lift. rewrite (status_ok _ _ Hst).
  unfold resposta_json, py_in, getitem. simpl.
  rewrite Hk. rewrite Hb. rewrite Hf. rewrite Hd. reflexivity.
Qed.

(** The direct response is an object without the direct key: nothing is
    raised inside the [try], so its handler, and with it the inverse
    request, is skipped. *)
Lemma direta_sem_chave st corpo :
  rede s (List.length (pedidos s)) (API_URL origem destino)
  = Resposta st (Some (JObj corpo)) ->
  ~ (400 <= st < 600)%Z ->
  campo (origem ++ destino) corpo = None ->
  _obter_cotacao origem destino s
  = (Excecao (ValueError (mensagem_indisponivel origem destino)),
     com_pedidos (pedidos s ++ [API_URL origem destino])%list s).
Proof.
  intros Hr Hst Hk.
  unfold _obter_cotacao, bind, try_except, requests_get.
  rewrite Hr. unfold lift. rewrite (status_ok _ _ Hst).
  unfold resposta_json, py_in. simpl. rewrite Hk. reflexivity.
Qed.

(** A direct request that fails raises inside the [try]. *)
Lemma falha_http_levanta :
  falha_http (rede s (List.length (pedidos s)) (API_URL origem destino)) ->
  exists e,
    (resposta <- requests_get (API_URL origem destino) ;;
     lift (raise_for_status resposta) ;;;
     lift (resposta_json resposta)) s
    = (Excecao e, com_pedidos (pedidos s ++ [API_URL origem destino])%list s).
Proof.
  unfold falha_http, bind, requests_get, lift.
  destruct (rede s _ _) as [d | st corpo]; intros H.
  - eexists. reflexivity.
  - destruct (Z_le_dec 400 st) as [H1 | H1];
      [destruct (Z_lt_dec st 600) as [H2 | H2] |].
    + rewrite status_erro by lia. eexists. reflexivity.
    + rewrite status_ok by lia.
      destruct H as [H | ->]; [lia |]. eexists. reflexivity.
    + rewrite status_ok by lia.
      destruct H as [H | ->]; [lia |]. eexists. reflexivity.
Qed.

(** X1.  After a failed direct request the inverse one is issued, and a
    usable inverse entry with a bid other than zero is returned
    reciprocated. *)
Lemma inversa_retorna st corpo x data :
  falha_http (rede s (List.length (pedidos s)) (API_URL origem destino)) ->
  rede s (S (List.length (pedidos s))) (API_URL destino origem)
  = Resposta st (Some (JObj corpo)) ->
  ~ (400 <= st < 600)%Z ->
  entrada_valida corpo (destino ++ origem) x data ->
  F64.is_zero x = false ->
  exists e,
    _obter_cotacao origem destino s
    = (Retorno (F64.div F64.one x, data, destino ++ origem),
       com_pedidos (pedidos s ++ [API_URL origem destino;
                                  API_URL destino origem])%list
         (apos_falha_direta origem destino s e)).
Proof.
  intros Hd Hr Hst (entrada & bid & Hk & Hb & Hf & Hdt) Hz.
  destruct (falha_http_levanta Hd) as [e He]. exists e.
  pose proof (status_ok st (Some (JObj corpo)) Hst) as Hok.
  unfold bind in He.
  unfold _obter_cotacao, bind at 1 2 3 4. unfold try_except at 1.
  destruct (requests_get (API_URL origem destino) s) as [[resposta | e0] s1].
  - destruct (lift (raise_for_status resposta) s1) as [[[] | e1] s2].
    + rewrite He. segue_inversa Hr Hok Hk Hb Hf Hz Hdt.
    + inversion He; subst. segue_inversa Hr Hok Hk Hb Hf Hz Hdt.
  - inversion He; subst. segue_inversa Hr Hok Hk Hb Hf Hz Hdt.
Qed.

(** X2.  When both requests fail, the resolver raises its [ValueError]
    after the two requests and the warning of the log. *)
Lemma ambas_falham :
  falha_http (rede s (List.length (pedidos s)) (API_URL origem destino)) ->
  falha_http (rede s (S (List.length (pedidos s))) (API_URL destino origem)) ->
  exists e,
    _obter_cotacao origem destino s
    = (Excecao (ValueError (mensagem_indisponivel origem destino)),
       com_pedidos (pedidos s ++ [API_URL origem destino;
                                  API_URL destino origem])%list
         (apos_falha_direta origem destino s e)).
Proof.
  intros H1 H2.
  unfold _obter_cotacao, bind, try_except, lift, ret, raise, logging,
    alterar, requests_get.
  unfold falha_http in H1, H2. unfold raise_for_status, resposta_json.
  destruct (rede s (List.length (pedidos s)) (API_URL origem destino))
    as [d1 | st1 [j1 |]];
    cbn [fst snd];
    repeat match goal with
           | |- context [(?a <=? ?b)%Z] => destruct (Z.leb_spec a b)
           | |- context [(?a <? ?b)%Z] => destruct (Z.ltb_spec a b)
           end;
    cbn [andb];
    try (exfalso; destruct H1 as [H1 | H1]; [lia | discriminate H1]);
    cbn [rede pedidos com_pedidos com_registro registro];
    rewrite length_app; cbn [List.length]; rewrite Nat.add_1_r;
    (destruct (rede s (S (List.length (pedidos s))) (API_URL destino origem))
      as [d2 | st2 [j2 |]];
     cbn [fst snd];
     repeat match goal with
            | |- context [(?a <=? ?b)%Z] => destruct (Z.leb_spec a b)
            | |- context [(?a <? ?b)%Z] => destruct (Z.ltb_spec a b)
            end;
     cbn [andb];
     try (exfalso; destruct H2 as [H2 | H2]; [lia | discriminate H2]);
     eexists; unfold apos_falha_direta, com_pedidos, com_registro; simpl;
     rewrite <- app_assoc; reflexivity).
Qed.

(** Whatever the network answers, the resolver returns a quotation or
    raises its own [ValueError]: no other exception leaves it. *)
Lemma _obter_cotacao_casos :
  (exists q s', _obter_cotacao origem destino s = (Retorno q, s')) \/
  (exists s', _obter_cotacao origem destino s
              = (Excecao (ValueError (mensagem_indisponivel origem destino)),
                 s')).
Proof.
  unfold _obter_cotacao, bind, try_except, lift, ret, raise, logging,
    alterar, requests_get.
  repeat caso; eauto.
Qed.

(** The resolver writes the list of requests and the log, nothing else. *)
Lemma _obter_cotacao_quadro r s' :
  _obter_cotacao origem destino s = (r, s') ->
  lbl_resultado s' = lbl_resultado s /\
  lbl_data_cotacao s' = lbl_data_cotacao s /\
  dialogos s' = dialogos s /\
  combo_origem s' = combo_origem s /\
  combo_destino s' = combo_destino s /\
  input_valor s' = input_valor s.
Proof.
  unfold _obter_cotacao, bind, try_except, lift, ret, raise, logging,
    alterar, requests_get.
  repeat caso; intros H; inversion H; subst; simpl; repeat split; reflexivity.
Qed.

End Resolver.

(* ================================================================= *)
(** ** The conversion pipeline *)

Section Pipeline.

Variable s : estado.

Local Abbreviation origem := (currentText (combo_origem s)).
Local Abbreviation destino := (currentText (combo_destino s)).

Lemma converter_moeda_mesma_moeda :
  origem = destino ->
  converter_moeda s
  = (Retorno tt,
     avisado "As moedas de origem e destino não podem ser as mesmas."
       (iniciada s)).
Proof.
  intros H. apply String.eqb_eq in H.
  unfold converter_moeda, bind, ler, logging, alterar. simpl.
  rewrite H. reflexivity.
Qed.

Lemma converter_moeda_vazio :
  origem <> destino ->
  valor_texto s = "" ->
  converter_moeda s
  = (Retorno tt, avisado "Por favor, insira um valor." (iniciada s)).
Proof.
  intros H Hv. apply String.eqb_neq in H. apply String.eqb_eq in Hv.
  unfold converter_moeda, bind, ler, logging, alterar. simpl.
  rewrite H. unfold try_except.
  fold (valor_texto s). rewrite Hv. reflexivity.
Qed.

Lemma converter_moeda_nao_numerico :
  origem <> destino ->
  valor_texto s <> "" ->
  Py.float_of_str (valor_texto s) = None ->
  converter_moeda s
  = (Retorno tt,
     recuperado (iniciada s) (FloatValueError (valor_texto s))).
Proof.
  intros H Hv Hf. apply String.eqb_neq in H. apply String.eqb_neq in Hv.
  unfold converter_moeda, bind, ler, logging, alterar. simpl.
  rewrite H. unfold try_except.
  fold (valor_texto s). rewrite Hv. unfold lift, float_str. rewrite Hf.
  reflexivity.
Qed.

Lemma converter_moeda_nao_positivo v :
  origem <> destino ->
  Py.float_of_str (valor_texto s) = Some v ->
  F64.leb v F64.zero = true ->
  converter_moeda s
  = (Retorno tt, avisado "O valor deve ser maior que zero." (iniciada s)).
Proof.
  intros H Hf Hle. apply String.eqb_neq in H.
  assert (Hv : String.eqb (valor_texto s) "" = false).
  { apply String.eqb_neq. intros E. rewrite E in Hf. discriminate. }
  unfold converter_moeda, bind, ler, logging, alterar. simpl.
  rewrite H. unfold try_except.
  fold (valor_texto s). rewrite Hv. unfold lift, float_str. rewrite Hf.
  rewrite Hle. reflexivity.
Qed.

Lemma converter_moeda_sem_cotacao v e s2 :
  origem <> destino ->
  Py.float_of_str (valor_texto s) = Some v ->
  F64.leb v F64.zero = false ->
  _obter_cotacao origem destino (iniciada s) = (Excecao e, s2) ->
  converter_moeda s = (Retorno tt, recuperado s2 e).
Proof.
  intros H Hf Hle Hq. apply String.eqb_neq in H.
  assert (Hv : String.eqb (valor_texto s) "" = false).
  { apply String.eqb_neq. intros E. rewrite E in Hf. discriminate. }
  unfold converter_moeda, bind, ler, logging, alterar. simpl.
  rewrite H. unfold try_except.
  fold (valor_texto s). rewrite Hv. unfold lift, float_str. rewrite Hf.
  rewrite Hle. fold (iniciada s). rewrite Hq.
  unfold recuperado. destruct (eh_ValueError e); [reflexivity|].
  destruct (eh_RequestException e); reflexivity.
Qed.

Lemma converter_moeda_com_cotacao v q s2 :
  origem <> destino ->
  Py.float_of_str (valor_texto s) = Some v ->
  F64.leb v F64.zero = false ->
  _obter_cotacao origem destino (iniciada s) = (Retorno q, s2) ->
  converter_moeda s = (Retorno tt, exibido v destino q s2).
Proof.
  intros H Hf Hle Hq. apply String.eqb_neq in H.
  assert (Hv : String.eqb (valor_texto s) "" = false).
  { apply String.eqb_neq. intros E. rewrite E in Hf. discriminate. }
  unfold converter_moeda, bind, ler, logging, alterar. simpl.
  rewrite H. unfold try_except.
  fold (valor_texto s). rewrite Hv. unfold lift, float_str. rewrite Hf.
  rewrite Hle. fold (iniciada s). rewrite Hq.
  destruct q as [[c data] par]. reflexivity.
Qed.

End Pipeline.

(** *** Two runs *)

(** The direct request raises and the inverse pair is quoted at 0.20:
    the rate is [1 / 0.20], and 100 converts to 500,00 through the pair
    BRLUSD, after two requests. *)
Example exemplo_cotacao_inversa :
  lbl_resultado (snd (converter_moeda (janela rede_inversa_apos_erro 0 1 "100")))
  = "500,00" /\
  lbl_data_cotacao (snd (converter_moeda (janela rede_inversa_apos_erro 0 1 "100")))
  = RodapeCotacao "BRLUSD" (JStr "2024-01-01 12:00:00") /\
  pedidos (snd (converter_moeda (janela rede_inversa_apos_erro 0 1 "100")))
  = [API_URL "USD" "BRL"; API_URL "BRL" "USD"].
Proof.
  repeat split; vm_compute; reflexivity.
Qed.

(** Groups of three: 1234567,891 at the rate 5.00. *)
Example exemplo_milhares :
  lbl_resultado (snd (converter_moeda (janela rede_direta 0 1 "1234567,891")))
  = "6.172.839,46".
Proof.
  vm_compute. reflexivity.
Qed.

(* ================================================================= *)
(** ** Rounding to nearest in [spec_float]: one rounding is off by at
       most a unit roundoff *)

Section Deslocamento.

Local Open Scope Z_scope.

(** [iter_pos] is plain iteration. *)
Lemma iter_pos_nat {A} (f : A -> A) p x :
  iter_pos f p x = Nat.iter (Pos.to_nat p) f x.
Proof.
  revert x. induction p as [p IH | p IH |]; intros x.
  - rewrite Pos2Nat.inj_xI.
    change (iter_pos f p~1 x) with (iter_pos f p (iter_pos f p (f x))).
    rewrite !IH.
    replace (S (2 * Pos.to_nat p))%nat
      with (Pos.to_nat p + (Pos.to_nat p + 1))%nat by lia.
    rewrite !Nat.iter_add. reflexivity.
  - rewrite Pos2Nat.inj_xO.
    change (iter_pos f p~0 x) with (iter_pos f p (iter_pos f p x)).
    rewrite !IH.
    replace (2 * Pos.to_nat p)%nat with (Pos.to_nat p + Pos.to_nat p)%nat by lia.
    rewrite Nat.iter_add. reflexivity.
  - reflexivity.
Qed.

(** One place to the right halves the integer part, moves its last bit
    to the round bit and accumulates the sticky bit. *)
Lemma shr_1_m rec : 0 <= shr_m rec -> shr_m (shr_1 rec) = shr_m rec / 2.
Proof.
  destruct rec as [m r s]. simpl. intros H.
  destruct m as [| [p | p |] | p]; simpl; try reflexivity; try lia.
  - rewrite Pos2Z.inj_xI. apply Z.div_unique with 1; lia.
  - rewrite Pos2Z.inj_xO. apply Z.div_unique with 0; lia.
Qed.

Lemma shr_1_r rec : 0 <= shr_m rec -> shr_r (shr_1 rec) = Z.odd (shr_m rec).
Proof.
  destruct rec as [m r s]. simpl. intros H.
  destruct m as [| [p | p |] | p]; simpl; try reflexivity; lia.
Qed.

Lemma shr_1_s rec : shr_s (shr_1 rec) = shr_r rec || shr_s rec.
Proof.
  destruct rec as [m r s]. simpl.
  destruct m as [| [p | p |] | [p | p |]]; reflexivity.
Qed.

(** One place to the right: the same fraction over twice the
    denominator. *)
Lemma descreve_shr_1 N D rec :
  0 <= N -> 0 < D -> descreve N D rec -> descreve N (2 * D) (shr_1 rec).
Proof.
  intros HN HD (Hm & Hr & Hs).
  assert (Hq : 0 <= N / D) by (apply Z.div_pos; lia).
  assert (Hrho : 0 <= N mod D < D) by (apply Z.mod_pos_bound; lia).
  assert (Hmod : N mod (2 * D) = N mod D + D * ((N / D) mod 2)).
  { rewrite (Z.mul_comm 2 D). apply Z.rem_mul_r; lia. }
  assert (Hb : (N / D) mod 2 = if Z.odd (N / D) then 1 else 0) by apply Zmod_odd.
  unfold descreve. rewrite shr_1_m, shr_1_r, shr_1_s by lia.
  rewrite Hm, Hr, Hs. rewrite Hmod, Hb.
  split; [| split].
  - rewrite (Z.mul_comm 2 D). rewrite Z.div_div by lia. reflexivity.
  - destruct (Z.odd (N / D)).
    + apply eq_sym, Z.leb_le. lia.
    + apply eq_sym, Z.leb_gt. lia.
  - destruct (Z.odd (N / D));
      repeat match goal with
             | |- context [Z.leb ?a ?b] => destruct (Z.leb_spec a b)
             | |- context [Z.eqb ?a ?b] => destruct (Z.eqb_spec a b)
             end; simpl; try reflexivity; lia.
Qed.

Lemma descreve_iter N D rec k :
  0 <= N -> 0 < D -> descreve N D rec ->
  descreve N (2 ^ Z.of_nat k * D) (Nat.iter k shr_1 rec).
Proof.
  intros HN HD H. induction k as [| k IH].
  - change (2 ^ Z.of_nat 0) with 1. rewrite Z.mul_1_l. exact H.
  - rewrite Nat2Z.inj_succ, Z.pow_succ_r by lia.
    change (Nat.iter (S k) shr_1 rec) with (shr_1 (Nat.iter k shr_1 rec)).
    rewrite <- Z.mul_assoc. apply descreve_shr_1; [lia | | exact IH].
    apply Z.mul_pos_pos; [apply Z.pow_pos_nonneg; lia | lia].
Qed.

(** [shr] by [n] places. *)
Lemma descreve_shr N D rec e n :
  0 <= N -> 0 < D -> descreve N D rec ->
  descreve N (2 ^ Z.max 0 n * D) (fst (shr rec e n)) /\
  snd (shr rec e n) = e + Z.max 0 n.
Proof.
  intros HN HD H. destruct n as [| p | p].
  - change (2 ^ Z.max 0 0) with 1. rewrite Z.mul_1_l. split; [exact H | simpl; lia].
  - unfold shr, fst, snd. rewrite iter_pos_nat. split; [| lia ].
    replace (Z.max 0 (Z.pos p)) with (Z.of_nat (Pos.to_nat p))
      by (rewrite positive_nat_Z; lia).
    apply descreve_iter; assumption.
  - change (2 ^ Z.max 0 (Z.neg p)) with 1. rewrite Z.mul_1_l. split; [exact H | simpl; lia].
Qed.

Lemma descreve_loc_exato m : 0 <= m ->
  descreve m 1 (shr_record_of_loc m loc_Exact).
Proof.
  intros H. unfold descreve. simpl. rewrite Z.div_1_r, Z.mod_1_r.
  repeat split.
Qed.

(** Rounding to nearest, ties to even, gives a neighbouring integer at
    most half a unit away from the fraction. *)
Lemma arredonda N D rec :
  0 <= N -> 0 < D -> descreve N D rec ->
  (round_nearest_even (shr_m rec) (loc_of_shr_record rec) = N / D \/
   round_nearest_even (shr_m rec) (loc_of_shr_record rec) = N / D + 1) /\
  2 * Z.abs (round_nearest_even (shr_m rec) (loc_of_shr_record rec) * D - N)
  <= D.
Proof.
  intros HN HD (Hm & Hr & Hs).
  assert (Hrho : 0 <= N mod D < D) by (apply Z.mod_pos_bound; lia).
  assert (HND : N = D * (N / D) + N mod D) by (apply Z.div_mod; lia).
  destruct rec as [m r s]. cbn [shr_m shr_r shr_s] in *. subst m r s.
  remember (N / D) as q. remember (N mod D) as rho.
  assert (HqD : q * D = D * q) by apply Z.mul_comm.
  assert (Hq1 : (q + 1) * D = D * q + D) by ring.
  unfold loc_of_shr_record, round_nearest_even.
  destruct (Z.leb_spec D (2 * rho));
    destruct (Z.eqb_spec rho 0);
    destruct (Z.eqb_spec (2 * rho) D); cbn [negb andb];
    try destruct (Z.even q);
    rewrite ?Hq1, ?HqD; split; lia.
Qed.

Lemma digits2_size p : digits2_pos p = Pos.size p.
Proof. induction p; simpl; rewrite ?IHp; reflexivity. Qed.

(** [digits2_pos] counts the binary digits. *)
Lemma digitos_pos p :
  2 ^ (Z.pos (digits2_pos p) - 1) <= Z.pos p < 2 ^ Z.pos (digits2_pos p).
Proof.
  rewrite digits2_size. split.
  - pose proof (Pos.size_le p) as H.
    assert (H' : 2 ^ Z.pos (Pos.size p) <= 2 * Z.pos p).
    { change 2 with (Z.pos 2) at 1. rewrite <- Pos2Z.inj_pow.
      change (2 * Z.pos p) with (Z.pos p~0). apply Pos2Z.pos_le_pos. exact H. }
    replace (Z.pos (Pos.size p)) with (Z.succ (Z.pos (Pos.size p) - 1)) in H' by lia.
    rewrite Z.pow_succ_r in H' by lia. lia.
  - pose proof (Pos.size_gt p) as H.
    change 2 with (Z.pos 2). rewrite <- Pos2Z.inj_pow.
    apply Pos2Z.pos_lt_pos. exact H.
Qed.

Lemma digitos_menor x k :
  0 <= x < 2 ^ k -> 0 <= k -> Zdigits2 x <= k.
Proof.
  intros [H0 H1] Hk. destruct x as [| p | p]; simpl; try lia.
  destruct (digitos_pos p) as [Hl _].
  destruct (Z_le_gt_dec (Z.pos (digits2_pos p)) k) as [|Hgt]; [assumption|].
  exfalso.
  assert (2 ^ k <= 2 ^ (Z.pos (digits2_pos p) - 1)) by (apply Z.pow_le_mono_r; lia).
  lia.
Qed.

Lemma digitos_potencia k : 0 <= k -> Zdigits2 (2 ^ k) = k + 1.
Proof.
  intros Hk. assert (Hp : 0 < 2 ^ k) by (apply Z.pow_pos_nonneg; lia).
  destruct (2 ^ k) as [| p | p] eqn:E; try lia. simpl.
  destruct (digitos_pos p) as [Hl Hu]. rewrite <- E in Hl, Hu.
  apply Z.pow_le_mono_r_iff in Hl; try lia.
  apply Z.pow_lt_mono_r_iff in Hu; lia.
Qed.

Lemma digitos_nao_neg x : 0 <= Zdigits2 x.
Proof. destruct x; simpl; lia. Qed.

Lemma shr_m_of_loc m l : shr_m (shr_record_of_loc m l) = m.
Proof. destruct l as [| []]; reflexivity. Qed.

End Deslocamento.

Section Arredondamento.

Local Open Scope Z_scope.

Variables prec emax : Z.
Hypothesis Hprec : 0 < prec.

(** One rounding of [N / D * 2^E]: a finite result [m * 2^e] keeps the
    sign, does not lower the exponent, and is at most half a unit in the
    last place away.  The second shift of [binary_round_aux] loses
    nothing: it is by no place, or by one place on a power of two. *)
Lemma binary_round_aux_erro sx M E lx N D s m e :
  0 <= N -> 0 < D ->
  descreve N D (shr_record_of_loc M lx) ->
  binary_round_aux prec emax sx M E lx = S754_finite s m e ->
  s = sx /\ E <= e /\
  2 * Z.abs (Z.pos m * 2 ^ (e - E) * D - N) <= 2 ^ (e - E) * D.
Proof.
  intros HN HD Hdesc.
  assert (HM : M = N / D).
  { destruct Hdesc as (Hm & _). rewrite shr_m_of_loc in Hm. exact Hm. }
  assert (HM0 : 0 <= M) by (subst M; apply Z.div_pos; lia).
  unfold binary_round_aux, shr_fexp.
  set (t := Zdigits2 M + E).
  set (n1 := fexp prec emax t - E).
  set (k1 := Z.max 0 n1).
  destruct (descreve_shr N D _ E n1 HN HD Hdesc) as (Hd1 & He1).
  fold k1 in Hd1, He1.
  destruct (shr (shr_record_of_loc M lx) E n1) as [mrs' e'].
  cbn [fst snd] in Hd1, He1.
  assert (Hk1 : 0 <= k1) by (unfold k1; lia).
  assert (HP1 : 0 < 2 ^ k1) by (apply Z.pow_pos_nonneg; lia).
  assert (HD1 : 0 < 2 ^ k1 * D) by (apply Z.mul_pos_pos; lia).
  destruct (arredonda N (2 ^ k1 * D) mrs' HN HD1 Hd1) as (Hm1 & Hb1).
  set (m1 := round_nearest_even (shr_m mrs') (loc_of_shr_record mrs')) in *.
  assert (Hq : N / (2 ^ k1 * D) = M / 2 ^ k1).
  { rewrite HM, Z.div_div by lia. rewrite (Z.mul_comm D). reflexivity. }
  rewrite Hq in Hm1.
  assert (Hq0 : 0 <= M / 2 ^ k1) by (apply Z.div_pos; lia).
  assert (Hm10 : 0 <= m1) by lia.
  set (n2 := fexp prec emax (Zdigits2 m1 + e') - e').
  set (k2 := Z.max 0 n2).
  destruct (descreve_shr m1 1 _ e' n2 Hm10 Z.lt_0_1 (descreve_loc_exato m1 Hm10))
    as (Hd2 & He2).
  fold k2 in Hd2, He2.
  destruct (shr (shr_record_of_loc m1 loc_Exact) e' n2) as [mrs'' e''].
  cbn [fst snd] in Hd2, He2.
  destruct Hd2 as (Hm2 & _). rewrite Z.mul_1_r in Hm2.
  assert (Hk2 : 0 <= k2) by (unfold k2; lia).
  (* the second shift loses nothing *)
  assert (Hexato : k2 = 0 \/ (k2 = 1 /\ m1 mod 2 = 0)).
  { set (w := Zdigits2 M - k1).
    assert (HdM : 0 <= Zdigits2 M) by apply digitos_nao_neg.
    assert (Hqw : (0 <= w -> M / 2 ^ k1 < 2 ^ w) /\ (w < 0 -> M / 2 ^ k1 = 0)).
    { destruct (Z.eq_dec M 0) as [-> | HMn].
      - rewrite Z.div_0_l by lia. split; [intros; apply Z.pow_pos_nonneg; lia | reflexivity].
      - assert (HMd : M < 2 ^ Zdigits2 M).
        { destruct M as [| p | p]; try lia. apply digitos_pos. }
        split; intros Hw.
        + apply Z.div_lt_upper_bound; [lia |].
          rewrite <- Z.pow_add_r by lia.
          replace (k1 + w) with (Zdigits2 M) by (unfold w; lia). exact HMd.
        + apply Z.div_small. split; [lia |].
          apply Z.lt_le_trans with (2 ^ Zdigits2 M); [exact HMd |].
          apply Z.pow_le_mono_r; unfold w in Hw; lia. }
    destruct Hqw as (Hqw1 & Hqw2).
    destruct (Z.eq_dec m1 0) as [Hz | Hnz].
    { left. unfold k2, n2. rewrite Hz. simpl Zdigits2.
      unfold k1, n1, t, fexp in *. lia. }
    destruct (Z_lt_dec w 0) as [Hw | Hw].
    { left. assert (m1 = 1) by (rewrite (Hqw2 Hw) in Hm1; lia).
      unfold k2, n2. replace m1 with 1 by lia. simpl Zdigits2.
      unfold w, k1, n1, t, fexp in *. lia. }
    assert (Hw0 : 0 <= w) by lia. specialize (Hqw1 Hw0).
    destruct (Z_lt_dec m1 (2 ^ w)) as [Hlt | Hge].
    { left. assert (Hdm : Zdigits2 m1 <= w) by (apply digitos_menor; lia).
      unfold k2, n2. unfold w, k1, n1, t, fexp in *. lia. }
    assert (Hm1w : m1 = 2 ^ w) by lia.
    assert (Hdm : Zdigits2 m1 = w + 1) by (rewrite Hm1w; apply digitos_potencia; lia).
    assert (Hn2 : n2 <= 0 \/ (n2 = 1 /\ w = prec)).
    { unfold n2. rewrite Hdm. unfold w, k1, n1, t, fexp in *. lia. }
    destruct Hn2 as [Hn2 | [Hn2 Hwp]].
    - left. unfold k2. lia.
    - right. split; [unfold k2; lia |].
      rewrite Hm1w. replace w with (Z.succ (w - 1)) by lia.
      rewrite Z.pow_succ_r by lia. rewrite Z.mul_comm. apply Z.mod_mul. lia. }
  destruct (shr_m mrs'') as [| m0 | m0] eqn:Em; try discriminate.
  destruct (e'' <=? emax - prec); try discriminate.
  intros Heq. inversion Heq; subst s m e. clear Heq.
  split; [reflexivity |]. split; [lia |].
  replace (e'' - E) with (k1 + k2) by lia.
  rewrite Z.pow_add_r by lia.
  assert (Hm1m0 : m1 = Z.pos m0 * 2 ^ k2).
  { destruct Hexato as [Hk | [Hk Hpar]]; rewrite Hk in *.
    - change (2 ^ 0) with 1 in *. rewrite Z.div_1_r in Hm2. lia.
    - change (2 ^ 1) with 2 in *.
      rewrite (Z.div_mod m1 2) at 1 by lia. rewrite Hpar, <- Hm2. lia. }
  assert (HP2 : 1 <= 2 ^ k2) by (apply Z.lt_pred_le; apply Z.pow_pos_nonneg; lia).
  replace (Z.pos m0 * (2 ^ k1 * 2 ^ k2) * D) with (m1 * (2 ^ k1 * D))
    by (rewrite Hm1m0; ring).
  apply Z.le_trans with (2 ^ k1 * D); [exact Hb1 |].
  rewrite <- (Z.mul_1_r (2 ^ k1 * D)) at 1.
  replace (2 ^ k1 * 2 ^ k2 * D) with (2 ^ k1 * D * 2 ^ k2) by ring.
  apply Z.mul_le_mono_nonneg_l; lia.
Qed.

Local Abbreviation u := (unidade prec).

(** From the integer bound of one rounding to a relative error. *)
Lemma erro_relativo (N D E : Z) (m : positive) (e : Z) :
  0 <= N -> 0 < D -> E <= e ->
  2 * Z.abs (Z.pos m * 2 ^ (e - E) * D - N) <= 2 ^ (e - E) * D ->
  Z.pos (digits2_pos m) = prec ->
  let R := (inject_Z (Z.pos m) * 2 ^ e)%Q in
  let V := (inject_Z N / inject_Z D * 2 ^ E)%Q in
  ((1 - u) * R <= V /\ V <= (1 + u) * R)%Q.
Proof.
  intros HN HD HE Hb Hdig R V.
  set (K := 2 ^ (e - E)) in *.
  assert (HK : 0 < K) by (apply Z.pow_pos_nonneg; lia).
  assert (HP : (0 < 2 ^ E)%Q) by (apply Qpower_0_lt; reflexivity).
  assert (HDQ : (0 < inject_Z D)%Q)
    by (change 0%Q with (inject_Z 0); rewrite <- Zlt_Qlt; exact HD).
  assert (He : (2 ^ e == 2 ^ E * inject_Z K)%Q).
  { unfold K. rewrite Zpower_Qpower by lia.
    rewrite <- Qpower_plus by discriminate.
    replace (E + (e - E)) with e by lia. reflexivity. }
  (* the mantissa is at least 2^(prec-1) *)
  assert (Hm : 2 ^ (prec - 1) <= Z.pos m).
  { rewrite <- Hdig. apply digitos_pos. }
  assert (Hu : (2 ^ e <= 2 * u * R)%Q).
  { unfold u, R.
    setoid_replace (2 * 2 ^ (- prec) * (inject_Z (Z.pos m) * 2 ^ e))%Q
      with (2 ^ e * (2 ^ (1 - prec) * inject_Z (Z.pos m)))%Q.
    2:{ replace (1 - prec) with (1 + - prec) by lia.
        rewrite Qpower_plus by discriminate. rewrite Qpower_1_r. ring. }
    rewrite <- (Qmult_1_r (2 ^ e)) at 1.
    apply Qmult_le_l; [apply Qpower_0_lt; reflexivity |].
    apply Qle_trans with (2 ^ (1 - prec) * inject_Z (2 ^ (prec - 1)))%Q.
    - rewrite Zpower_Qpower by lia. rewrite <- Qpower_plus by discriminate.
      replace (1 - prec + (prec - 1)) with 0 by lia. apply Qle_refl.
    - apply Qmult_le_l; [apply Qpower_0_lt; reflexivity |].
      rewrite <- Zle_Qle. exact Hm. }
  (* the absolute error is at most half of 2^e *)
  assert (Habs : (- (2 ^ e) <= 2 * (R - V) /\ 2 * (R - V) <= 2 ^ e)%Q).
  { assert (Hz1 : - (K * D) <= 2 * (Z.pos m * K * D + - N)) by lia.
    assert (Hz2 : 2 * (Z.pos m * K * D + - N) <= K * D) by lia.
    rewrite Zle_Qle in Hz1, Hz2.
    rewrite ?inject_Z_opp, ?inject_Z_mult, ?inject_Z_plus, ?inject_Z_mult,
      ?inject_Z_opp in Hz1, Hz2.
    rewrite ?inject_Z_mult in Hz1, Hz2.
    assert (HRV : (2 * (R - V) * inject_Z D
                   == 2 ^ E * (inject_Z 2 * (inject_Z (Z.pos m) * inject_Z K * inject_Z D + - inject_Z N)))%Q).
    { unfold R, V. rewrite He. change (inject_Z 2) with 2%Q. field.
      intros H0. rewrite H0 in HDQ. discriminate HDQ. }
    assert (HeD : (2 ^ e * inject_Z D == 2 ^ E * (inject_Z K * inject_Z D))%Q).
    { rewrite He. ring. }
    split.
    - apply (Qmult_le_r _ _ (inject_Z D) HDQ).
      setoid_replace (- 2 ^ e * inject_Z D)%Q with (2 ^ E * - (inject_Z K * inject_Z D))%Q
        by (rewrite He; ring).
      rewrite HRV. apply Qmult_le_l; [exact HP | exact Hz1].
    - apply (Qmult_le_r _ _ (inject_Z D) HDQ).
      rewrite HRV, HeD. apply Qmult_le_l; [exact HP | exact Hz2]. }
  destruct Habs as [Ha1 Ha2]. split; lra.
Qed.

(** The location that the division computes from its remainder. *)
Lemma descreve_new_location N D :
  0 <= N -> 0 < D ->
  descreve N D (shr_record_of_loc (N / D) (new_location D (N mod D))).
Proof.
  intros HN HD.
  assert (Hrho : 0 <= N mod D < D) by (apply Z.mod_pos_bound; lia).
  unfold descreve. rewrite shr_m_of_loc. split; [reflexivity |].
  remember (N mod D) as rho.
  unfold new_location, new_location_even, new_location_odd.
  destruct (Z.even D) eqn:Hev.
  - repeat match goal with
           | |- context [Z.compare ?a ?b] => destruct (Z.compare_spec a b)
           | |- context [Z.leb ?a ?b] => destruct (Z.leb_spec a b)
           | |- context [Z.eqb ?a ?b] => destruct (Z.eqb_spec a b)
           end; cbn; try lia; split; reflexivity.
  - assert (Hodd : Z.odd D = true) by (rewrite <- Z.negb_even, Hev; reflexivity).
    apply Z.odd_spec in Hodd. destruct Hodd as [k Hk].
    repeat match goal with
           | |- context [Z.compare ?a ?b] => destruct (Z.compare_spec a b)
           | |- context [Z.leb ?a ?b] => destruct (Z.leb_spec a b)
           | |- context [Z.eqb ?a ?b] => destruct (Z.eqb_spec a b)
           end; cbn; try lia; split; reflexivity.
Qed.

(** A normal product is within a unit roundoff of the exact product. *)
Lemma mul_erro mx ex my ey s m e :
  SFmul prec emax (S754_finite false mx ex) (S754_finite false my ey)
  = S754_finite s m e ->
  Z.pos (digits2_pos m) = prec ->
  s = false /\
  ((1 - u) * SF2Q (S754_finite s m e)
   <= SF2Q (S754_finite false mx ex) * SF2Q (S754_finite false my ey) /\
   SF2Q (S754_finite false mx ex) * SF2Q (S754_finite false my ey)
   <= (1 + u) * SF2Q (S754_finite s m e))%Q.
Proof.
  intros Hmul Hdig. unfold SFmul in Hmul. cbn [xorb] in Hmul.
  destruct (binary_round_aux_erro _ _ _ _ (Z.pos (mx * my)) 1
              s m e (Pos2Z.is_nonneg _) Z.lt_0_1
              (descreve_loc_exato _ (Pos2Z.is_nonneg _)) Hmul)
    as (Hs & HE & Hb).
  split; [exact Hs |]. subst s.
  pose proof (erro_relativo (Z.pos (mx * my)) 1 (ex + ey) m e
                (Pos2Z.is_nonneg _) Z.lt_0_1 HE Hb Hdig) as H.
  cbv zeta in H. unfold SF2Q.
  assert (HV : (inject_Z (Z.pos (mx * my)) / inject_Z 1 * 2 ^ (ex + ey)
                == 1 * inject_Z (Z.pos mx) * 2 ^ ex
                   * (1 * inject_Z (Z.pos my) * 2 ^ ey))%Q).
  { rewrite Pos2Z.inj_mul, inject_Z_mult.
    rewrite Qpower_plus by discriminate. field. }
  rewrite HV in H.
  setoid_replace (1 * inject_Z (Z.pos m) * 2 ^ e)%Q
    with (inject_Z (Z.pos m) * 2 ^ e)%Q by ring.
  exact H.
Qed.

(** A normal quotient is within a unit roundoff of the exact quotient. *)
Lemma div_erro mx ex my ey s m e :
  SFdiv prec emax (S754_finite false mx ex) (S754_finite false my ey)
  = S754_finite s m e ->
  Z.pos (digits2_pos m) = prec ->
  s = false /\
  ((1 - u) * SF2Q (S754_finite s m e)
   <= SF2Q (S754_finite false mx ex) / SF2Q (S754_finite false my ey) /\
   SF2Q (S754_finite false mx ex) / SF2Q (S754_finite false my ey)
   <= (1 + u) * SF2Q (S754_finite s m e))%Q.
Proof.
  intros Hdiv Hdig. unfold SFdiv, SFdiv_core_binary in Hdiv.
  cbn [xorb] in Hdiv.
  set (e' := Z.min (fexp prec emax (Zdigits2 (Z.pos mx) + ex
                                    - (Zdigits2 (Z.pos my) + ey)))
               (ex - ey)) in *.
  set (sh := ex - ey - e') in *.
  assert (Hsh : 0 <= sh) by (unfold sh, e'; lia).
  set (m' := match sh with
             | 0 => Z.pos mx
             | Z.pos _ => Z.shiftl (Z.pos mx) sh
             | Z.neg _ => 0
             end) in *.
  assert (Hm' : m' = Z.pos mx * 2 ^ sh).
  { assert (Hgen : forall z, 0 <= z ->
              match z with
              | 0 => Z.pos mx
              | Z.pos _ => Z.shiftl (Z.pos mx) z
              | Z.neg _ => 0
              end = Z.pos mx * 2 ^ z).
    { intros [| p | p] Hz; try lia. apply Z.shiftl_mul_pow2. lia. }
    exact (Hgen sh Hsh). }
  assert (Hm'0 : 0 <= m').
  { rewrite Hm'. apply Z.mul_nonneg_nonneg; [lia | apply Z.pow_nonneg; lia]. }
  assert (Hde : Z.div_eucl m' (Z.pos my) = (m' / Z.pos my, m' mod Z.pos my)).
  { unfold Z.div, Z.modulo. destruct (Z.div_eucl m' (Z.pos my)). reflexivity. }
  rewrite Hde in Hdiv.
  destruct (binary_round_aux_erro _ _ _ _ m' (Z.pos my)
              s m e Hm'0 (Pos2Z.is_pos _)
              (descreve_new_location m' (Z.pos my) Hm'0 (Pos2Z.is_pos _)) Hdiv)
    as (Hs & HE & Hb).
  split; [exact Hs |]. subst s.
  pose proof (erro_relativo m' (Z.pos my) e' m e
                Hm'0 (Pos2Z.is_pos _) HE Hb Hdig) as H.
  cbv zeta in H. unfold SF2Q.
  assert (HV : (inject_Z m' / inject_Z (Z.pos my) * 2 ^ e'
                == 1 * inject_Z (Z.pos mx) * 2 ^ ex
                   / (1 * inject_Z (Z.pos my) * 2 ^ ey))%Q).
  { rewrite Hm', inject_Z_mult. rewrite Zpower_Qpower by lia.
    change (inject_Z 2) with 2%Q.
    assert (Hex : (2 ^ ex == 2 ^ sh * 2 ^ e' * 2 ^ ey)%Q).
    { rewrite <- !Qpower_plus by discriminate.
      replace (sh + e' + ey) with ex by (unfold sh; lia). reflexivity. }
    rewrite Hex. field. split.
    - apply Qpower_not_0. discriminate.
    - discriminate. }
  rewrite HV in H.
  setoid_replace (1 * inject_Z (Z.pos m) * 2 ^ e)%Q
    with (inject_Z (Z.pos m) * 2 ^ e)%Q by ring.
  exact H.
Qed.

End Arredondamento.

Section IdaEVolta.

Local Open Scope Z_scope.

Lemma SF2Q_positivo m e : (0 < SF2Q (S754_finite false m e))%Q.
Proof.
  unfold SF2Q. apply Qmult_lt_0_compat.
  - rewrite Qmult_1_l. change 0%Q with (inject_Z 0). rewrite <- Zlt_Qlt. lia.
  - apply Qpower_0_lt. reflexivity.
Qed.

Lemma normal_forma x :
  F64.is_normal x = true ->
  exists m e, x = S754_finite false m e /\ Z.pos (digits2_pos m) = F64.prec.
Proof.
  destruct x as [| | | [] m e]; try discriminate. unfold F64.is_normal.
  intros H. apply Z.eqb_eq in H. exists m, e. split; [reflexivity | exact H].
Qed.

Lemma produto_limitado (x1 y1 x2 y2 : Q) :
  (0 <= x1 -> x1 <= y1 -> 0 <= x2 -> x2 <= y2 -> x1 * x2 <= y1 * y2)%Q.
Proof.
  intros. apply Qle_trans with (y1 * x2)%Q.
  - apply Qmult_le_compat_r; assumption.
  - rewrite (Qmult_comm y1 x2), (Qmult_comm y1 y2).
    apply Qmult_le_compat_r; [assumption |]. apply Qle_trans with x1; assumption.
Qed.

End IdaEVolta.

(* ================================================================= *)
(** ** The claims *)

(** C1 (the code departs from it).  The claim: whenever the direct attempt
    fails, the missing pair key included, a second request for the inverse
    pair is issued and an inverse entry is returned as [1 / bid].  On the
    code, a direct response that decodes to an object without the direct
    key raises nothing inside the [try], so the handler that holds the
    inverse attempt is skipped: for USD to BRL against a service that
    knows BRL-USD only, one request is made and the resolver raises its
    [ValueError], although the inverse request would have been answered
    with a usable entry. *)
Theorem chave_direta_ausente_sem_pedido_inverso :
  let s := janela rede_so_inversa 0 1 "100" in
  _obter_cotacao "USD" "BRL" s
  = (Excecao (ValueError (mensagem_indisponivel "USD" "BRL")),
     com_pedidos [API_URL "USD" "BRL"] s) /\
  rede s 1%nat (API_URL "BRL" "USD") = resposta_cotacao "BRLUSD" "0.20" /\
  dialogos (snd (converter_moeda s))
  = [{| caixa := Critical; titulo := "Erro de API";
        texto := Detalhe "Valor inválido ou erro de cotação. Detalhe: "
                   (ValueError (mensagem_indisponivel "USD" "BRL")) |}].
Proof.
  cbv zeta. split; [| split].
  - apply (direta_sem_chave "USD" "BRL" (janela rede_so_inversa 0 1 "100")
             200 []); [reflexivity | lia | reflexivity].
  - reflexivity.
  - vm_compute. reflexivity.
Qed.

(** C2.  When the direct request is answered with a 2xx status and a JSON
    object whose entry for the direct key [origem ++ destino] carries a bid
    and a timestamp, the resolver returns the float of that bid as it is,
    the timestamp and the direct key, and the direct URL is the only
    request made. *)
Theorem cotacao_direta_sem_transformacao
    (origem destino : string) (s : estado) (st : Z)
    (corpo : list (string * json)) (x : F64.float) (data : json) :
  rede s (List.length (pedidos s)) (API_URL origem destino)
  = Resposta st (Some (JObj corpo)) ->
  (200 <= st < 300)%Z ->
  entrada_valida corpo (origem ++ destino) x data ->
  _obter_cotacao origem destino s
  = (Retorno (x, data, origem ++ destino),
     com_pedidos (pedidos s ++ [API_URL origem destino])%list s).
Proof.
  intros Hr Hst Hv. apply (direta_retorna origem destino s st corpo); trivial.
  lia.
Qed.

Lemma cotacao_direta_sem_transformacao_exemplo :
  _obter_cotacao "USD" "BRL" (janela rede_direta 0 1 "100")
  = (Retorno (S754_finite false 5629499534213120 (-50),
              JStr "2024-01-01 12:00:00", "USDBRL"),
     com_pedidos [API_URL "USD" "BRL"] (janela rede_direta 0 1 "100")).
Proof.
  apply (cotacao_direta_sem_transformacao "USD" "BRL"
           (janela rede_direta 0 1 "100") 200
           [("USDBRL", JObj [("bid", JStr "5.00");
                             ("create_date", JStr "2024-01-01 12:00:00")])]).
  - reflexivity.
  - split; [apply Zle_bool_imp_le | apply Z.ltb_lt]; reflexivity.
  - exists [("bid", JStr "5.00"); ("create_date", JStr "2024-01-01 12:00:00")].
    exists (JStr "5.00"). repeat split.
Defined.

(** C3.  With two different currencies and a positive amount, when the
    resolver obtains no quotation (neither attempt returns one) it raises
    the [ValueError] whose message names the origin and the destination,
    and no other exception; [converter_moeda] catches it, logs it, shows
    the critical box "Erro de API" with that message as detail, and
    returns normally. *)
Theorem cotacao_indisponivel_recuperada (s : estado) (v : F64.float) :
  currentText (combo_origem s) <> currentText (combo_destino s) ->
  Py.float_of_str (valor_texto s) = Some v ->
  F64.leb v F64.zero = false ->
  (forall q s2,
     _obter_cotacao (currentText (combo_origem s))
       (currentText (combo_destino s)) (iniciada s) <> (Retorno q, s2)) ->
  let origem := currentText (combo_origem s) in
  let destino := currentText (combo_destino s) in
  let e := ValueError ("O par de moedas " ++ origem ++ "-" ++ destino
             ++ " e o par inverso não foram encontrados ou a API está indisponível.") in
  exists s2,
    _obter_cotacao origem destino (iniciada s) = (Excecao e, s2) /\
    converter_moeda s
    = (Retorno tt,
       com_dialogos
         (dialogos s2
          ++ [{| caixa := Critical; titulo := "Erro de API";
                 texto := Detalhe "Valor inválido ou erro de cotação. Detalhe: " e |}])%list
         (com_registro (registro s2 ++ [(ERROR, LogErroValor e)])%list s2)).
Proof.
  intros Hne Hf Hle Hnone origem destino e.
  destruct (_obter_cotacao_casos origem destino (iniciada s))
    as [(q & s2 & Hq) | (s2 & Hq)].
  - exfalso. exact (Hnone q s2 Hq).
  - exists s2. split; [exact Hq |].
    rewrite (converter_moeda_sem_cotacao s v _ s2 Hne Hf Hle Hq).
    reflexivity.
Qed.

Lemma cotacao_indisponivel_recuperada_exemplo :
  exists s2,
    _obter_cotacao "USD" "BRL" (iniciada (janela rede_fora 0 1 "100"))
    = (Excecao (ValueError (mensagem_indisponivel "USD" "BRL")), s2) /\
    converter_moeda (janela rede_fora 0 1 "100")
    = (Retorno tt,
       com_dialogos
         (dialogos s2
          ++ [{| caixa := Critical; titulo := "Erro de API";
                 texto := Detalhe "Valor inválido ou erro de cotação. Detalhe: "
                            (ValueError (mensagem_indisponivel "USD" "BRL")) |}])%list
         (com_registro
            (registro s2
             ++ [(ERROR, LogErroValor
                           (ValueError (mensagem_indisponivel "USD" "BRL")))])%list
            s2)).
Proof.
  apply (cotacao_indisponivel_recuperada (janela rede_fora 0 1 "100")
           (S754_finite false 7036874417766400 (-46))).
  - discriminate.
  - reflexivity.
  - reflexivity.
  - intros q s2 H. vm_compute in H. discriminate H.
Defined.




(** C5.  When the origin and the destination are the same currency,
    [converter_moeda] shows the warning, returns, and makes no request;
    the labels keep their texts. *)
Theorem mesma_moeda_sem_pedido (s : estado) :
  currentText (combo_origem s) = currentText (combo_destino s) ->
  converter_moeda s
  = (Retorno tt,
     com_dialogos
       (dialogos s
        ++ [{| caixa := Warning; titulo := "Aviso";
               texto := Texto "As moedas de origem e destino não podem ser as mesmas." |}])%list
       (iniciada s)) /\
  pedidos (snd (converter_moeda s)) = pedidos s /\
  lbl_resultado (snd (converter_moeda s)) = lbl_resultado s /\
  lbl_data_cotacao (snd (converter_moeda s)) = lbl_data_cotacao s.
Proof.
  intros H. rewrite (converter_moeda_mesma_moeda s H). repeat split.
Qed.

Lemma mesma_moeda_sem_pedido_exemplo :
  converter_moeda (janela rede_direta 2 2 "100")
  = (Retorno tt,
     com_dialogos
       [{| caixa := Warning; titulo := "Aviso";
           texto := Texto "As moedas de origem e destino não podem ser as mesmas." |}]
       (iniciada (janela rede_direta 2 2 "100"))) /\
  pedidos (snd (converter_moeda (janela rede_direta 2 2 "100"))) = [] /\
  lbl_resultado (snd (converter_moeda (janela rede_direta 2 2 "100"))) = "0,00" /\
  lbl_data_cotacao (snd (converter_moeda (janela rede_direta 2 2 "100")))
  = RodapeInicial.
Proof.
  apply (mesma_moeda_sem_pedido (janela rede_direta 2 2 "100")).
  reflexivity.
Defined.

(** C6, the claim as stated, fails: the amount 1e308 at the rate 10 is a
    successful conversion whose product overflows, and the text shown is
    "inf", with no fraction digits. *)
Lemma produto_infinito_sem_casas :
  F64.mul (F64.of_decimal false 1 308) (F64.of_Z 10) = S754_infinity false /\
  converter_moeda (janela rede_direta_10 0 1 "1e308")
  = (Retorno tt,
     exibido (F64.of_decimal false 1 308) "BRL"
       (F64.of_Z 10, JStr "2024-01-01 12:00:00", "USDBRL")
       (com_pedidos [API_URL "USD" "BRL"]
          (iniciada (janela rede_direta_10 0 1 "1e308")))) /\
  lbl_resultado (snd (converter_moeda (janela rede_direta_10 0 1 "1e308")))
  = "inf".
Proof.
  repeat split; vm_compute; reflexivity.
Qed.

(** C6, amended.  For every successful conversion whose product
    [valor * cotacao] is finite: the result is the float product of the
    amount and the rate, and the text shown is that product rounded to two
    fraction digits, with a comma before them and a period between the
    groups of three integer digits; the footer shows the pair used and the
    timestamp. *)
Theorem resultado_formatado (s : estado) (v c : F64.float) (data : json)
    (par : string) (s2 : estado) :
  currentText (combo_origem s) <> currentText (combo_destino s) ->
  Py.float_of_str (valor_texto s) = Some v ->
  F64.leb v F64.zero = false ->
  _obter_cotacao (currentText (combo_origem s))
    (currentText (combo_destino s)) (iniciada s)
  = (Retorno (c, data, par), s2) ->
  F64.is_finite (F64.mul v c) = true ->
  exists s',
    converter_moeda s = (Retorno tt, s') /\
    registro s'
    = (registro s2
       ++ [(INFO, LogConcluida (F64.mul v c)
                    (currentText (combo_destino s)) c)])%list /\
    lbl_resultado s' = Py.format_2f "." "," (F64.mul v c) /\
    (exists inteiro d1 d2,
        lbl_resultado s'
        = inteiro ++ String "," (String d1 (String d2 EmptyString)) /\
        todos de_inteiro inteiro = true /\
        Py.is_digit d1 = true /\ Py.is_digit d2 = true) /\
    lbl_data_cotacao s' = RodapeCotacao par data /\
    dialogos s' = dialogos s.
Proof.
  intros Hne Hf Hle Hq Hfin.
  rewrite (converter_moeda_com_cotacao s v _ s2 Hne Hf Hle Hq).
  eexists. split; [reflexivity |].
  destruct (_obter_cotacao_quadro _ _ _ _ _ Hq) as (_ & _ & Hd & _).
  unfold exibido; simpl.
  rewrite (inverter_format_2f _ Hfin).
  repeat split; try assumption.
  apply format_2f_forma. exact Hfin.
Qed.

Lemma resultado_formatado_exemplo :
  exists s',
    converter_moeda (janela rede_direta 0 1 "100") = (Retorno tt, s') /\
    registro s'
    = (registro (com_pedidos [API_URL "USD" "BRL"]
                   (iniciada (janela rede_direta 0 1 "100")))
       ++ [(INFO, LogConcluida (F64.of_Z 500) "BRL" (F64.of_Z 5))])%list /\
    lbl_resultado s' = "500,00" /\
    (exists inteiro d1 d2,
        lbl_resultado s'
        = inteiro ++ String "," (String d1 (String d2 EmptyString)) /\
        todos de_inteiro inteiro = true /\
        Py.is_digit d1 = true /\ Py.is_digit d2 = true) /\
    lbl_data_cotacao s'
    = RodapeCotacao "USDBRL" (JStr "2024-01-01 12:00:00") /\
    dialogos s' = [].
Proof.
  apply (resultado_formatado (janela rede_direta 0 1 "100")
           (F64.of_Z 100) (F64.of_Z 5) (JStr "2024-01-01 12:00:00") "USDBRL"
           (com_pedidos [API_URL "USD" "BRL"]
              (iniciada (janela rede_direta 0 1 "100")))).
  - discriminate.
  - reflexivity.
  - reflexivity.
  - reflexivity.
  - reflexivity.
Defined.

(** C7, the claim as stated, fails: the amount 1e308 and the rate 10 are
    positive, the product overflows, and the way back at the rate 1/10
    stays at infinity. *)
Lemma ida_e_volta_transborda :
  F64.is_pos_finite (F64.of_decimal false 1 308) = true /\
  F64.is_pos_finite (F64.of_Z 10) = true /\
  F64.mul (F64.of_decimal false 1 308) (F64.of_Z 10) = S754_infinity false /\
  ida_e_volta (F64.of_decimal false 1 308) (F64.of_Z 10) = S754_infinity false.
Proof.
  repeat split; vm_compute; reflexivity.
Qed.

(** C7, amended.  For every positive finite amount [a] and rate [r] such
    that the three rounded results on the way, [a * r], [1 / r] and
    [(a * r) * (1 / r)], are normal numbers (no overflow, no underflow),
    the round trip differs from the amount by at most [2^-51] times the
    amount. *)
Theorem ida_e_volta_aproximada (a r : F64.float) :
  F64.is_pos_finite a = true ->
  F64.is_pos_finite r = true ->
  F64.is_normal (F64.mul a r) = true ->
  F64.is_normal (F64.div F64.one r) = true ->
  F64.is_normal (ida_e_volta a r) = true ->
  (Qabs (SF2Q (ida_e_volta a r) - SF2Q a)
   <= (1 # 2251799813685248) * SF2Q a)%Q.
Proof.
  intros Ha Hr.
  destruct a as [| | | [] ma ea]; try discriminate Ha.
  destruct r as [| | | [] mr er]; try discriminate Hr.
  clear Ha Hr. intros Hp Hq Hres. unfold ida_e_volta in *.
  destruct (normal_forma _ Hp) as (mp & ep & Ep & Dp).
  destruct (normal_forma _ Hq) as (mq & eq' & Eq & Dq).
  rewrite Ep, Eq in Hres |- *.
  destruct (normal_forma _ Hres) as (mz & ez & Ez & Dz).
  rewrite Ez.
  assert (H53 : (0 < F64.prec)%Z) by reflexivity.
  destruct (mul_erro F64.prec F64.emax H53 _ _ _ _ _ _ _ Ep Dp) as (_ & Hp1 & Hp2).
  destruct (div_erro F64.prec F64.emax H53 _ _ _ _ _ _ _ Eq Dq) as (_ & Hq1 & Hq2).
  destruct (mul_erro F64.prec F64.emax H53 _ _ _ _ _ _ _ Ez Dz) as (_ & Hz1 & Hz2).
  pose proof (SF2Q_positivo ma ea) as HA.
  pose proof (SF2Q_positivo mr er) as HR.
  pose proof (SF2Q_positivo mp ep) as HP.
  pose proof (SF2Q_positivo mq eq') as HQ.
  pose proof (SF2Q_positivo mz ez) as HZ.
  assert (Hone : (SF2Q (S754_finite false 4503599627370496 (-52)) == 1)%Q)
    by reflexivity.
  rewrite Hone in Hq1, Hq2.
  set (A := SF2Q (S754_finite false ma ea)) in *.
  set (R := SF2Q (S754_finite false mr er)) in *.
  set (P := SF2Q (S754_finite false mp ep)) in *.
  set (Qv := SF2Q (S754_finite false mq eq')) in *.
  set (Zv := SF2Q (S754_finite false mz ez)) in *.
  set (uu := unidade F64.prec) in *.
  assert (Hu0 : (0 <= 1 - uu)%Q) by (unfold uu, unidade, Qle; vm_compute; discriminate).
  assert (Hu1 : (0 <= 1 + uu)%Q) by (unfold uu, unidade, Qle; vm_compute; discriminate).
  assert (HAeq : (A == A * R * (1 / R))%Q).
  { field. intros H0. rewrite H0 in HR. discriminate HR. }
  assert (HinvR : (0 <= 1 / R)%Q).
  { apply Qlt_le_weak. unfold Qdiv. rewrite Qmult_1_l. apply Qinv_lt_0_compat. exact HR. }
  assert (HAR : (0 <= A * R)%Q).
  { apply Qlt_le_weak. apply Qmult_lt_0_compat; assumption. }
  (* upper and lower bounds of A by Zv *)
  assert (Hup : (A <= (1 + uu) * (1 + uu) * (1 + uu) * Zv)%Q).
  { rewrite HAeq.
    apply Qle_trans with ((1 + uu) * P * ((1 + uu) * Qv))%Q.
    - apply produto_limitado; assumption.
    - setoid_replace ((1 + uu) * P * ((1 + uu) * Qv))%Q
        with ((1 + uu) * (1 + uu) * (P * Qv))%Q by ring.
      setoid_replace ((1 + uu) * (1 + uu) * (1 + uu) * Zv)%Q
        with ((1 + uu) * (1 + uu) * ((1 + uu) * Zv))%Q by ring.
      apply Qmult_le_l; [| exact Hz2].
      unfold uu, unidade, Qlt; vm_compute; reflexivity. }
  assert (Hlo : ((1 - uu) * (1 - uu) * (1 - uu) * Zv <= A)%Q).
  { rewrite HAeq.
    apply Qle_trans with ((1 - uu) * P * ((1 - uu) * Qv))%Q.
    - setoid_replace ((1 - uu) * P * ((1 - uu) * Qv))%Q
        with ((1 - uu) * (1 - uu) * (P * Qv))%Q by ring.
      setoid_replace ((1 - uu) * (1 - uu) * (1 - uu) * Zv)%Q
        with ((1 - uu) * (1 - uu) * ((1 - uu) * Zv))%Q by ring.
      apply Qmult_le_l; [| exact Hz1].
      unfold uu, unidade, Qlt; vm_compute; reflexivity.
    - apply produto_limitado; try assumption.
      + apply Qmult_le_0_compat; [exact Hu0 | apply Qlt_le_weak; exact HP].
      + apply Qmult_le_0_compat; [exact Hu0 | apply Qlt_le_weak; exact HQ]. }
  set (c := (1 # 2251799813685248)%Q).
  assert (Hc1 : (1 <= (1 + c) * ((1 - uu) * (1 - uu) * (1 - uu)))%Q)
    by (unfold c, uu, unidade, Qle; vm_compute; discriminate).
  assert (Hc2 : ((1 - c) * ((1 + uu) * (1 + uu) * (1 + uu)) <= 1)%Q)
    by (unfold c, uu, unidade, Qle; vm_compute; discriminate).
  assert (Hc3 : (0 <= 1 - c)%Q) by (unfold c, Qle; vm_compute; discriminate).
  assert (Hc4 : (0 <= 1 + c)%Q) by (unfold c, Qle; vm_compute; discriminate).
  apply Qabs_Qle_condition. split.
  - (* (1 - c) A <= Zv *)
    assert (H1 : ((1 - c) * A <= (1 - c) * ((1 + uu) * (1 + uu) * (1 + uu) * Zv))%Q).
    { rewrite !(Qmult_comm (1 - c)). apply Qmult_le_compat_r; assumption. }
    assert (H2 : ((1 - c) * ((1 + uu) * (1 + uu) * (1 + uu) * Zv) <= 1 * Zv)%Q).
    { setoid_replace ((1 - c) * ((1 + uu) * (1 + uu) * (1 + uu) * Zv))%Q
        with ((1 - c) * ((1 + uu) * (1 + uu) * (1 + uu)) * Zv)%Q by ring.
      apply Qmult_le_compat_r; [exact Hc2 | apply Qlt_le_weak; exact HZ]. }
    lra.
  - assert (H1 : ((1 + c) * ((1 - uu) * (1 - uu) * (1 - uu) * Zv) <= (1 + c) * A)%Q).
    { rewrite !(Qmult_comm (1 + c)). apply Qmult_le_compat_r; assumption. }
    assert (H2 : (1 * Zv <= (1 + c) * ((1 - uu) * (1 - uu) * (1 - uu) * Zv))%Q).
    { setoid_replace ((1 + c) * ((1 - uu) * (1 - uu) * (1 - uu) * Zv))%Q
        with ((1 + c) * ((1 - uu) * (1 - uu) * (1 - uu)) * Zv)%Q by ring.
      apply Qmult_le_compat_r; [exact Hc1 | apply Qlt_le_weak; exact HZ]. }
    lra.
Qed.

Lemma ida_e_volta_aproximada_exemplo :
  (Qabs (SF2Q (ida_e_volta (F64.of_Z 100) (F64.of_Z 5)) - SF2Q (F64.of_Z 100))
   <= (1 # 2251799813685248) * SF2Q (F64.of_Z 100))%Q.
Proof.
  apply (ida_e_volta_aproximada (F64.of_Z 100) (F64.of_Z 5)); reflexivity.
Defined.

(** What [findText] found is an item equal to the text. *)
Lemma findText_de_achado l t : forall i,
  (0 <= i)%Z -> (0 <= findText_de i l t)%Z ->
  In t l /\ nth (Z.to_nat (findText_de i l t - i)) l "" = t.
Proof.
  induction l as [| x r IH]; intros i Hi H; simpl in *; [lia |].
  destruct (String.eqb_spec x t) as [-> | Hne].
  - split; [left; reflexivity |]. rewrite Z.sub_diag. reflexivity.
  - destruct (IH (i + 1)%Z ltac:(lia) H) as [Hin Hn].
    split; [right; exact Hin |].
    assert (Hb : (i + 1 <= findText_de (i + 1) r t)%Z).
    { clear - Hin Hi. revert i Hi.
      induction r as [| y r' IH']; intros i Hi; [contradiction |].
      simpl. destruct (String.eqb_spec y t) as [-> | Hne]; [lia |].
      destruct Hin as [-> | Hin]; [contradiction Hne; reflexivity |].
      specialize (IH' Hin (i + 1)%Z ltac:(lia)). lia. }
    replace (findText_de (i + 1) r t - i)%Z
      with (Z.succ (findText_de (i + 1) r t - (i + 1)))%Z by lia.
    rewrite Z2Nat.inj_succ by lia. exact Hn.
Qed.

(** When [carregar_config] logs an error, the destination keeps its
    selection, and so does the origin unless the field ["origem"] names a
    currency of the list, which is then selected. *)
Lemma carregar_config_erro s r s' e :
  carregar_config s = (r, s') ->
  registro s' = (registro s ++ [(ERROR, LogConfigFalha e)])%list ->
  combo_destino s' = combo_destino s /\
  (combo_origem s' = combo_origem s \/
   exists campos o,
     arquivo_config s = Conteudo (JObj campos) /\
     campo "origem" campos = Some (JStr o) /\
     In o (itens (combo_origem s)) /\
     currentText (combo_origem s') = o).
Proof.
  assert (Hfim : forall (x : resultado unit) (s0 : estado),
             combo_destino s0 = combo_destino s ->
             combo_origem s0 = combo_origem s ->
             (x, s0) = (r, s') ->
             registro s' = (registro s ++ [(ERROR, LogConfigFalha e)])%list ->
             combo_destino s' = combo_destino s /\
             (combo_origem s' = combo_origem s \/
              exists campos o,
                arquivo_config s = Conteudo (JObj campos) /\
                campo "origem" campos = Some (JStr o) /\
                In o (itens (combo_origem s)) /\
                currentText (combo_origem s') = o)).
  { intros x s0 Hd Ho H _. inversion H; subst. split; [exact Hd | left; exact Ho]. }
  unfold carregar_config, bind at 1, ler.
  destruct (arquivo_config s) as [| | j] eqn:Ea;
    [apply Hfim; reflexivity ..|].
  destruct j as [| b | z | x | u | l | campos];
    try (apply Hfim; reflexivity).
  unfold try_except, bind at 1, ret, bind at 1, lift, dict_get, bind at 1.
  set (vo := match campo "origem" campos with Some v => v | None => JNull end).
  set (vd := match campo "destino" campos with Some v => v | None => JNull end).
  assert (Hvd : forall s1,
             (exists s2, selecionar vd combo_destino com_combo_destino s1
                         = (Retorno tt, s2) /\ registro s2 = registro s1) \/
             selecionar vd combo_destino com_combo_destino s1
             = (Excecao TypeError, s1)).
  { intros s1. unfold selecionar.
    destruct (verdadeiro vd); [| left; eexists; repeat split].
    unfold bind, ler, lift, findText.
    destruct vd; try (right; reflexivity).
    destruct (0 <=? _)%Z; left; eexists; repeat split. }
  assert (Hinfo : forall (x : resultado unit) (s2 : estado),
             registro s2 = registro s ->
             (x, com_registro (registro s2 ++ [(INFO, LogConfigCarregada)])%list s2)
             = (r, s') ->
             registro s' = (registro s ++ [(ERROR, LogConfigFalha e)])%list ->
             False).
  { intros x s2 Hr H Hreg. inversion H; subst. simpl in Hreg.
    rewrite Hr in Hreg. apply app_inv_head in Hreg. discriminate Hreg. }
  unfold selecionar at 1.
  destruct (verdadeiro vo) eqn:Ev.
  2:{ unfold ret at 1, bind at 1. cbv beta iota. unfold bind at 1.
      destruct (Hvd s) as [(s2 & E2 & Hr2) | E2];
        rewrite E2; unfold logging, alterar.
      - intros H Hreg. exfalso. exact (Hinfo _ s2 Hr2 H Hreg).
      - apply Hfim; reflexivity. }
  unfold bind, ler, lift, findText.
  destruct vo as [| b | z | x | o | l | c] eqn:Evo;
    try (apply Hfim; reflexivity).
  cbv beta iota.
  destruct (0 <=? findText_de 0 (itens (combo_origem s)) o)%Z eqn:Ei.
  - unfold alterar at 1. cbv beta iota.
    set (s1 := com_combo_origem
                 (setCurrentIndex (findText_de 0 (itens (combo_origem s)) o)
                    (combo_origem s)) s).
    destruct (Hvd s1) as [(s2 & E2 & Hr2) | E2];
      rewrite E2; unfold logging, alterar.
    + intros H Hreg. exfalso. exact (Hinfo _ s2 Hr2 H Hreg).
    + intros H _. inversion H; subst. split; [reflexivity |]. right.
      apply Z.leb_le in Ei.
      destruct (findText_de_achado _ _ 0%Z ltac:(lia) Ei) as [Hin Hn].
      exists campos, o. split; [reflexivity |].
      split.
      { unfold vo in Evo. destruct (campo "origem" campos); [| discriminate Evo].
        rewrite Evo. reflexivity. }
      split; [exact Hin |].
      unfold s1. cbn [combo_origem com_registro com_combo_origem].
      unfold currentText, setCurrentIndex. cbn [indice itens].
      destruct (Z.ltb_spec (findText_de 0 (itens (combo_origem s)) o) 0);
        [lia |].
      rewrite Z.sub_0_r in Hn. exact Hn.
  - unfold ret at 1. cbv beta iota.
    destruct (Hvd s) as [(s2 & E2 & Hr2) | E2];
      rewrite E2; unfold logging, alterar.
    + intros H Hreg. exfalso. exact (Hinfo _ s2 Hr2 H Hreg).
    + apply Hfim; reflexivity.
Qed.

(** C8, the claim as stated, fails: the file holds the object
    [{"origem": "EUR", "destino": 5}], whose destination is malformed.
    The error is absorbed and logged, but the selections of [_setup_ui] do
    not stay: the origin, read and selected before [findText] refuses the
    destination, is EUR and no longer USD. *)
Lemma config_malformada_altera_origem :
  fst (carregar_config
         (janela_inicial rede_fora
            (Conteudo (JObj [("origem", JStr "EUR"); ("destino", JInt 5)]))))
  = Retorno tt /\
  registro (snd (carregar_config
         (janela_inicial rede_fora
            (Conteudo (JObj [("origem", JStr "EUR"); ("destino", JInt 5)])))))
  = [(ERROR, LogConfigFalha TypeError)] /\
  currentText (combo_origem
         (janela_inicial rede_fora
            (Conteudo (JObj [("origem", JStr "EUR"); ("destino", JInt 5)]))))
  = "USD" /\
  currentText (combo_origem (snd (carregar_config
         (janela_inicial rede_fora
            (Conteudo (JObj [("origem", JStr "EUR"); ("destino", JInt 5)]))))))
  = "EUR" /\
  currentText (combo_destino (snd (carregar_config
         (janela_inicial rede_fora
            (Conteudo (JObj [("origem", JStr "EUR"); ("destino", JInt 5)]))))))
  = "USD".
Proof.
  repeat split; vm_compute; reflexivity.
Qed.

(** C8, amended.  [carregar_config] returns normally whatever the file
    holds.  When the file is absent, cannot be opened or decoded, or does
    not hold a JSON object, nothing but the log changes: one record is
    added, a warning for the absent file and an error otherwise, and both
    combos keep their selection.  And whenever the record added is an
    error, the destination keeps its selection, and the origin keeps it
    too unless the file holds an object whose ["origem"] names a currency
    of the list: that currency is then selected. *)
Theorem carregar_config_nao_fatal (s : estado) :
  fst (carregar_config s) = Retorno tt /\
  ((forall campos, arquivo_config s <> Conteudo (JObj campos)) ->
   exists n ev,
     carregar_config s
     = (Retorno tt, com_registro (registro s ++ [(n, ev)])%list s) /\
     (n = WARNING \/ n = ERROR) /\
     combo_origem (snd (carregar_config s)) = combo_origem s /\
     combo_destino (snd (carregar_config s)) = combo_destino s) /\
  (forall e,
     registro (snd (carregar_config s))
     = (registro s ++ [(ERROR, LogConfigFalha e)])%list ->
     combo_destino (snd (carregar_config s)) = combo_destino s /\
     (combo_origem (snd (carregar_config s)) = combo_origem s \/
      exists campos o,
        arquivo_config s = Conteudo (JObj campos) /\
        campo "origem" campos = Some (JStr o) /\
        In o (itens (combo_origem s)) /\
        currentText (combo_origem (snd (carregar_config s))) = o)).
Proof.
  split; [| split].
  - unfold carregar_config, selecionar, bind, try_except, lift, ret, raise,
      ler, logging, alterar.
    repeat caso; reflexivity.
  - intros H. unfold carregar_config, bind, ler, try_except.
    destruct (arquivo_config s) as [| | j] eqn:E.
    + exists WARNING, LogConfigAusente. repeat split. left. reflexivity.
    + exists ERROR, (LogConfigFalha JSONDecodeError). repeat split.
      right. reflexivity.
    + exists ERROR, (LogConfigFalha AttributeError).
      destruct j; try (repeat split; right; reflexivity).
      exfalso. apply (H campos). reflexivity.
  - intros e H.
    apply (carregar_config_erro s (fst (carregar_config s))
             (snd (carregar_config s)) e); [| exact H].
    destruct (carregar_config s); reflexivity.
Qed.

Lemma carregar_config_nao_fatal_exemplo :
  exists n ev,
    carregar_config (janela_inicial rede_fora Invalido)
    = (Retorno tt,
       com_registro [(n, ev)] (janela_inicial rede_fora Invalido)) /\
    (n = WARNING \/ n = ERROR) /\
    combo_origem (snd (carregar_config (janela_inicial rede_fora Invalido)))
    = {| itens := moedas; indice := 0 |} /\
    combo_destino (snd (carregar_config (janela_inicial rede_fora Invalido)))
    = {| itens := moedas; indice := 0 |}.
Proof.
  apply (proj1 (proj2 (carregar_config_nao_fatal
                         (janela_inicial rede_fora Invalido)))).
  intros campos H. discriminate H.
Defined.

(** C9.  Every run of [converter_moeda] ends in one of two ways: either
    exactly one message box was shown and the result label and the footer
    label keep their texts, or no box was shown, the amount was converted
    by [float], the resolver returned a quotation, and the two labels show
    that conversion. *)
Theorem rotulos_so_no_sucesso (s : estado) :
  (exists d,
      dialogos (snd (converter_moeda s)) = (dialogos s ++ [d])%list /\
      lbl_resultado (snd (converter_moeda s)) = lbl_resultado s /\
      lbl_data_cotacao (snd (converter_moeda s)) = lbl_data_cotacao s) \/
  (dialogos (snd (converter_moeda s)) = dialogos s /\
   exists v c data par s2,
     Py.float_of_str (valor_texto s) = Some v /\
     _obter_cotacao (currentText (combo_origem s))
       (currentText (combo_destino s)) (iniciada s)
     = (Retorno (c, data, par), s2) /\
     lbl_resultado (snd (converter_moeda s))
     = inverter_separadores (Py.format_comma_2f (F64.mul v c)) /\
     lbl_data_cotacao (snd (converter_moeda s)) = RodapeCotacao par data).
Proof.
  destruct (String.eqb_spec (currentText (combo_origem s))
              (currentText (combo_destino s))) as [Heq | Hne].
  { left. rewrite (converter_moeda_mesma_moeda s Heq).
    eexists. repeat split. }
  destruct (String.eqb_spec (valor_texto s) "") as [He | He].
  { left. rewrite (converter_moeda_vazio s Hne He). eexists. repeat split. }
  destruct (Py.float_of_str (valor_texto s)) as [v |] eqn:Hf.
  2:{ left. rewrite (converter_moeda_nao_numerico s Hne He Hf).
      eexists. repeat split. }
  destruct (F64.leb v F64.zero) eqn:Hle.
  { left. rewrite (converter_moeda_nao_positivo s v Hne Hf Hle).
    eexists. repeat split. }
  destruct (_obter_cotacao (currentText (combo_origem s))
              (currentText (combo_destino s)) (iniciada s))
    as [[[[c data] par] | e] s2] eqn:Hq.
  - right.
    destruct (_obter_cotacao_quadro _ _ _ _ _ Hq) as (_ & _ & Hd & _).
    rewrite (converter_moeda_com_cotacao s v _ s2 Hne Hf Hle Hq).
    split; [exact Hd |].
    exists v, c, data, par, s2. repeat split.
  - left.
    destruct (_obter_cotacao_quadro _ _ _ _ _ Hq) as (Hl1 & Hl2 & Hd & _).
    rewrite (converter_moeda_sem_cotacao s v e s2 Hne Hf Hle Hq).
    unfold recuperado.
    destruct (eh_ValueError e); [| destruct (eh_RequestException e)];
      simpl; rewrite Hd, Hl1, Hl2; eexists; repeat split.
Qed.



(* ================================================================= *)
(** ** The resolver, attempt by attempt *)

Section Tentativas.

Variables origem destino : string.

(** [_obter_cotacao] is its direct attempt, handled by the warning and the
    inverse attempt, whose exceptions are dropped. *)
Lemma _obter_cotacao_tentativas :
  _obter_cotacao origem destino
  = (achado <-
       try_except
         (tentativa (API_URL origem destino) (origem ++ destino) false)
         (fun e =>
            logging WARNING
              (LogFalhaDireta (origem ++ destino) (destino ++ origem) e) ;;;
            try_except
              (tentativa (API_URL destino origem) (destino ++ origem) true)
              (fun _ => ret None)) ;;
     match achado with
     | Some q => ret q
     | None => raise (ValueError (mensagem_indisponivel origem destino))
     end).
Proof. reflexivity. Qed.

(** An attempt makes its request and writes nothing else; what it gives is
    no quotation, a quotation under its key, or an exception. *)
Lemma tentativa_desfecho url chave inversa s r s' :
  tentativa url chave inversa s = (r, s') ->
  s' = com_pedidos (pedidos s ++ [url])%list s /\
  (r = Retorno None \/
   (exists x data, r = Retorno (Some (x, data, chave))) \/
   exists e, r = Excecao e).
Proof.
  unfold tentativa, bind, lift, ret, requests_get.
  repeat caso; intros H; inversion H; subst; split; eauto.
Qed.

(** The direct attempt gives a quotation: it is returned. *)
Lemma direta_com_cotacao s q s1 :
  tentativa (API_URL origem destino) (origem ++ destino) false s
  = (Retorno (Some q), s1) ->
  _obter_cotacao origem destino s = (Retorno q, s1).
Proof.
  intros H. rewrite _obter_cotacao_tentativas.
  unfold bind at 1. unfold try_except at 1. rewrite H. reflexivity.
Qed.

(** The direct attempt ends without a quotation and without an exception:
    the handler is skipped. *)
Lemma direta_sem_cotacao s s1 :
  tentativa (API_URL origem destino) (origem ++ destino) false s
  = (Retorno None, s1) ->
  _obter_cotacao origem destino s
  = (Excecao (ValueError (mensagem_indisponivel origem destino)), s1).
Proof.
  intros H. rewrite _obter_cotacao_tentativas.
  unfold bind at 1. unfold try_except at 1. rewrite H. reflexivity.
Qed.

(** The direct attempt raises: the warning is logged and the inverse
    attempt decides. *)
Lemma direta_com_excecao s e :
  tentativa (API_URL origem destino) (origem ++ destino) false s
  = (Excecao e, com_pedidos (pedidos s ++ [API_URL origem destino])%list s) ->
  _obter_cotacao origem destino s
  = conclui origem destino
      (tentativa (API_URL destino origem) (destino ++ origem) true
         (apos_falha_direta origem destino s e)).
Proof.
  intros H. rewrite _obter_cotacao_tentativas.
  unfold bind at 1. unfold try_except at 1. rewrite H.
  unfold bind, logging, alterar, try_except, conclui.
  change (com_registro _ (com_pedidos _ s))
    with (apos_falha_direta origem destino s e).
  destruct (tentativa _ _ true _) as [[[q |] | e'] s2]; reflexivity.
Qed.

(** The inverse attempt is the second request. *)
Lemma rede_apos_falha s e url :
  rede (apos_falha_direta origem destino s e)
    (List.length (pedidos (apos_falha_direta origem destino s e))) url
  = rede s (S (List.length (pedidos s))) url.
Proof.
  simpl. rewrite length_app. simpl. rewrite Nat.add_1_r. reflexivity.
Qed.

Lemma pedidos_apos_falha s e url :
  com_pedidos (pedidos (apos_falha_direta origem destino s e) ++ [url])%list
    (apos_falha_direta origem destino s e)
  = com_pedidos (pedidos s ++ [API_URL origem destino; url])%list
      (apos_falha_direta origem destino s e).
Proof.
  unfold apos_falha_direta, com_pedidos, com_registro. simpl.
  rewrite <- app_assoc. reflexivity.
Qed.

End Tentativas.

Section UmaTentativa.

Variables url chave : string.
Variable inversa : bool.
Variable s : estado.

(** A request that fails raises. *)
Lemma tentativa_falha :
  falha_http (rede s (List.length (pedidos s)) url) ->
  exists e,
    tentativa url chave inversa s
    = (Excecao e, com_pedidos (pedidos s ++ [url])%list s).
Proof.
  unfold falha_http, tentativa, bind, requests_get, lift.
  destruct (rede s _ _) as [d | st corpo]; intros H.
  - eexists. reflexivity.
  - destruct (Z_le_dec 400 st) as [H1 | H1];
      [destruct (Z_lt_dec st 600) as [H2 | H2] |].
    + rewrite status_erro by lia. eexists. reflexivity.
    + rewrite status_ok by lia.
      destruct H as [H | ->]; [lia |]. eexists. reflexivity.
    + rewrite status_ok by lia.
      destruct H as [H | ->]; [lia |]. eexists. reflexivity.
Qed.

(** An object without the key gives no quotation and no exception. *)
Lemma tentativa_sem_chave st corpo :
  rede s (List.length (pedidos s)) url = Resposta st (Some (JObj corpo)) ->
  ~ (400 <= st < 600)%Z ->
  campo chave corpo = None ->
  tentativa url chave inversa s
  = (Retorno None, com_pedidos (pedidos s ++ [url])%list s).
Proof.
  intros Hr Hst Hk. unfold tentativa, bind, requests_get.
  rewrite Hr. unfold lift. rewrite (status_ok _ _ Hst).
  unfold resposta_json, py_in. simpl. rewrite Hk. reflexivity.
Qed.

(** A usable entry gives its bid, or the reciprocal of it; a bid of zero
    cannot be reciprocated. *)
Lemma tentativa_valida st corpo x data :
  rede s (List.length (pedidos s)) url = Resposta st (Some (JObj corpo)) ->
  ~ (400 <= st < 600)%Z ->
  entrada_valida corpo chave x data ->
  tentativa url chave inversa s
  = (if inversa then
       if F64.is_zero x then Excecao ZeroDivisionError
       else Retorno (Some (F64.div F64.one x, data, chave))
     else Retorno (Some (x, data, chave)),
     com_pedidos (pedidos s ++ [url])%list s).
Proof.
  intros Hr Hst (entrada & bid & Hk & Hb & Hf & Hd).
  unfold tentativa, bind, requests_get.
  rewrite Hr. unfold lift. rewrite (status_ok _ _ Hst).
  unfold resposta_json, py_in, getitem, truediv. simpl.
  rewrite Hk, Hb, Hf.
  destruct inversa; [destruct (F64.is_zero x) |]; rewrite ?Hd; reflexivity.
Qed.


End UmaTentativa.

(* ================================================================= *)
(** ** Further properties of the quote resolver *)

(** The fallback of lemma [inversa_retorna] (X1) at work: the direct
    request meets a connection error, the inverse pair is quoted at 0.20,
    and the resolver returns [1 / 0.20] under the key BRLUSD after the two
    requests. *)
Lemma inversa_retorna_exemplo :
  exists e,
    _obter_cotacao "USD" "BRL" (janela rede_inversa_apos_erro 0 1 "100")
    = (Retorno (F64.div F64.one (F64.of_decimal false 20 (-2)),
                JStr "2024-01-01 12:00:00", "BRLUSD"),
       com_pedidos [API_URL "USD" "BRL"; API_URL "BRL" "USD"]
         (apos_falha_direta "USD" "BRL"
            (janela rede_inversa_apos_erro 0 1 "100") e)).
Proof.
  apply (inversa_retorna "USD" "BRL"
           (janela rede_inversa_apos_erro 0 1 "100") 200
           [("BRLUSD", JObj [("bid", JStr "0.20");
                             ("create_date", JStr "2024-01-01 12:00:00")])]).
  - exact I.
  - reflexivity.
  - lia.
  - exists [("bid", JStr "0.20"); ("create_date", JStr "2024-01-01 12:00:00")],
      (JStr "0.20").
    repeat split.
  - reflexivity.
Defined.

(** The two failed requests of lemma [ambas_falham] (X2): no request
    gets through, and the resolver raises its [ValueError] after the
    direct request, the warning and the inverse request. *)
Lemma ambas_falham_exemplo :
  exists e,
    _obter_cotacao "USD" "BRL" (janela rede_fora 0 1 "100")
    = (Excecao (ValueError (mensagem_indisponivel "USD" "BRL")),
       com_pedidos [API_URL "USD" "BRL"; API_URL "BRL" "USD"]
         (apos_falha_direta "USD" "BRL" (janela rede_fora 0 1 "100") e)).
Proof.
  apply (ambas_falham "USD" "BRL" (janela rede_fora 0 1 "100")).
  - exact I.
  - exact I.
Defined.



(** X4.  An inverse entry whose bid converts to zero cannot be
    reciprocated: the division by zero is caught inside the resolver, which
    raises its own [ValueError] after the two requests. *)
Theorem bid_inverso_zero_indisponivel (origem destino : string)
    (s : estado) (st : Z) (corpo : list (string * json)) (x : F64.float)
    (data : json) :
  falha_http (rede s (List.length (pedidos s)) (API_URL origem destino)) ->
  rede s (S (List.length (pedidos s))) (API_URL destino origem)
  = Resposta st (Some (JObj corpo)) ->
  ~ (400 <= st < 600)%Z ->
  entrada_valida corpo (destino ++ origem) x data ->
  F64.is_zero x = true ->
  exists e,
    _obter_cotacao origem destino s
    = (Excecao (ValueError (mensagem_indisponivel origem destino)),
       com_pedidos (pedidos s ++ [API_URL origem destino;
                                  API_URL destino origem])%list
         (apos_falha_direta origem destino s e)).
Proof.
  intros Hd Hr Hst Hv Hz.
  destruct (tentativa_falha (API_URL origem destino) (origem ++ destino)
              false s Hd) as [e He].
  exists e. rewrite (direta_com_excecao _ _ _ _ He).
  rewrite <- (rede_apos_falha origem destino s e) in Hr.
  rewrite (tentativa_valida _ _ true _ _ _ _ _ Hr Hst Hv), Hz.
  rewrite pedidos_apos_falha. reflexivity.
Qed.

Lemma bid_inverso_zero_indisponivel_exemplo :
  exists e,
    _obter_cotacao "USD" "BRL" (janela rede_inversa_zero 0 1 "100")
    = (Excecao (ValueError (mensagem_indisponivel "USD" "BRL")),
       com_pedidos [API_URL "USD" "BRL"; API_URL "BRL" "USD"]
         (apos_falha_direta "USD" "BRL"
            (janela rede_inversa_zero 0 1 "100") e)).
Proof.
  apply (bid_inverso_zero_indisponivel "USD" "BRL"
           (janela rede_inversa_zero 0 1 "100") 200
           [("BRLUSD", JObj [("bid", JStr "0");
                             ("create_date", JStr "2024-01-01 12:00:00")])]
           (F64.of_decimal false 0 0) (JStr "2024-01-01 12:00:00")).
  - exact I.
  - reflexivity.
  - lia.
  - exists [("bid", JStr "0"); ("create_date", JStr "2024-01-01 12:00:00")],
      (JStr "0").
    repeat split.
  - reflexivity.
Defined.

(** X5.  Every run of [_obter_cotacao] ends in one of four ways, and
    writes nothing but the list of requests and the log: a quotation under
    the direct key after the direct request alone; a quotation under the
    inverse key after the direct request, one warning and the inverse
    request; or its own [ValueError], after the direct request alone or
    after both.  It never makes a third request and never asks for the
    inverse pair first. *)
Theorem _obter_cotacao_desfechos (origem destino : string) (s : estado) :
  (exists x data,
      _obter_cotacao origem destino s
      = (Retorno (x, data, origem ++ destino),
         com_pedidos (pedidos s ++ [API_URL origem destino])%list s)) \/
  (exists x data e,
      _obter_cotacao origem destino s
      = (Retorno (x, data, destino ++ origem),
         com_pedidos (pedidos s ++ [API_URL origem destino;
                                    API_URL destino origem])%list
           (apos_falha_direta origem destino s e))) \/
  _obter_cotacao origem destino s
  = (Excecao (ValueError (mensagem_indisponivel origem destino)),
     com_pedidos (pedidos s ++ [API_URL origem destino])%list s) \/
  (exists e,
      _obter_cotacao origem destino s
      = (Excecao (ValueError (mensagem_indisponivel origem destino)),
         com_pedidos (pedidos s ++ [API_URL origem destino;
                                    API_URL destino origem])%list
           (apos_falha_direta origem destino s e))).
Proof.
  destruct (tentativa (API_URL origem destino) (origem ++ destino) false s)
    as [r1 s1] eqn:H1.
  destruct (tentativa_desfecho _ _ _ _ _ _ H1)
    as [-> [-> | [(x & data & ->) | (e & ->)]]].
  - right. right. left. apply direta_sem_cotacao. exact H1.
  - left. exists x, data. apply direta_com_cotacao. exact H1.
  - rewrite (direta_com_excecao _ _ _ _ H1).
    destruct (tentativa (API_URL destino origem) (destino ++ origem) true
                (apos_falha_direta origem destino s e)) as [r2 s2] eqn:H2.
    destruct (tentativa_desfecho _ _ _ _ _ _ H2)
      as [-> [-> | [(x & data & ->) | (e2 & ->)]]];
      rewrite pedidos_apos_falha; unfold conclui.
    + right. right. right. exists e. reflexivity.
    + right. left. exists x, data, e. reflexivity.
    + right. right. right. exists e. reflexivity.
Qed.

(* ================================================================= *)
(** ** Further properties of [converter_moeda] *)

(** The resolver ends after its direct request, or after the warning and
    the inverse request; it writes nothing else. *)
Lemma _obter_cotacao_estado origem destino s r s' :
  _obter_cotacao origem destino s = (r, s') ->
  s' = com_pedidos (pedidos s ++ [API_URL origem destino])%list s \/
  exists e,
    s' = com_pedidos (pedidos s ++ [API_URL origem destino;
                                    API_URL destino origem])%list
           (apos_falha_direta origem destino s e).
Proof.
  destruct (tentativa (API_URL origem destino) (origem ++ destino) false s)
    as [r1 s1] eqn:H1.
  destruct (tentativa_desfecho _ _ _ _ _ _ H1)
    as [-> [-> | [(x & data & ->) | (e & ->)]]].
  - rewrite (direta_sem_cotacao _ _ _ _ H1). intros H. inversion H. auto.
  - rewrite (direta_com_cotacao _ _ _ _ _ H1). intros H. inversion H. auto.
  - rewrite (direta_com_excecao _ _ _ _ H1).
    destruct (tentativa (API_URL destino origem) (destino ++ origem) true
                (apos_falha_direta origem destino s e)) as [r2 s2] eqn:H2.
    destruct (tentativa_desfecho _ _ _ _ _ _ H2) as [-> _].
    rewrite pedidos_apos_falha. unfold conclui.
    intros H. right. exists e.
    destruct r2 as [[q |] | e2]; inversion H; reflexivity.
Qed.

(** X6.  No exception leaves [converter_moeda]: whatever the window
    holds and whatever the network answers, the slot returns. *)
Theorem converter_moeda_sempre_retorna (s : estado) :
  fst (converter_moeda s) = Retorno tt.
Proof.
  unfold converter_moeda, QMessageBox_warning, QMessageBox_critical,
    bind, try_except, ler, lift, logging, alterar.
  repeat caso; reflexivity.
Qed.

(** X7.  [converter_moeda] leaves the two selections, the text typed,
    the configuration file and the network as they are, and the requests
    it adds are none, the direct one, or the direct one followed by the
    inverse one. *)
Theorem converter_moeda_quadro (s : estado) :
  combo_origem (snd (converter_moeda s)) = combo_origem s /\
  combo_destino (snd (converter_moeda s)) = combo_destino s /\
  input_valor (snd (converter_moeda s)) = input_valor s /\
  arquivo_config (snd (converter_moeda s)) = arquivo_config s /\
  rede (snd (converter_moeda s)) = rede s /\
  exists l,
    pedidos (snd (converter_moeda s)) = (pedidos s ++ l)%list /\
    pedidos_de (currentText (combo_origem s))
      (currentText (combo_destino s)) l.
Proof.
  destruct (String.eqb_spec (currentText (combo_origem s))
              (currentText (combo_destino s))) as [Heq | Hne].
  { rewrite (converter_moeda_mesma_moeda s Heq).
    simpl. repeat split. exists [].
    split; [rewrite app_nil_r; reflexivity | left; reflexivity]. }
  destruct (String.eqb_spec (valor_texto s) "") as [He | He].
  { rewrite (converter_moeda_vazio s Hne He).
    simpl. repeat split. exists [].
    split; [rewrite app_nil_r; reflexivity | left; reflexivity]. }
  destruct (Py.float_of_str (valor_texto s)) as [v |] eqn:Hf.
  2:{ rewrite (converter_moeda_nao_numerico s Hne He Hf).
      simpl. repeat split. exists [].
    split; [rewrite app_nil_r; reflexivity | left; reflexivity]. }
  destruct (F64.leb v F64.zero) eqn:Hle.
  { rewrite (converter_moeda_nao_positivo s v Hne Hf Hle).
    simpl. repeat split. exists [].
    split; [rewrite app_nil_r; reflexivity | left; reflexivity]. }
  destruct (_obter_cotacao (currentText (combo_origem s))
              (currentText (combo_destino s)) (iniciada s))
    as [[[[c data] par] | e] s2] eqn:Hq.
  - rewrite (converter_moeda_com_cotacao s v _ s2 Hne Hf Hle Hq).
    destruct (_obter_cotacao_estado _ _ _ _ _ Hq) as [-> | [e ->]];
      simpl; repeat split; eexists; (split; [reflexivity |]);
      unfold pedidos_de; auto.
  - rewrite (converter_moeda_sem_cotacao s v e s2 Hne Hf Hle Hq).
    unfold recuperado.
    destruct (_obter_cotacao_estado _ _ _ _ _ Hq) as [-> | [e' ->]];
      destruct (eh_ValueError e); [| destruct (eh_RequestException e) | |
                                    destruct (eh_RequestException e)];
      simpl; repeat split; eexists; (split; [reflexivity |]);
      unfold pedidos_de; auto.
Qed.

(** X8.  The handlers of [converter_moeda] for a [RequestException] and
    for any other exception are never entered: the resolver turns every
    failure of the network into its [ValueError], so a run shows no box, a
    warning, or the error box titled "Erro de API" whose detail is a
    [ValueError]; it never shows "Erro de Conexão" or "Erro Desconhecido". *)
Theorem converter_moeda_so_erro_de_api (s : estado) :
  dialogos (snd (converter_moeda s)) = dialogos s \/
  exists d,
    dialogos (snd (converter_moeda s)) = (dialogos s ++ [d])%list /\
    ((caixa d = Warning /\ titulo d = "Aviso") \/
     (caixa d = Critical /\ titulo d = "Erro de API" /\
      exists e,
        texto d = Detalhe "Valor inválido ou erro de cotação. Detalhe: " e /\
        eh_ValueError e = true)).
Proof.
  destruct (String.eqb_spec (currentText (combo_origem s))
              (currentText (combo_destino s))) as [Heq | Hne].
  { right. rewrite (converter_moeda_mesma_moeda s Heq).
    eexists. split; [reflexivity |]. left. split; reflexivity. }
  destruct (String.eqb_spec (valor_texto s) "") as [He | He].
  { right. rewrite (converter_moeda_vazio s Hne He).
    eexists. split; [reflexivity |]. left. split; reflexivity. }
  destruct (Py.float_of_str (valor_texto s)) as [v |] eqn:Hf.
  2:{ right. rewrite (converter_moeda_nao_numerico s Hne He Hf).
      eexists. split; [reflexivity |]. right.
      repeat split. eexists. split; reflexivity. }
  destruct (F64.leb v F64.zero) eqn:Hle.
  { right. rewrite (converter_moeda_nao_positivo s v Hne Hf Hle).
    eexists. split; [reflexivity |]. left. split; reflexivity. }
  destruct (_obter_cotacao_casos (currentText (combo_origem s))
              (currentText (combo_destino s)) (iniciada s))
    as [(q & s2 & Hq) | (s2 & Hq)];
    destruct (_obter_cotacao_quadro _ _ _ _ _ Hq) as (_ & _ & Hd & _).
  - left. rewrite (converter_moeda_com_cotacao s v q s2 Hne Hf Hle Hq).
    destruct q as [[c data] par]. exact Hd.
  - right. rewrite (converter_moeda_sem_cotacao s v _ s2 Hne Hf Hle Hq).
    simpl. rewrite Hd. eexists. split; [reflexivity |]. right.
    repeat split. eexists. split; reflexivity.
Qed.

(** *** The separators, twice *)

Lemma troca_troca c : Ascii.eqb c "_" = false -> troca (troca c) = c.
Proof.
  destruct c as [[] [] [] [] [] [] [] []]; intros H;
    try discriminate H; reflexivity.
Qed.

Lemma map_troca_troca t :
  todos (fun c => negb (Ascii.eqb c "_")) t = true ->
  map_str troca (map_str troca t) = t.
Proof.
  induction t as [| c r IH]; simpl; [reflexivity |].
  intros H. apply andb_prop in H. destruct H as [Hc Hr].
  apply negb_true_iff in Hc. rewrite (troca_troca c Hc), (IH Hr).
  reflexivity.
Qed.

Lemma digito_sem_sublinhado c :
  Py.is_digit c = true -> negb (Ascii.eqb c "_") = true.
Proof.
  destruct c as [[] [] [] [] [] [] [] []]; intros H;
    try discriminate H; reflexivity.
Qed.

(** The text of [,.2f] holds no underscore. *)
Lemma format_comma_2f_sem_sublinhado x :
  todos (fun c => negb (Ascii.eqb c "_")) (Py.format_comma_2f x) = true.
Proof.
  assert (H2 : forall neg c,
             todos (fun c => negb (Ascii.eqb c "_")) (Py.fixed2 "," "." neg c)
             = true).
  { intros neg c. unfold Py.fixed2, Py.group3, Py.two_digits.
    assert (Hd : (0 <= c mod 100 < 100)%Z) by (apply Z.mod_pos_bound; lia).
    rewrite !todos_app. simpl.
    rewrite todos_rev. simpl.
    rewrite todos_insert_sep; [| reflexivity |].
    2:{ rewrite todos_rev. simpl.
        apply todos_impl with (P := Py.is_digit);
          [apply digito_sem_sublinhado | apply digitos_de_Z]. }
    rewrite !digito_sem_sublinhado.
    - destruct neg; reflexivity.
    - apply digit_char_digito. apply Z.mod_pos_bound. lia.
    - apply digit_char_digito. split.
      + apply Z.div_pos; lia.
      + apply Z.div_lt_upper_bound; lia. }
  unfold Py.format_comma_2f.
  destruct x as [neg | neg | | neg m e]; simpl; try apply H2;
    try destruct neg; reflexivity.
Qed.

(** X9.  The text of [,.2f] holds no underscore, so the three [replace]
    calls of line 249 lose nothing: applied twice, they give back the text
    of [,.2f], whatever the number. *)
Theorem separadores_duas_vezes (x : F64.float) :
  inverter_separadores (inverter_separadores (Py.format_comma_2f x))
  = Py.format_comma_2f x.
Proof.
  rewrite !inverter_separadores_map.
  apply map_troca_troca. apply format_comma_2f_sem_sublinhado.
Qed.

(* ================================================================= *)
(** ** Amounts with separators, and the result typed back *)

Lemma replace_app a b x y :
  Py.replace a b (x ++ y) = Py.replace a b x ++ Py.replace a b y.
Proof.
  induction x as [| c r IH]; simpl; [reflexivity |]. rewrite IH. reflexivity.
Qed.

Lemma replace_digitos d :
  todos Py.is_digit d = true -> Py.replace "," "." d = d.
Proof.
  induction d as [| c r IH]; simpl; [reflexivity |].
  intros H. apply andb_prop in H. destruct H as [Hc Hr].
  rewrite (IH Hr).
  destruct c as [[] [] [] [] [] [] [] []]; try discriminate Hc; reflexivity.
Qed.

Section DigitosDecimais.

Local Open Scope N_scope.

(** The digits of [string_of_uint], read from the left onto the value of
    the digits already read. *)
Lemma digits_value_uint d : forall d',
  Py.digits_value (DecimalPos.Unsigned.of_lu d') (NilEmpty.string_of_uint d)
  = DecimalPos.Unsigned.of_lu (Decimal.revapp d d').
Proof.
  induction d; intros d'; simpl NilEmpty.string_of_uint;
    simpl Decimal.revapp; try reflexivity;
    cbn [Py.digits_value]; rewrite <- IHd; f_equal;
    rewrite (DecimalPos.Unsigned.of_lu_eqn (_ d'));
    cbn [DecimalPos.Unsigned.hd DecimalPos.Unsigned.tl];
    unfold Py.digit_value; simpl N_of_ascii; lia.
Qed.

(** Writing a number in decimal and reading the digits gives the number. *)
Lemma digits_value_digits_of_Z z :
  Py.digits_value 0 (Py.digits_of_Z z) = Z.to_N z.
Proof.
  unfold Py.digits_of_Z.
  rewrite <- (DecimalN.Unsigned.of_to (Z.to_N z)) at 2.
  assert (Hn : N.to_uint (Z.to_N z) <> Decimal.Nil).
  { destruct (Z.to_N z); [discriminate |].
    apply DecimalPos.Unsigned.to_uint_nonnil. }
  destruct (N.to_uint (Z.to_N z)) as [| u | u | u | u | u | u | u | u | u | u] eqn:E;
    [contradiction Hn; reflexivity | ..];
    unfold NilZero.string_of_uint;
    change 0 with (DecimalPos.Unsigned.of_lu Decimal.Nil);
    rewrite digits_value_uint;
    unfold N.of_uint; rewrite DecimalPos.Unsigned.of_uint_alt; reflexivity.
Qed.

Lemma digits_value_limite s : forall acc,
  todos Py.is_digit s = true ->
  Py.digits_value acc s < (acc + 1) * 10 ^ N.of_nat (String.length s).
Proof.
  induction s as [| c r IH]; intros acc H.
  - simpl. lia.
  - simpl in H. apply andb_prop in H. destruct H as [Hc Hr].
    cbn [Py.digits_value String.length].
    specialize (IH (10 * acc + Py.digit_value c) Hr).
    rewrite Nat2N.inj_succ, N.pow_succ_r'.
    assert (Hd : Py.digit_value c <= 9).
    { destruct c as [[] [] [] [] [] [] [] []]; try discriminate Hc;
        vm_compute; discriminate. }
    nia.
Qed.

Lemma digits_value_app a b : forall acc,
  Py.digits_value acc (a ++ b) = Py.digits_value (Py.digits_value acc a) b.
Proof.
  induction a as [| c r IH]; intros acc; simpl; [reflexivity |]. apply IH.
Qed.

End DigitosDecimais.

Section DeVolta.

(** How many digits a number has, against one thousand. *)
Lemma digitos_ate_mil z :
  (0 <= z < 1000)%Z -> (String.length (Py.digits_of_Z z) <= 3)%nat.
Proof.
  intros Hz.
  assert (H : forallb (fun i => Nat.leb (String.length
                                           (Py.digits_of_Z (Z.of_nat i))) 3)
                (seq 0 1000) = true) by (vm_compute; reflexivity).
  rewrite forallb_forall in H.
  specialize (H (Z.to_nat z)). rewrite Z2Nat.id in H by lia.
  apply Nat.leb_le. apply H. apply in_seq. lia.
Qed.

Lemma digitos_desde_mil z :
  (1000 <= z)%Z -> (4 <= String.length (Py.digits_of_Z z))%nat.
Proof.
  intros Hz.
  pose proof (digits_value_limite (Py.digits_of_Z z) 0%N (digitos_de_Z z)) as H.
  rewrite digits_value_digits_of_Z in H.
  destruct (String.length (Py.digits_of_Z z)) as [| [| [| [| n]]]];
    try lia; simpl in H; lia.
Qed.

(** Up to three digits make one group. *)
Lemma group3_curto sep d :
  (String.length d <= 3)%nat -> Py.group3 sep d = d.
Proof.
  destruct d as [| a [| b [| c [| e r]]]]; simpl; intros H;
    try reflexivity; lia.
Qed.

Lemma length_rev_str t : forall acc,
  String.length (Py.rev_str acc t)
  = (String.length acc + String.length t)%nat.
Proof.
  induction t as [| c r IH]; intros acc; simpl; [lia |].
  rewrite IH. simpl. lia.
Qed.

(** Four digits and more are separated. *)
Lemma group3_longo d :
  (4 <= String.length d)%nat ->
  todos Py.is_digit (Py.group3 "." d) = false.
Proof.
  intros H. unfold Py.group3. rewrite todos_rev. simpl.
  pose proof (length_rev_str d "") as Hl. simpl in Hl.
  destruct (Py.rev_str "" d) as [| a [| b [| c [| e r]]]];
    simpl in Hl; try lia.
  simpl. destruct (Py.is_digit a), (Py.is_digit b), (Py.is_digit c);
    reflexivity.
Qed.

Lemma group3_digito_ponto d :
  todos Py.is_digit d = true ->
  todos digito_ponto (Py.group3 "." d) = true.
Proof.
  intros H. unfold Py.group3. rewrite todos_rev. simpl.
  apply todos_insert_sep; [reflexivity |].
  rewrite todos_rev. simpl.
  apply todos_impl with (P := Py.is_digit); [| exact H].
  intros c Hc. unfold digito_ponto. rewrite Hc. reflexivity.
Qed.

(** A text of digits and points with a point in it: the digits before
    its first point, and the rest. *)
Lemma primeiro_ponto t :
  todos digito_ponto t = true ->
  todos Py.is_digit t = false ->
  exists d resto,
    t = d ++ String "." resto /\
    todos Py.is_digit d = true /\ todos digito_ponto resto = true.
Proof.
  induction t as [| c r IH]; simpl; intros H1 H2; [discriminate H2 |].
  apply andb_prop in H1. destruct H1 as [Hc Hr].
  destruct (Py.is_digit c) eqn:E.
  - destruct (IH Hr H2) as (d & resto & -> & Hd & Hre).
    exists (String c d), resto. simpl. rewrite E, Hd. repeat split.
    exact Hre.
  - exists "", r. unfold digito_ponto in Hc. rewrite E in Hc. simpl in Hc.
    apply Ascii.eqb_eq in Hc. subst c. repeat split. exact Hr.
Qed.

Lemma replace_digito_ponto t :
  todos digito_ponto t = true -> Py.replace "," "." t = t.
Proof.
  induction t as [| c r IH]; simpl; [reflexivity |].
  intros H. apply andb_prop in H. destruct H as [Hc Hr].
  rewrite (IH Hr).
  destruct c as [[] [] [] [] [] [] [] []]; try discriminate Hc; reflexivity.
Qed.

Lemma digito_ponto_limpo c :
  digito_ponto c = true ->
  negb (Ascii.eqb c "_") = true /\ negb (Py.is_space c) = true.
Proof. apply digito_ou_ponto. Qed.

(** [float] on a sign and a text of digits and points: the underscore
    pass and [strip] change nothing and the sign is split off. *)
Lemma float_of_str_sinal neg c r :
  digito_ponto c = true ->
  todos digito_ponto r = true ->
  Py.float_of_str (Py.sign_str neg ++ String c r)
  = match Py.parse_decimal (Py.sign_str neg ++ String c r) with
    | Some x => Some x
    | None => None
    end /\
  Py.split_sign (Py.sign_str neg ++ String c r) = (neg, String c r).
Proof.
  intros Hc Hr.
  assert (HP : forall P : ascii -> bool,
             P "-"%char = true ->
             (forall a, digito_ponto a = true -> P a = true) ->
             todos P (Py.sign_str neg ++ String c r) = true).
  { intros P Hm HP. rewrite todos_app. simpl.
    rewrite (HP c Hc), (todos_impl digito_ponto P r HP Hr).
    destruct neg; simpl; rewrite ?Hm; reflexivity. }
  assert (Hs : Py.split_sign (Py.sign_str neg ++ String c r)
               = (neg, String c r)).
  { destruct neg; [reflexivity |]. apply split_sign_sem. exact Hc. }
  split; [| exact Hs].
  unfold Py.float_of_str.
  rewrite drop_underscores_sem; [| reflexivity |].
  2:{ apply HP; [reflexivity |]. intros a Ha. apply (digito_ponto_limpo a Ha). }
  unfold Py.strip. rewrite lstrip_sem, rstrip_sem.
  2,3: apply HP; [reflexivity |]; intros a Ha; apply (digito_ponto_limpo a Ha).
  destruct (Py.parse_decimal _); [reflexivity |].
  unfold Py.parse_inf_nan. rewrite Hs.
  destruct c as [[] [] [] [] [] [] [] []]; try discriminate Hc; reflexivity.
Qed.

(** [float] refuses a text with two points, signed or not. *)
Lemma float_of_str_sinal_dois_pontos neg d1 d2 resto :
  todos Py.is_digit d1 = true ->
  todos Py.is_digit d2 = true ->
  todos digito_ponto resto = true ->
  Py.float_of_str
    (Py.sign_str neg ++ d1 ++ String "." (d2 ++ String "." resto)) = None.
Proof.
  intros H1 H2 H3.
  assert (Hd : forall d, todos Py.is_digit d = true ->
                         todos digito_ponto d = true).
  { intros d. apply todos_impl. intros c Hc. unfold digito_ponto.
    rewrite Hc. reflexivity. }
  assert (Hc : exists c r,
             d1 ++ String "." (d2 ++ String "." resto) = String c r /\
             digito_ponto c = true /\ todos digito_ponto r = true).
  { assert (Ht : todos digito_ponto (d2 ++ String "." resto) = true).
    { rewrite todos_app. simpl. rewrite (Hd d2 H2), H3. reflexivity. }
    destruct d1 as [| c r]; simpl.
    - exists "."%char, (d2 ++ String "." resto). repeat split. exact Ht.
    - simpl in H1. apply andb_prop in H1. destruct H1 as [Hc Hr].
      exists c, (r ++ String "." (d2 ++ String "." resto)).
      repeat split.
      + unfold digito_ponto. rewrite Hc. reflexivity.
      + rewrite todos_app. simpl. rewrite (Hd r Hr), Ht. reflexivity. }
  destruct Hc as (c & r & Ht & Hc & Hr).
  destruct (float_of_str_sinal neg c r Hc Hr) as [Hf Hs].
  rewrite <- Ht in Hf, Hs. rewrite Hf.
  unfold Py.parse_decimal. rewrite Hs.
  rewrite (span_digits_ponto d1 _ H1), (span_digits_ponto d2 _ H2).
  destruct (d1 ++ d2); reflexivity.
Qed.

(** [float] on a signed decimal literal. *)
Lemma float_of_str_sinal_decimal neg d1 d2 :
  todos Py.is_digit d1 = true ->
  todos Py.is_digit d2 = true ->
  d1 ++ d2 <> "" ->
  Py.float_of_str (Py.sign_str neg ++ d1 ++ String "." d2)
  = Some (F64.of_decimal neg (Py.digits_value 0 (d1 ++ d2))
            (- Z.of_nat (String.length d2))).
Proof.
  intros H1 H2 Hne.
  assert (Hd : forall d, todos Py.is_digit d = true ->
                         todos digito_ponto d = true).
  { intros d. apply todos_impl. intros c Hc. unfold digito_ponto.
    rewrite Hc. reflexivity. }
  assert (Hc : exists c r,
             d1 ++ String "." d2 = String c r /\
             digito_ponto c = true /\ todos digito_ponto r = true).
  { destruct d1 as [| c r]; simpl.
    - exists "."%char, d2. repeat split. apply Hd. exact H2.
    - simpl in H1. apply andb_prop in H1. destruct H1 as [Hc Hr].
      exists c, (r ++ String "." d2). repeat split.
      + unfold digito_ponto. rewrite Hc. reflexivity.
      + rewrite todos_app. simpl. rewrite (Hd r Hr), (Hd d2 H2).
        reflexivity. }
  destruct Hc as (c & r & Ht & Hc & Hr).
  destruct (float_of_str_sinal neg c r Hc Hr) as [Hf Hs].
  rewrite <- Ht in Hf, Hs. rewrite Hf.
  unfold Py.parse_decimal. rewrite Hs.
  rewrite (span_digits_ponto d1 d2 H1), (span_digits_todos d2 H2).
  destruct (d1 ++ d2) eqn:E; [contradiction Hne; reflexivity |].
  simpl Py.parse_exponent. cbv iota beta. rewrite Z.sub_0_l. reflexivity.
Qed.

Lemma digit_value_digit_char k :
  (0 <= k < 10)%Z -> Py.digit_value (Py.digit_char k) = Z.to_N k.
Proof.
  intros H.
  assert (E : (k = 0 \/ k = 1 \/ k = 2 \/ k = 3 \/ k = 4 \/ k = 5 \/ k = 6
               \/ k = 7 \/ k = 8 \/ k = 9)%Z) by lia.
  repeat destruct E as [-> | E]; try subst k; reflexivity.
Qed.

(** The digits of the integer part followed by the two digits of the
    cents are the digits of the number of hundredths. *)
Lemma digits_value_centesimos c :
  (0 <= c)%Z ->
  Py.digits_value 0 (Py.digits_of_Z (c / 100) ++ Py.two_digits (c mod 100))
  = Z.to_N c.
Proof.
  intros Hc.
  assert (Hm : (0 <= c mod 100 < 100)%Z) by (apply Z.mod_pos_bound; lia).
  assert (Hq : (0 <= c / 100)%Z) by (apply Z.div_pos; lia).
  rewrite digits_value_app, digits_value_digits_of_Z.
  unfold Py.two_digits. cbn [Py.digits_value].
  rewrite !digit_value_digit_char.
  - pose proof (Z.div_mod c 100 ltac:(lia)) as E1.
    pose proof (Z.div_mod (c mod 100) 10 ltac:(lia)) as E2.
    assert (H1 : (0 <= c mod 100 / 10)%Z) by (apply Z.div_pos; lia).
    assert (H2 : (0 <= (c mod 100) mod 10 < 10)%Z)
      by (apply Z.mod_pos_bound; lia).
    lia.
  - apply Z.mod_pos_bound. lia.
  - split; [apply Z.div_pos; lia | apply Z.div_lt_upper_bound; lia].
Qed.

Lemma centavos_nao_neg m e : (0 <= Py.centavos m e)%Z.
Proof.
  unfold Py.centavos. destruct e as [| p | p].
  - simpl. lia.
  - assert (0 < 2 ^ Z.pos p)%Z by (apply Z.pow_pos_nonneg; lia). nia.
  - assert (Hd : (0 < 2 ^ Z.pos p)%Z) by (apply Z.pow_pos_nonneg; lia).
    assert (Hq : (0 <= 100 * Z.pos m / 2 ^ Z.pos p)%Z)
      by (apply Z.div_pos; lia).
    cbv zeta.
    destruct (2 * ((100 * Z.pos m) mod 2 ^ Z.pos p) ?= 2 ^ Z.pos p)%Z;
      [destruct (Z.even _) | |]; lia.
Qed.

(** The text shown for a number of hundredths, with its comma replaced. *)
Lemma replace_fixed2 neg c :
  Py.replace "," "." (Py.fixed2 "." "," neg c)
  = Py.sign_str neg ++ Py.group3 "." (Py.digits_of_Z (c / 100))
    ++ String "." (Py.two_digits (c mod 100)).
Proof.
  assert (Hm : (0 <= c mod 100 < 100)%Z) by (apply Z.mod_pos_bound; lia).
  unfold Py.fixed2. rewrite !replace_app.
  rewrite (replace_digito_ponto (Py.group3 _ _))
    by (apply group3_digito_ponto, digitos_de_Z).
  change (Py.replace "," "." (String "," (Py.two_digits (c mod 100))))
    with (String "." (Py.replace "," "." (Py.two_digits (c mod 100)))).
  rewrite (replace_digitos (Py.two_digits _)).
  - destruct neg; reflexivity.
  - unfold Py.two_digits. simpl.
    rewrite !digit_char_digito; [reflexivity | |].
    + apply Z.mod_pos_bound. lia.
    + split; [apply Z.div_pos; lia | apply Z.div_lt_upper_bound; lia].
Qed.

Lemma two_digits_digitos f :
  (0 <= f < 100)%Z -> todos Py.is_digit (Py.two_digits f) = true.
Proof.
  intros H. unfold Py.two_digits. simpl.
  rewrite !digit_char_digito; [reflexivity | |].
  - apply Z.mod_pos_bound. lia.
  - split; [apply Z.div_pos; lia | apply Z.div_lt_upper_bound; lia].
Qed.

(** Below one thousand the text shown is read back as the number shown;
    from one thousand on it holds two points and is refused. *)
Lemma fixed2_de_volta neg c :
  (0 <= c)%Z ->
  ((c < 100000)%Z ->
   Py.float_of_str (Py.replace "," "." (Py.fixed2 "." "," neg c))
   = Some (F64.of_decimal neg (Z.to_N c) (-2))) /\
  ((100000 <= c)%Z ->
   Py.float_of_str (Py.replace "," "." (Py.fixed2 "." "," neg c)) = None).
Proof.
  intros Hc.
  assert (Hm : (0 <= c mod 100 < 100)%Z) by (apply Z.mod_pos_bound; lia).
  rewrite replace_fixed2. split; intros Hl.
  - rewrite group3_curto.
    2:{ apply digitos_ate_mil. split; [apply Z.div_pos; lia |].
        apply Z.div_lt_upper_bound; lia. }
    rewrite float_of_str_sinal_decimal.
    + rewrite digits_value_centesimos by exact Hc. reflexivity.
    + apply digitos_de_Z.
    + apply two_digits_digitos. exact Hm.
    + unfold Py.two_digits. destruct (Py.digits_of_Z (c / 100)); discriminate.
  - assert (Hq : (1000 <= c / 100)%Z) by (apply Z.div_le_lower_bound; lia).
    destruct (primeiro_ponto (Py.group3 "." (Py.digits_of_Z (c / 100))))
      as (d1 & resto & E & Hd1 & Hre).
    { apply group3_digito_ponto, digitos_de_Z. }
    { apply group3_longo, digitos_desde_mil. exact Hq. }
    rewrite E.
    destruct (primeiro_ponto
                (resto ++ String "." (Py.two_digits (c mod 100))))
      as (d2 & resto2 & E2 & Hd2 & Hre2).
    { rewrite todos_app. cbn [todos]. rewrite Hre.
      change (digito_ponto ".") with true. cbn [andb].
      apply todos_impl with (P := Py.is_digit);
        [| apply two_digits_digitos; exact Hm].
      intros a Ha. unfold digito_ponto. rewrite Ha. reflexivity. }
    { rewrite todos_app. simpl. apply andb_false_r. }
    rewrite str_app_assoc. simpl. rewrite E2.
    apply float_of_str_sinal_dois_pontos; assumption.
Qed.

End DeVolta.

(** X10.  An amount typed with two separators, such as a period between
    the thousands and a comma before the cents, is not converted: the comma
    becomes a second point, [float] refuses the text, and the error box is
    shown without any request. *)
Theorem valor_com_dois_separadores_recusado (s : estado)
    (d1 d2 d3 : string) (sep1 sep2 : ascii) :
  todos Py.is_digit d1 = true ->
  todos Py.is_digit d2 = true ->
  todos Py.is_digit d3 = true ->
  sep1 = ","%char \/ sep1 = "."%char ->
  sep2 = ","%char \/ sep2 = "."%char ->
  input_valor s = d1 ++ String sep1 (d2 ++ String sep2 d3) ->
  currentText (combo_origem s) <> currentText (combo_destino s) ->
  converter_moeda s
  = (Retorno tt,
     recuperado (iniciada s)
       (FloatValueError (d1 ++ String "." (d2 ++ String "." d3)))) /\
  pedidos (snd (converter_moeda s)) = pedidos s /\
  exists d,
    dialogos (snd (converter_moeda s)) = (dialogos s ++ [d])%list /\
    caixa d = Critical /\ titulo d = "Erro de API".
Proof.
  intros H1 H2 H3 Hs1 Hs2 Hin Hne.
  assert (Ht : valor_texto s = d1 ++ String "." (d2 ++ String "." d3)).
  { unfold valor_texto. rewrite Hin.
    rewrite replace_app. simpl. rewrite replace_app. simpl.
    rewrite !replace_digitos by assumption.
    destruct Hs1 as [-> | ->]; destruct Hs2 as [-> | ->]; reflexivity. }
  assert (Hv : valor_texto s <> "").
  { rewrite Ht. destruct d1; discriminate. }
  assert (Hf : Py.float_of_str (valor_texto s) = None).
  { rewrite Ht.
    apply (float_of_str_sinal_dois_pontos false d1 d2 d3 H1 H2).
    apply todos_impl with (P := Py.is_digit); [| exact H3].
    intros c Hc. unfold digito_ponto. rewrite Hc. reflexivity. }
  rewrite (converter_moeda_nao_numerico s Hne Hv Hf), Ht.
  split; [reflexivity |]. split; [reflexivity |].
  eexists. repeat split.
Qed.

Lemma valor_com_dois_separadores_recusado_exemplo :
  converter_moeda (janela rede_direta 0 1 "1.234,56")
  = (Retorno tt,
     recuperado (iniciada (janela rede_direta 0 1 "1.234,56"))
       (FloatValueError "1.234.56")) /\
  pedidos (snd (converter_moeda (janela rede_direta 0 1 "1.234,56"))) = [] /\
  exists d,
    dialogos (snd (converter_moeda (janela rede_direta 0 1 "1.234,56")))
    = [d] /\
    caixa d = Critical /\ titulo d = "Erro de API".
Proof.
  apply (valor_com_dois_separadores_recusado
           (janela rede_direta 0 1 "1.234,56") "1" "234" "56" "." ",").
  - reflexivity.
  - reflexivity.
  - reflexivity.
  - right. reflexivity.
  - left. reflexivity.
  - reflexivity.
  - discriminate.
Defined.

(** The text shown for a finite number is the text of its hundredths. *)
Lemma format_2f_centesimos x :
  F64.is_finite x = true ->
  inverter_separadores (Py.format_comma_2f x)
  = Py.fixed2 "." "," (negativo x) (centesimos x) /\
  (0 <= centesimos x)%Z.
Proof.
  intros Hf. rewrite (inverter_format_2f x Hf). split.
  - destruct x; try discriminate Hf; reflexivity.
  - destruct x; simpl; try lia. apply centavos_nao_neg.
Qed.

(** X11.  A result below one thousand can be typed back as it is shown:
    for a finite result whose displayed value is below 1.000,00, the text
    of the result label, passed through the [replace] of line 221, is
    converted by [float] to the very number shown, that is the result
    rounded to hundredths, with its sign. *)
Theorem resultado_abaixo_de_mil_digitado (x : F64.float) :
  F64.is_finite x = true ->
  (centesimos x < 100000)%Z ->
  float_str (Py.replace "," "."
               (inverter_separadores (Py.format_comma_2f x)))
  = Retorno (F64.of_decimal (negativo x) (Z.to_N (centesimos x)) (-2)).
Proof.
  intros Hf Hl. destruct (format_2f_centesimos x Hf) as [-> Hc].
  unfold float_str.
  rewrite (proj1 (fixed2_de_volta (negativo x) (centesimos x) Hc) Hl).
  reflexivity.
Qed.

Lemma resultado_abaixo_de_mil_digitado_exemplo :
  float_str (Py.replace "," "."
               (inverter_separadores
                  (Py.format_comma_2f (F64.of_decimal false 123456 (-3)))))
  = Retorno (F64.of_decimal false 12346 (-2)).
Proof.
  apply (resultado_abaixo_de_mil_digitado (F64.of_decimal false 123456 (-3))).
  - reflexivity.
  - reflexivity.
Defined.

(** X12.  A result from one thousand on cannot be typed back as it is
    shown: its text holds a group period, which with the decimal comma
    replaced makes two points, so [float] refuses it and [converter_moeda]
    answers the text with the error box, without any request. *)
Theorem resultado_desde_mil_recusado (x : F64.float) (s : estado) :
  F64.is_finite x = true ->
  (100000 <= centesimos x)%Z ->
  input_valor s = inverter_separadores (Py.format_comma_2f x) ->
  currentText (combo_origem s) <> currentText (combo_destino s) ->
  float_str (valor_texto s) = Excecao (FloatValueError (valor_texto s)) /\
  converter_moeda s
  = (Retorno tt, recuperado (iniciada s) (FloatValueError (valor_texto s))) /\
  pedidos (snd (converter_moeda s)) = pedidos s.
Proof.
  intros Hf Hl Hin Hne.
  destruct (format_2f_centesimos x Hf) as [E Hc].
  assert (Ht : valor_texto s
               = Py.replace "," "."
                   (Py.fixed2 "." "," (negativo x) (centesimos x))).
  { unfold valor_texto. rewrite Hin, E. reflexivity. }
  assert (Hn : Py.float_of_str (valor_texto s) = None).
  { rewrite Ht.
    apply (proj2 (fixed2_de_volta (negativo x) (centesimos x) Hc) Hl). }
  assert (Hv : valor_texto s <> "").
  { rewrite Ht, replace_fixed2.
    destruct (negativo x); [discriminate |].
    destruct (Py.group3 _ _); discriminate. }
  rewrite (converter_moeda_nao_numerico s Hne Hv Hn).
  unfold float_str. rewrite Hn. repeat split.
Qed.

Lemma resultado_desde_mil_recusado_exemplo :
  float_str (valor_texto (janela rede_direta 0 1 "6.172.839,46"))
  = Excecao (FloatValueError
               (valor_texto (janela rede_direta 0 1 "6.172.839,46"))) /\
  converter_moeda (janela rede_direta 0 1 "6.172.839,46")
  = (Retorno tt,
     recuperado (iniciada (janela rede_direta 0 1 "6.172.839,46"))
       (FloatValueError
          (valor_texto (janela rede_direta 0 1 "6.172.839,46")))) /\
  pedidos (snd (converter_moeda (janela rede_direta 0 1 "6.172.839,46")))
  = [].
Proof.
  apply (resultado_desde_mil_recusado
           (F64.mul (F64.of_decimal false 1234567891 (-3))
              (F64.of_decimal false 500 (-2)))
           (janela rede_direta 0 1 "6.172.839,46")).
  - reflexivity.
  - vm_compute. discriminate.
  - vm_compute. reflexivity.
  - discriminate.
Defined.

(* ================================================================= *)
(** ** Further properties of [carregar_config] *)

Section Selecao.

Lemma findText_de_dentro l t : forall i,
  In t l ->
  (i <= findText_de i l t < i + Z.of_nat (List.length l))%Z /\
  nth (Z.to_nat (findText_de i l t - i)) l "" = t.
Proof.
  induction l as [| x r IH]; intros i Hin; [contradiction |].
  simpl findText_de. destruct (String.eqb_spec x t) as [-> | Hne].
  - split; [simpl List.length; lia |]. rewrite Z.sub_diag. reflexivity.
  - destruct Hin as [-> | Hin]; [contradiction Hne; reflexivity |].
    destruct (IH (i + 1)%Z Hin) as [Hb Hn]. split.
    + simpl List.length. lia.
    + replace (findText_de (i + 1) r t - i)%Z
        with (Z.succ (findText_de (i + 1) r t - (i + 1)))%Z by lia.
      rewrite Z2Nat.inj_succ by lia. simpl. exact Hn.
Qed.

Lemma findText_de_fora l t : forall i,
  ~ In t l -> findText_de i l t = (-1)%Z.
Proof.
  induction l as [| x r IH]; intros i Hin; [reflexivity |].
  simpl. destruct (String.eqb_spec x t) as [-> | Hne].
  - contradiction Hin. left. reflexivity.
  - apply IH. intros H. apply Hin. right. exact H.
Qed.

(** A text among the items is found, and selecting what [findText] found
    shows that text. *)
Lemma setCurrentIndex_findText c t :
  In t (itens c) ->
  (0 <=? findText_de 0 (itens c) t)%Z = true /\
  currentText (setCurrentIndex (findText_de 0 (itens c) t) c) = t.
Proof.
  intros Hin. destruct (findText_de_dentro (itens c) t 0 Hin) as [Hb Hn].
  split; [apply Z.leb_le; lia |].
  unfold currentText, setCurrentIndex. simpl.
  destruct (Z.ltb_spec (findText_de 0 (itens c) t) 0) as [H | H]; [lia |].
  rewrite Z.sub_0_r in Hn. exact Hn.
Qed.

(** One selection of [carregar_config], for a text among the items. *)
Lemma selecionar_texto t obter gravar s :
  t <> "" -> In t (itens (obter s)) ->
  selecionar (JStr t) obter gravar s
  = (Retorno tt,
     gravar (setCurrentIndex (findText_de 0 (itens (obter s)) t) (obter s)) s).
Proof.
  intros Hne Hin. apply String.eqb_neq in Hne.
  unfold selecionar, verdadeiro. rewrite Hne. simpl.
  unfold bind, ler, lift, findText.
  destruct (setCurrentIndex_findText (obter s) t Hin) as [-> _].
  reflexivity.
Qed.

(** One selection of [carregar_config], for a value without effect. *)
Lemma selecionar_sem_efeito v obter gravar s :
  sem_efeito (obter s) v ->
  selecionar v obter gravar s = (Retorno tt, s).
Proof.
  intros [Hf | (t & -> & Hin)]; unfold selecionar.
  - rewrite Hf. reflexivity.
  - destruct (verdadeiro (JStr t)); [| reflexivity].
    unfold bind, ler, lift, findText.
    rewrite (findText_de_fora _ _ 0%Z Hin). reflexivity.
Qed.

(** Both fields name currencies of the lists: both are selected. *)
Lemma carregar_config_textos s campos o d :
  arquivo_config s = Conteudo (JObj campos) ->
  campo "origem" campos = Some (JStr o) ->
  campo "destino" campos = Some (JStr d) ->
  o <> "" -> d <> "" ->
  In o (itens (combo_origem s)) ->
  In d (itens (combo_destino s)) ->
  carregar_config s
  = (Retorno tt,
     com_registro (registro s ++ [(INFO, LogConfigCarregada)])%list
       (com_combo_destino
          (setCurrentIndex (findText_de 0 (itens (combo_destino s)) d)
             (combo_destino s))
          (com_combo_origem
             (setCurrentIndex (findText_de 0 (itens (combo_origem s)) o)
                (combo_origem s)) s))).
Proof.
  intros Ha Ho Hd Hno Hnd Hio Hid.
  unfold carregar_config, bind at 1, ler. rewrite Ha.
  unfold try_except, bind at 1, ret, bind at 1, lift, dict_get.
  rewrite Ho. unfold bind at 1. rewrite Hd. unfold bind at 1.
  rewrite (selecionar_texto o combo_origem com_combo_origem s Hno Hio).
  unfold bind at 1.
  rewrite selecionar_texto; [| exact Hnd | exact Hid].
  reflexivity.
Qed.

Lemma moeda_nao_vazia t : In t moedas -> t <> "".
Proof.
  simpl. intros H. repeat destruct H as [<- | H]; try discriminate.
  contradiction H.
Qed.

End Selecao.

(** X13.  A configuration file that holds an object naming, under
    ["origem"] and ["destino"], two currencies of the lists makes
    [carregar_config] select them: the combos show the two saved texts,
    their items are unchanged, and one [INFO] record is logged. *)
Theorem config_aplicada (s : estado) (campos : list (string * json))
    (o d : string) :
  arquivo_config s = Conteudo (JObj campos) ->
  campo "origem" campos = Some (JStr o) ->
  campo "destino" campos = Some (JStr d) ->
  o <> "" -> d <> "" ->
  In o (itens (combo_origem s)) ->
  In d (itens (combo_destino s)) ->
  fst (carregar_config s) = Retorno tt /\
  currentText (combo_origem (snd (carregar_config s))) = o /\
  currentText (combo_destino (snd (carregar_config s))) = d /\
  itens (combo_origem (snd (carregar_config s))) = itens (combo_origem s) /\
  itens (combo_destino (snd (carregar_config s))) = itens (combo_destino s) /\
  registro (snd (carregar_config s))
  = (registro s ++ [(INFO, LogConfigCarregada)])%list.
Proof.
  intros Ha Ho Hd Hno Hnd Hio Hid.
  rewrite (carregar_config_textos s campos o d Ha Ho Hd Hno Hnd Hio Hid).
  cbn [fst snd combo_origem combo_destino registro com_registro
       com_combo_origem com_combo_destino].
  destruct (setCurrentIndex_findText _ _ Hio) as [_ ->].
  destruct (setCurrentIndex_findText _ _ Hid) as [_ ->].
  repeat split.
Qed.

Lemma config_aplicada_exemplo :
  fst (carregar_config
         (janela_inicial rede_fora
            (Conteudo (JObj [("origem", JStr "EUR");
                             ("destino", JStr "JPY")]))))
  = Retorno tt /\
  currentText (combo_origem (snd (carregar_config
         (janela_inicial rede_fora
            (Conteudo (JObj [("origem", JStr "EUR");
                             ("destino", JStr "JPY")])))))) = "EUR" /\
  currentText (combo_destino (snd (carregar_config
         (janela_inicial rede_fora
            (Conteudo (JObj [("origem", JStr "EUR");
                             ("destino", JStr "JPY")])))))) = "JPY" /\
  itens (combo_origem (snd (carregar_config
         (janela_inicial rede_fora
            (Conteudo (JObj [("origem", JStr "EUR");
                             ("destino", JStr "JPY")])))))) = moedas /\
  itens (combo_destino (snd (carregar_config
         (janela_inicial rede_fora
            (Conteudo (JObj [("origem", JStr "EUR");
                             ("destino", JStr "JPY")])))))) = moedas /\
  registro (snd (carregar_config
         (janela_inicial rede_fora
            (Conteudo (JObj [("origem", JStr "EUR");
                             ("destino", JStr "JPY")])))))
  = [(INFO, LogConfigCarregada)].
Proof.
  apply (config_aplicada
           (janela_inicial rede_fora
              (Conteudo (JObj [("origem", JStr "EUR");
                               ("destino", JStr "JPY")])))
           [("origem", JStr "EUR"); ("destino", JStr "JPY")] "EUR" "JPY").
  - reflexivity.
  - reflexivity.
  - reflexivity.
  - discriminate.
  - discriminate.
  - simpl. auto.
  - simpl. auto 10.
Defined.

(** X14.  A field that is missing, null, empty, or a text that is not
    among the items of its combo is passed over in silence: when both
    fields are so, [carregar_config] changes no selection and still logs
    that the configuration was loaded. *)
Theorem config_sem_efeito (s : estado) (campos : list (string * json))
    (vo vd : json) :
  arquivo_config s = Conteudo (JObj campos) ->
  dict_get (JObj campos) "origem" = Retorno vo ->
  dict_get (JObj campos) "destino" = Retorno vd ->
  sem_efeito (combo_origem s) vo ->
  sem_efeito (combo_destino s) vd ->
  carregar_config s
  = (Retorno tt,
     com_registro (registro s ++ [(INFO, LogConfigCarregada)])%list s).
Proof.
  intros Ha Ho Hd Heo Hed.
  unfold carregar_config, bind at 1, ler. rewrite Ha.
  unfold try_except, bind at 1, ret, bind at 1, lift.
  rewrite Ho. unfold bind at 1. rewrite Hd. unfold bind at 1.
  rewrite (selecionar_sem_efeito vo combo_origem com_combo_origem s Heo).
  unfold bind at 1.
  rewrite (selecionar_sem_efeito vd combo_destino com_combo_destino s Hed).
  reflexivity.
Qed.

Lemma config_sem_efeito_exemplo :
  carregar_config
    (janela_inicial rede_fora (Conteudo (JObj [("origem", JStr "BTC")])))
  = (Retorno tt,
     com_registro [(INFO, LogConfigCarregada)]
       (janela_inicial rede_fora (Conteudo (JObj [("origem", JStr "BTC")])))).
Proof.
  apply (config_sem_efeito
           (janela_inicial rede_fora (Conteudo (JObj [("origem", JStr "BTC")])))
           [("origem", JStr "BTC")] (JStr "BTC") JNull).
  - reflexivity.
  - reflexivity.
  - reflexivity.
  - right. exists "BTC". split; [reflexivity |].
    simpl. intros H. repeat destruct H as [H | H]; try discriminate H.
    exact H.
  - left. reflexivity.
Defined.

(** X15.  The two selections are applied one after the other inside one
    [try]: when the origin names a currency of the list and the
    destination is a true value that is no text, the origin is selected
    before [findText] refuses the destination, and the error that is
    logged leaves that selection in place. *)
Theorem config_aplicada_em_parte (s : estado) (campos : list (string * json))
    (o : string) (vd : json) :
  arquivo_config s = Conteudo (JObj campos) ->
  campo "origem" campos = Some (JStr o) ->
  campo "destino" campos = Some vd ->
  o <> "" -> In o (itens (combo_origem s)) ->
  verdadeiro vd = true -> (forall t, vd <> JStr t) ->
  carregar_config s
  = (Retorno tt,
     com_registro (registro s ++ [(ERROR, LogConfigFalha TypeError)])%list
       (com_combo_origem
          (setCurrentIndex (findText_de 0 (itens (combo_origem s)) o)
             (combo_origem s)) s)) /\
  currentText (combo_origem (snd (carregar_config s))) = o /\
  combo_destino (snd (carregar_config s)) = combo_destino s.
Proof.
  intros Ha Ho Hd Hno Hio Hv Ht.
  assert (E : carregar_config s
              = (Retorno tt,
                 com_registro
                   (registro s ++ [(ERROR, LogConfigFalha TypeError)])%list
                   (com_combo_origem
                      (setCurrentIndex
                         (findText_de 0 (itens (combo_origem s)) o)
                         (combo_origem s)) s))).
  { unfold carregar_config, bind at 1, ler. rewrite Ha.
    unfold try_except, bind at 1, ret, bind at 1, lift, dict_get.
    rewrite Ho. unfold bind at 1. rewrite Hd. unfold bind at 1.
    rewrite (selecionar_texto o combo_origem com_combo_origem s Hno Hio).
    unfold bind at 1, selecionar. rewrite Hv.
    unfold bind, ler, lift, findText.
    destruct vd as [| b | z | x | t | l | c]; try reflexivity.
    contradiction (Ht t). reflexivity. }
  rewrite E. split; [reflexivity |].
  cbn [fst snd combo_origem combo_destino com_registro com_combo_origem].
  destruct (setCurrentIndex_findText _ _ Hio) as [_ ->].
  split; reflexivity.
Qed.

Lemma config_aplicada_em_parte_exemplo :
  carregar_config
    (janela_inicial rede_fora
       (Conteudo (JObj [("origem", JStr "EUR"); ("destino", JInt 5)])))
  = (Retorno tt,
     com_registro [(ERROR, LogConfigFalha TypeError)]
       (com_combo_origem {| itens := moedas; indice := 2 |}
          (janela_inicial rede_fora
             (Conteudo (JObj [("origem", JStr "EUR");
                              ("destino", JInt 5)]))))) /\
  currentText (combo_origem (snd (carregar_config
    (janela_inicial rede_fora
       (Conteudo (JObj [("origem", JStr "EUR"); ("destino", JInt 5)]))))))
  = "EUR" /\
  combo_destino (snd (carregar_config
    (janela_inicial rede_fora
       (Conteudo (JObj [("origem", JStr "EUR"); ("destino", JInt 5)])))))
  = {| itens := moedas; indice := 0 |}.
Proof.
  apply (config_aplicada_em_parte
           (janela_inicial rede_fora
              (Conteudo (JObj [("origem", JStr "EUR"); ("destino", JInt 5)])))
           [("origem", JStr "EUR"); ("destino", JInt 5)] "EUR" (JInt 5)).
  - reflexivity.
  - reflexivity.
  - reflexivity.
  - discriminate.
  - simpl. auto.
  - reflexivity.
  - intros t H. discriminate H.
Defined.

(** X16.  Whatever the file holds, [carregar_config] makes no request,
    shows no message box, leaves the two labels, the text typed, the file
    and the items of the two combos as they are, and adds exactly one
    record to the log. *)
Theorem carregar_config_quadro (s : estado) :
  pedidos (snd (carregar_config s)) = pedidos s /\
  dialogos (snd (carregar_config s)) = dialogos s /\
  lbl_resultado (snd (carregar_config s)) = lbl_resultado s /\
  lbl_data_cotacao (snd (carregar_config s)) = lbl_data_cotacao s /\
  input_valor (snd (carregar_config s)) = input_valor s /\
  arquivo_config (snd (carregar_config s)) = arquivo_config s /\
  itens (combo_origem (snd (carregar_config s))) = itens (combo_origem s) /\
  itens (combo_destino (snd (carregar_config s))) = itens (combo_destino s) /\
  exists n ev,
    registro (snd (carregar_config s)) = (registro s ++ [(n, ev)])%list.
Proof.
  unfold carregar_config, selecionar, bind, try_except, lift, ret, raise,
    ler, logging, alterar.
  repeat caso;
    repeat match goal with
           | H : (_, _) = (_, _) |- _ => inversion H; clear H; subst
           end;
    simpl; repeat split;
    first [assumption | reflexivity | eexists; eexists; reflexivity].
Qed.

(* ================================================================= *)
(** ** From one session to the next: [closeEvent] and [__init__] *)

(** X17.  The selection saved at the end of a session is the selection of
    the next one: when [closeEvent] writes the file, the close event is
    accepted, and the window that [__init__] then builds from that file
    shows the two currencies that were selected when the window was
    closed. *)
Theorem selecao_salva_e_restaurada (s : estado)
    (r : nat -> string -> resultado_http) :
  itens (combo_origem s) = moedas ->
  itens (combo_destino s) = moedas ->
  (0 <= indice (combo_origem s) < 9)%Z ->
  (0 <= indice (combo_destino s) < 9)%Z ->
  aceito (closeEvent Gravada s) = true /\
  arquivo_config (apos_fecho (closeEvent Gravada s))
  = Conteudo (JObj [("origem", JStr (currentText (combo_origem s)));
                    ("destino", JStr (currentText (combo_destino s)))]) /\
  desfecho (__init__ r (arquivo_config (apos_fecho (closeEvent Gravada s))))
  = Retorno tt /\
  combo_origem
    (janela_aberta
       (__init__ r (arquivo_config (apos_fecho (closeEvent Gravada s)))))
  = combo_origem s /\
  combo_destino
    (janela_aberta
       (__init__ r (arquivo_config (apos_fecho (closeEvent Gravada s)))))
  = combo_destino s.
Proof.
  destruct s as [[io i] [id j] v l1 l2 rd p a dl rg]. simpl.
  intros -> -> Hi Hj.
  assert (Ei : (i = 0 \/ i = 1 \/ i = 2 \/ i = 3 \/ i = 4 \/ i = 5 \/ i = 6
                \/ i = 7 \/ i = 8)%Z) by lia.
  assert (Ej : (j = 0 \/ j = 1 \/ j = 2 \/ j = 3 \/ j = 4 \/ j = 5 \/ j = 6
                \/ j = 7 \/ j = 8)%Z) by lia.
  clear Hi Hj.
  repeat destruct Ei as [-> | Ei]; try subst i;
    repeat destruct Ej as [-> | Ej]; try subst j;
    repeat split.
Qed.

Lemma selecao_salva_e_restaurada_exemplo :
  aceito (closeEvent Gravada (janela_com rede_fora Ausente 2 3)) = true /\
  arquivo_config (apos_fecho (closeEvent Gravada
                                (janela_com rede_fora Ausente 2 3)))
  = Conteudo (JObj [("origem", JStr "EUR"); ("destino", JStr "JPY")]) /\
  desfecho (__init__ rede_direta
              (arquivo_config (apos_fecho
                 (closeEvent Gravada (janela_com rede_fora Ausente 2 3)))))
  = Retorno tt /\
  combo_origem
    (janela_aberta
       (__init__ rede_direta
          (arquivo_config (apos_fecho
             (closeEvent Gravada (janela_com rede_fora Ausente 2 3))))))
  = {| itens := moedas; indice := 2 |} /\
  combo_destino
    (janela_aberta
       (__init__ rede_direta
          (arquivo_config (apos_fecho
             (closeEvent Gravada (janela_com rede_fora Ausente 2 3))))))
  = {| itens := moedas; indice := 3 |}.
Proof.
  apply (selecao_salva_e_restaurada (janela_com rede_fora Ausente 2 3)
           rede_direta).
  - reflexivity.
  - reflexivity.
  - simpl. lia.
  - simpl. lia.
Defined.

(** X18.  Loading and saving agree: a file whose object names two
    currencies of the list is loaded by [__init__] and, when the window is
    closed with nothing changed, written back by [closeEvent] with the same
    two fields; fields other than these two are not kept. *)
Theorem config_carregada_e_regravada
    (r : nat -> string -> resultado_http) (campos : list (string * json))
    (o d : string) :
  campo "origem" campos = Some (JStr o) ->
  campo "destino" campos = Some (JStr d) ->
  In o moedas -> In d moedas ->
  desfecho (__init__ r (Conteudo (JObj campos))) = Retorno tt /\
  arquivo_config
    (apos_fecho
       (closeEvent Gravada
          (janela_aberta (__init__ r (Conteudo (JObj campos))))))
  = Conteudo (JObj [("origem", JStr o); ("destino", JStr d)]).
Proof.
  intros Ho Hd Hio Hid.
  unfold __init__.
  rewrite (carregar_config_textos (janela_inicial r (Conteudo (JObj campos)))
             campos o d eq_refl Ho Hd (moeda_nao_vazia o Hio)
             (moeda_nao_vazia d Hid) Hio Hid).
  split; [reflexivity |].
  unfold closeEvent.
  cbn [apos_fecho janela_aberta arquivo_config com_arquivo_config
       combo_origem combo_destino com_registro com_combo_origem
       com_combo_destino janela_inicial itens].
  destruct (setCurrentIndex_findText {| itens := moedas; indice := 0 |} o Hio)
    as [_ Eo].
  destruct (setCurrentIndex_findText {| itens := moedas; indice := 0 |} d Hid)
    as [_ Ed].
  cbn [itens] in Eo, Ed. rewrite Eo, Ed. reflexivity.
Qed.

Lemma config_carregada_e_regravada_exemplo :
  desfecho (__init__ rede_fora
              (Conteudo (JObj [("tema", JStr "escuro");
                               ("destino", JStr "JPY");
                               ("origem", JStr "EUR")]))) = Retorno tt /\
  arquivo_config
    (apos_fecho
       (closeEvent Gravada
          (janela_aberta
             (__init__ rede_fora
                (Conteudo (JObj [("tema", JStr "escuro");
                                 ("destino", JStr "JPY");
                                 ("origem", JStr "EUR")]))))))
  = Conteudo (JObj [("origem", JStr "EUR"); ("destino", JStr "JPY")]).
Proof.
  apply (config_carregada_e_regravada rede_fora
           [("tema", JStr "escuro"); ("destino", JStr "JPY");
            ("origem", JStr "EUR")] "EUR" "JPY").
  - reflexivity.
  - reflexivity.
  - simpl. auto.
  - simpl. auto 10.
Defined.

(** X19.  Without a selection to load (the file is absent, cannot be
    decoded, holds no object, or holds an object without the two fields),
    [__init__] returns with both combos on the first currency, USD: the
    destination is USD as well, not BRL.  So the first click on the button
    shows the warning about equal currencies, whatever amount was typed,
    and makes no request. *)
Theorem partida_sem_selecao (r : nat -> string -> resultado_http)
    (arq : arquivo) (t : string) :
  sem_selecao arq ->
  desfecho (__init__ r arq) = Retorno tt /\
  currentText (combo_origem (janela_aberta (__init__ r arq))) = "USD" /\
  currentText (combo_destino (janela_aberta (__init__ r arq))) = "USD" /\
  converter_moeda (com_input_valor t (janela_aberta (__init__ r arq)))
  = (Retorno tt,
     avisado "As moedas de origem e destino não podem ser as mesmas."
       (iniciada (com_input_valor t (janela_aberta (__init__ r arq))))) /\
  pedidos (snd (converter_moeda
                  (com_input_valor t (janela_aberta (__init__ r arq))))) = [].
Proof.
  intros H.
  assert (E : exists n ev,
             __init__ r arq
             = {| desfecho := Retorno tt;
                  janela_aberta :=
                    com_registro [(n, ev)] (janela_inicial r arq);
                  registro_partida := [(INFO, LogAplicacaoIniciada)] |}).
  { destruct arq as [| | j]; [do 2 eexists; reflexivity ..|].
    destruct j as [| b | z | x | u | l | campos];
      try (do 2 eexists; reflexivity).
    destruct H as [Ho Hd].
    unfold __init__, carregar_config, try_except, bind, ler, ret, lift,
      dict_get.
    cbn [arquivo_config janela_inicial]. rewrite Ho, Hd.
    do 2 eexists; reflexivity. }
  destruct E as (n & ev & ->).
  repeat split.
Qed.

Lemma partida_sem_selecao_exemplo :
  desfecho (__init__ rede_direta Ausente) = Retorno tt /\
  currentText (combo_origem (janela_aberta (__init__ rede_direta Ausente)))
  = "USD" /\
  currentText (combo_destino (janela_aberta (__init__ rede_direta Ausente)))
  = "USD" /\
  converter_moeda
    (com_input_valor "100" (janela_aberta (__init__ rede_direta Ausente)))
  = (Retorno tt,
     avisado "As moedas de origem e destino não podem ser as mesmas."
       (iniciada (com_input_valor "100"
                    (janela_aberta (__init__ rede_direta Ausente))))) /\
  pedidos (snd (converter_moeda
                  (com_input_valor "100"
                     (janela_aberta (__init__ rede_direta Ausente))))) = [].
Proof.
  apply (partida_sem_selecao rede_direta Ausente "100"). exact I.
Defined.
